(** * sphinxcontrib.mat_types: a shallow embedding and its properties

    The development follows [src/sphinxcontrib/mat_types.py]: the token
    helpers of [MatMixin], the parsers [MatFunction.__init__] and
    [MatClass.__init__], the namespace resolver [MatObject.matlabify], the
    base-class resolver [MatClass.__bases__] and the small entity classes.

    Conventions.
    - A Pygments token is a pair of a token type and its text.
    - A Python exception is a value of [PyErr]; a call either returns
      ([OK]), raises ([Raise]) or is cut off by the iteration bound of a
      [while] loop ([OutOfFuel]).
    - [while] loops over a token index take a [fuel] argument that bounds
      their number of iterations; loops that pop a list recurse on it. *)

From stdpp Require Import base option list strings gmap.
From Stdlib Require Import ZArith Ascii String.

Local Open Scope string_scope.

(** ** Tokens *)

(** The token types of [pygments.token] that the module tests with [is].
    [Whitespace] is [Token.Text.Whitespace], [NameFunction] is
    [Token.Name.Function]; every other type is [OtherType] with its name. *)
Inductive TokenType : Type :=
  | Keyword
  | Text
  | Whitespace
  | Name
  | NameFunction
  | Punctuation
  | Operator
  | Comment
  | OtherType (qualname : string).

#[global] Instance TokenType_eq_dec : EqDecision TokenType.
Proof. solve_decision. Defined.

Definition token : Type := TokenType * string.

(** [a is b] on token types, [a == b] on tokens. *)
Definition ttype_is (a b : TokenType) : bool := bool_decide (a = b).
Definition tok_eqb (a b : token) : bool := bool_decide (a = b).
Definition str_eqb (a b : string) : bool := bool_decide (a = b).

(** ** Python exceptions and results *)

Inductive PyErr : Type :=
  | TypeError (msg : string)
  | Exception (msg : string)
  | IndexError
  | AttributeError (msg : string)
  | KeyError (key : string).

Inductive result (A : Type) : Type :=
  | OK (a : A)
  | Raise (e : PyErr)
  | OutOfFuel.
Arguments OK {A} a.
Arguments Raise {A} e.
Arguments OutOfFuel {A}.

Definition rbind {A B : Type} (m : result A) (k : A -> result B) : result B :=
  match m with
  | OK a => k a
  | Raise e => Raise e
  | OutOfFuel => OutOfFuel
  end.

Notation "'do' p <- m ; k" := (rbind m (fun x => match x with p => k end))
  (at level 10, p pattern, m at level 100, k at level 200, only parsing).

(** The one-character strings: newline, tab and the double quote. *)
Definition nl : string := String (ascii_of_nat 10) EmptyString.
Definition tab : string := String (ascii_of_nat 9) EmptyString.
Definition dquote : string := String (ascii_of_nat 34) EmptyString.

(** ** Python string methods used by the module *)

Module PyStr.

(** Characters removed by [strip()] without argument. The texts of the
    tokens are unicode strings, and a character of a string is here a code
    point below 256: the whitespace among them is U+0009 to U+000D, U+001C
    to U+0020, U+0085 and U+00A0. *)
Definition is_space (c : ascii) : bool :=
  let n := nat_of_ascii c in
  (Nat.leb 9 n && Nat.leb n 13) || (Nat.leb 28 n && Nat.leb n 32)
  || Nat.eqb n 133 || Nat.eqb n 160.

Fixpoint mem (c : ascii) (chars : string) : bool :=
  match chars with
  | EmptyString => false
  | String d rest => if Ascii.eqb c d then true else mem c rest
  end.

Fixpoint lstrip_by (p : ascii -> bool) (s : string) : string :=
  match s with
  | EmptyString => EmptyString
  | String c rest => if p c then lstrip_by p rest else s
  end.

Definition rstrip_by (p : ascii -> bool) (s : string) : string :=
  String.rev (lstrip_by p (String.rev s)).

(** [s.lstrip(chars)], [s.strip(chars)], [s.strip()], [s.rstrip()] *)
Definition lstrip (chars s : string) : string :=
  lstrip_by (fun c => mem c chars) s.
Definition strip_chars (chars s : string) : string :=
  rstrip_by (fun c => mem c chars) (lstrip_by (fun c => mem c chars) s).
Definition strip (s : string) : string :=
  rstrip_by is_space (lstrip_by is_space s).
Definition rstrip (s : string) : string := rstrip_by is_space s.

(** [s.split(sep)] for a one-character separator: never empty. *)
Fixpoint split (sep : ascii) (s : string) : list string :=
  match s with
  | EmptyString => [EmptyString]
  | String c rest =>
      if Ascii.eqb c sep then EmptyString :: split sep rest
      else match split sep rest with
           | [] => [String c EmptyString]
           | h :: t => String c h :: t
           end
  end.

(** [sep.join(parts)] *)
Fixpoint join (sep : string) (parts : list string) : string :=
  match parts with
  | [] => EmptyString
  | [p] => p
  | p :: rest => p +:+ sep +:+ join sep rest
  end.

(** [s.replace(a, b)] for one-character [a] and [b]. *)
Fixpoint replace (a b : ascii) (s : string) : string :=
  match s with
  | EmptyString => EmptyString
  | String c rest => String (if Ascii.eqb c a then b else c) (replace a b rest)
  end.

(** [s.endswith(suffix)] *)
Definition endswith (s suffix : string) : bool :=
  String.prefix (String.rev suffix) (String.rev s).

End PyStr.

(** ** The class hierarchy and [super]

    [super(C, self)] raises [TypeError] unless [self] is an instance of
    [C]; the module calls it at the head of every constructor. *)

Inductive PyClass : Type :=
  | CObject
  | CMatObject
  | CMatModule
  | CMatMixin
  | CMatFunction
  | CMatClass
  | CMatProperty
  | CMatMethod
  | CMatScript
  | CMatException.

#[global] Instance PyClass_eq_dec : EqDecision PyClass.
Proof. solve_decision. Defined.

(** The base classes written in each [class] statement. *)
Definition py_bases (c : PyClass) : list PyClass :=
  match c with
  | CObject => []
  | CMatObject => [CObject]
  | CMatModule => [CMatObject]
  | CMatMixin => [CObject]
  | CMatFunction => [CMatObject]
  | CMatClass => [CMatMixin; CMatObject]
  | CMatProperty => [CMatObject]
  | CMatMethod => [CMatFunction]
  | CMatScript => [CMatObject]
  | CMatException => [CMatObject]
  end.

Fixpoint issubclass_depth (depth : nat) (c d : PyClass) : bool :=
  bool_decide (c = d) ||
  match depth with
  | O => false
  | S depth => existsb (fun b => issubclass_depth depth b d) (py_bases c)
  end.

(** [issubclass(c, d)]; the hierarchy is three levels deep. *)
Definition issubclass (c d : PyClass) : bool := issubclass_depth 3 c d.

(** [super(cls, self)] for [self] of class [self_cls]. *)
Definition py_super (cls self_cls : PyClass) : result unit :=
  if issubclass self_cls cls then OK tt
  else Raise (TypeError "super(type, obj): obj must be an instance or subtype of type").

(** ** MatFunction *)

(** [MatFunction.mat_kws]: keywords that open a block closed by [end]. *)
Definition mat_kws : list token :=
  zip (replicate 5 Keyword) ["if"; "while"; "for"; "switch"; "try"].

Definition tok_in (t : token) (l : list token) : bool := bool_decide (t ∈ l).

(** The fields [MatFunction.__init__] sets. [rem_tks] is the reversed
    stack of tokens left when the body scan stops. *)
Record MatFunction : Type := mkMatFunction {
  fn_name : string;
  fn_module : string;
  fn_tokens : list token;
  fn_docstring : string;
  fn_retv : option (list string);
  fn_args : option (list string);
  fn_rem_tks : option (list token)
}.

(** [tks.pop()] on the reversed copy: the next token of the stream. *)
Definition pop (tks : list token) : result (token * list token) :=
  match tks with
  | [] => Raise IndexError
  | t :: rest => OK (t, rest)
  end.

(** The docstring loop of lines 399-405. [docstring] is the token under
    test; the inner [fix] is the loop over blank, tab and newline. *)
Fixpoint docstring_loop (doc : string) (docstring : token) (tks : list token)
    {struct tks} : result (string * token * list token) :=
  if ttype_is docstring.1 Comment then
    let doc := doc +:+ PyStr.lstrip "%" docstring.2 +:+ nl in
    match tks with
    | [] => Raise IndexError
    | wht :: tks =>
        (fix skip (wht : token) (tks : list token) {struct tks} :=
           if tok_in wht (zip (replicate 3 Text) [" "; tab; nl]) then
             match tks with
             | [] => Raise IndexError
             | wht :: tks => skip wht tks
             end
           else docstring_loop doc wht tks) wht tks
    end
  else OK (doc, docstring, tks).

(** One pass of the counter update of lines 413-418. [lastkw] is [None]
    for the placeholder [''] the scan starts with. *)
Definition kw_end_update (kw_end : Z) (lastkw : option token) (kw : token) : Z :=
  if tok_in kw mat_kws then (kw_end + 1)%Z
  else if tok_eqb kw (Keyword, "end") then
    if negb (match lastkw with
             | Some l => tok_in l (zip (replicate 2 Punctuation) [":"; "("])
             | None => false
             end)
    then (kw_end - 1)%Z else kw_end
  else kw_end.

(** The body loop of lines 412-422; returns the last [kw] and the stack. *)
Fixpoint body_loop (kw_end : Z) (lastkw : option token) (kw : token)
    (tks : list token) {struct tks} : token * list token :=
  if (0 <? kw_end)%Z then
    let kw_end := kw_end_update kw_end lastkw kw in
    match tks with
    | [] => (kw, [])
    | next :: tks => body_loop kw_end (Some kw) next tks
    end
  else (kw, tks).

(** [func_name == (Token.Name.Function, self.name)]. [name] is [None] when
    [MatMethod.__init__] calls the constructor, and a token text is never
    [None]; when the test holds, [self.name] is the text of [func_name]. *)
Definition name_matches (func_name : token) (name : option string) : bool :=
  match name with
  | Some n => tok_eqb func_name (NameFunction, n)
  | None => false
  end.

(** [MatFunction.__init__]; [is_method] is [isinstance(self, MatMethod)]. *)
Definition MatFunction_init (is_method : bool) (name : option string)
    (modname : string) (tokens : list token) : result MatFunction :=
  do _ <- py_super CMatFunction (if is_method then CMatMethod else CMatFunction);
  let tks := tokens in
  do (func_kw, tks) <- pop tks;
  if negb (ttype_is func_kw.1 Keyword)
     || negb (str_eqb (PyStr.strip func_kw.2) "function")
  then Raise (TypeError "Object is not a function. Expected a function.") else
  do (t, tks) <- pop tks;
  if negb (ttype_is t.1 Whitespace)
  then Raise (TypeError "Expected a whitespace after function keyword.") else
  do (retv, tks) <- pop tks;
  do (self_retv, tks) <-
    (if ttype_is retv.1 Text then
       let rvs := map PyStr.strip (PyStr.split "," (PyStr.strip_chars "[ ]" retv.2)) in
       do (t, tks) <- pop tks;
       if negb (tok_eqb t (Punctuation, "="))
       then Raise (TypeError "Token after outputs should be Punctuation.") else
       do (wht, tks) <- pop tks;
       OK (Some rvs, if negb (ttype_is wht.1 Whitespace) then wht :: tks else tks)
     else OK (None, tks));
  do (func_name, tks) <- pop tks;
  do self_name <-
    (if negb (name_matches func_name name) then
       if is_method then OK func_name.2
       else Raise (Exception ("Unexpected function name: " +:+ dquote
                              +:+ func_name.2 +:+ dquote +:+ "."))
     else OK func_name.2);
  do (t, tks) <- pop tks;
  do (self_args, tks) <-
    (if tok_eqb t (Punctuation, "(") then
       do (args, tks) <- pop tks;
       let self_args :=
         if ttype_is args.1 Text
         then Some (map PyStr.strip (PyStr.split "," args.2)) else None in
       do (t, tks) <- pop tks;
       if negb (tok_eqb t (Punctuation, ")"))
       then Raise (TypeError "Token after outputs should be Punctuation.")
       else OK (self_args, tks)
     else OK (None, tks));
  do (t, tks) <- pop tks;
  if negb (ttype_is t.1 Whitespace)
  then Raise (TypeError "Expected a whitespace after input args.") else
  do (docstring, tks) <- pop tks;
  do (doc, kw, tks) <- docstring_loop EmptyString docstring tks;
  let '(kw, tks) := body_loop 1 None kw tks in
  let tks := kw :: tks in
  OK {| fn_name := self_name;
        fn_module := modname;
        fn_tokens := tokens;
        fn_docstring := doc;
        fn_retv := self_retv;
        fn_args := self_args;
        fn_rem_tks := if bool_decide (0 < List.length tks) then Some (rev tks) else None |}.

(** ** MatMethod *)

(** Attribute values: [True]/[False], a string, or a list of strings. *)
Inductive AttrVal : Type :=
  | AVBool (b : bool)
  | AVStr (s : string)
  | AVList (l : list string).

#[global] Instance AttrVal_eq_dec : EqDecision AttrVal.
Proof. solve_decision. Defined.

Record MatMethod : Type := mkMatMethod {
  meth_fn : MatFunction;
  meth_cls : PyClass;
  meth_attrs : gmap string AttrVal
}.

(** [MatMethod.__init__]: the name handed to [MatFunction.__init__] is [None]. *)
Definition MatMethod_init (modname : string) (tks : list token) (cls : PyClass)
    (attrs : gmap string AttrVal) : result MatMethod :=
  do _ <- py_super CMatMethod CMatMethod;
  do fn <- MatFunction_init true None modname tks;
  OK {| meth_fn := fn; meth_cls := cls; meth_attrs := attrs |}.

(** [tokens[:-n]]: for [n = 0] the slice [tokens[:0]] is empty. *)
Definition slice_to_neg (tokens : list token) (n : nat) : list token :=
  if Nat.eqb n 0 then [] else take (List.length tokens - n) tokens.

(** [MatMethod.reset_tokens]. [len(None)] raises [TypeError]; the
    subtraction is on naturals, [rem_tks] being never longer than [tokens]
    (lemma [MatFunction_init_rem_tks]). *)
Definition reset_tokens (m : MatMethod) : result (nat * MatMethod) :=
  match fn_rem_tks (meth_fn m) with
  | None => Raise (TypeError "object of type 'NoneType' has no len()")
  | Some rem_tks =>
      let num_rem_tks := List.length rem_tks in
      let len_meth := List.length (fn_tokens (meth_fn m)) - num_rem_tks in
      let fn := meth_fn m in
      OK (len_meth,
          {| meth_fn := {| fn_name := fn_name fn;
                           fn_module := fn_module fn;
                           fn_tokens := slice_to_neg (fn_tokens fn) num_rem_tks;
                           fn_docstring := fn_docstring fn;
                           fn_retv := fn_retv fn;
                           fn_args := fn_args fn;
                           fn_rem_tks := None |};
             meth_cls := meth_cls m;
             meth_attrs := meth_attrs m |})
  end.

(** ** MatMixin: token helpers over [self.tokens] *)

(** [self.tokens[idx]] *)
Definition tk_at (tokens : list token) (idx : nat) : result token :=
  match tokens !! idx with
  | Some t => OK t
  | None => Raise IndexError
  end.

Definition _tk_eq (tokens : list token) (idx : nat) (tok : token) : result bool :=
  do t <- tk_at tokens idx;
  OK (ttype_is t.1 tok.1 && str_eqb t.2 tok.2).

Definition _tk_ne (tokens : list token) (idx : nat) (tok : token) : result bool :=
  do t <- tk_at tokens idx;
  OK (negb (ttype_is t.1 tok.1) || negb (str_eqb t.2 tok.2)).

Definition _eotk (tokens : list token) (idx : nat) : bool :=
  bool_decide (List.length tokens <= idx).

(** The loop shared by [_whitespace] and [_indent]: count the tokens from
    the head that satisfy [p]; running off the list raises [IndexError]. *)
Fixpoint count_while (p : token -> bool) (tks : list token) : result nat :=
  match tks with
  | [] => Raise IndexError
  | t :: tks => if p t then (do n <- count_while p tks; OK (S n)) else OK 0
  end.

Definition str_in (s : string) (l : list string) : bool := bool_decide (s ∈ l).

Definition _whitespace (tokens : list token) (idx : nat) : result nat :=
  count_while (fun t => ttype_is t.1 Text && str_in t.2 [" "; nl; tab])
              (drop idx tokens).

Definition _indent (tokens : list token) (idx : nat) : result nat :=
  count_while (fun t => ttype_is t.1 Text && str_in t.2 [" "; tab])
              (drop idx tokens).

Definition _blanks (tokens : list token) (idx : nat) : result nat :=
  _indent tokens idx.

(** ** [while] loops over an index

    [while fuel cond body s] runs [while cond(s): s = body(s)] for at most
    [fuel] tests of the condition. *)
Fixpoint while {S : Type} (fuel : nat) (cond : S -> result bool)
    (body : S -> result S) (s : S) : result S :=
  match fuel with
  | O => OutOfFuel
  | Datatypes.S fuel =>
      do c <- cond s;
      if c then (do s <- body s; while fuel cond body s) else OK s
  end.

(** [a and b] with [b] evaluated only when [a] holds. *)
Definition and_then (a b : result bool) : result bool :=
  do x <- a; if x then b else OK false.

(** ** MatClass *)

Inductive AttrType : Type := TBool | TList.

(** The three tables of recognized attributes. *)
Definition cls_attr_types : list (string * AttrType) :=
  [ ("Abstract", TBool); ("AllowedSubclasses", TList);
    ("ConstructOnLoad", TBool); ("HandleCompatible", TBool);
    ("Hidden", TBool); ("InferiorClasses", TList); ("Sealed", TBool) ].

Definition prop_attr_types : list (string * AttrType) :=
  [ ("AbortSet", TBool); ("Abstract", TBool); ("Access", TList);
    ("Constant", TBool); ("Dependent", TBool); ("GetAccess", TList);
    ("GetObservable", TBool); ("Hidden", TBool); ("SetAccess", TList);
    ("SetObservable", TBool); ("Transient", TBool) ].

Definition meth_attr_types : list (string * AttrType) :=
  [ ("Abstract", TBool); ("Access", TList); ("Hidden", TBool);
    ("Sealed", TList); ("Static", TBool) ].

(** [attr_name in attr_types] *)
Definition in_attr_types (attr_name : string) (attr_types : list (string * AttrType)) : bool :=
  str_in attr_name (map fst attr_types).

(** [d[k]] and [v.append(x)] on the values an attribute dictionary holds. *)
Definition dict_getitem {V : Type} (d : gmap string V) (k : string) : result V :=
  match d !! k with
  | Some v => OK v
  | None => Raise (KeyError k)
  end.

Definition py_append (v : AttrVal) (x : string) : result AttrVal :=
  match v with
  | AVBool _ => Raise (AttributeError "'bool' object has no attribute 'append'")
  | AVStr _ => Raise (AttributeError "'str' object has no attribute 'append'")
  | AVList l => OK (AVList (l ++ [x])%list)
  end.

Section Attributes.
Variable fuel : nat.
Variable tokens : list token.

(** [idx += self._blanks(idx)] *)
Definition skip_blanks (idx : nat) : result nat :=
  do b <- _blanks tokens idx; OK (idx + b).

(** Lines 684-689: the text of an enumeration or meta class. *)
Definition enum_or_meta_loop (enum_or_meta : string) (idx : nat) : result (string * nat) :=
  while fuel
    (fun '(_, idx) =>
       and_then (_tk_ne tokens idx (Text, " "))
      (and_then (_tk_ne tokens idx (Text, tab))
      (and_then (_tk_ne tokens idx (Punctuation, ","))
                (_tk_ne tokens idx (Punctuation, ")")))))
    (fun '(enum_or_meta, idx) =>
       do t <- tk_at tokens idx; OK (enum_or_meta +:+ t.2, idx + 1))
    (enum_or_meta, idx).

(** Lines 702-706: the text of one cell-array value. *)
Definition attr_val_loop (attr_val : string) (idx : nat) : result (string * nat) :=
  while fuel
    (fun '(_, idx) =>
       and_then (_tk_ne tokens idx (Text, " "))
      (and_then (_tk_ne tokens idx (Text, tab))
                (_tk_ne tokens idx (Punctuation, ","))))
    (fun '(attr_val, idx) =>
       do t <- tk_at tokens idx; OK (attr_val +:+ t.2, idx + 1))
    (attr_val, idx).

(** Lines 697-709: the loop over the values of a cell array. *)
Definition cell_array_loop (attr_name : string) (attr_dict : gmap string AttrVal)
    (idx : nat) : result (gmap string AttrVal * nat) :=
  while fuel
    (fun '(_, idx) => _tk_ne tokens idx (Punctuation, "}"))
    (fun '(attr_dict, idx) =>
       do idx <- skip_blanks idx;
       do (attr_val, idx) <- attr_val_loop EmptyString idx;
       let idx := idx + 1 in
       if negb (str_eqb attr_val EmptyString) then
         do v <- dict_getitem attr_dict attr_name;
         do v <- py_append v attr_val;
         OK (<[attr_name := v]> attr_dict, idx)
       else OK (attr_dict, idx))
    (attr_dict, idx).

(** Lines 655-714: one pass of the loop over the attribute entries. *)
Definition attr_entry (attr_types : list (string * AttrType))
    (st : gmap string AttrVal * nat) : result (gmap string AttrVal * nat) :=
  let '(attr_dict, idx) := st in
  do idx <- skip_blanks idx;
  do (k, attr_name) <- tk_at tokens idx;
  do (attr_dict, idx) <-
    (if ttype_is k Name && in_attr_types attr_name attr_types
     then OK (<[attr_name := AVBool true]> attr_dict, idx + 1)
     else Raise (Exception ("Unexpected attribute: " +:+ dquote
                            +:+ attr_name +:+ dquote +:+ ".")));
  do idx <- skip_blanks idx;
  do c <- _tk_eq tokens idx (Punctuation, ",");
  if c then OK (attr_dict, idx + 1)
  else
  do c <- _tk_eq tokens idx (Punctuation, "=");
  if c then
    let idx := idx + 1 in
    do idx <- skip_blanks idx;
    do (k, attr_val) <- tk_at tokens idx;
    do (attr_dict, idx) <-
      (if ttype_is k Name && str_in attr_val ["true"; "false"] then
         OK (if str_eqb attr_val "false"
             then <[attr_name := AVBool false]> attr_dict else attr_dict,
             idx + 1)
       else
         do c <- (if ttype_is k Name then OK true
                  else _tk_eq tokens idx (Text, "?"));
         if c then
           do t <- tk_at tokens idx;
           do (enum_or_meta, idx) <- enum_or_meta_loop t.2 (idx + 1);
           do c <- _tk_ne tokens idx (Punctuation, ")");
           let idx := if c then idx + 1 else idx in
           OK (<[attr_name := AVStr enum_or_meta]> attr_dict, idx)
         else
           do c <- _tk_eq tokens idx (Punctuation, "{");
           if c then
             do (attr_dict, idx) <- cell_array_loop attr_name attr_dict (idx + 1);
             OK (attr_dict, idx + 1)
           else OK (attr_dict, idx));
    do idx <- skip_blanks idx;
    do c <- _tk_eq tokens idx (Punctuation, ",");
    OK (attr_dict, if c then idx + 1 else idx)
  else OK (attr_dict, idx).

(** [MatClass.attributes] *)
Definition attributes (idx : nat) (attr_types : list (string * AttrType))
    : result (gmap string AttrVal * nat) :=
  let attr_dict : gmap string AttrVal := ∅ in
  do idx <- skip_blanks idx;
  do c <- _tk_eq tokens idx (Punctuation, "(");
  if c then
    do (attr_dict, idx) <-
      while fuel (fun '(_, idx) => _tk_ne tokens idx (Punctuation, ")"))
            (attr_entry attr_types) (attr_dict, idx + 1);
    OK (attr_dict, idx + 1)
  else OK (attr_dict, idx).

End Attributes.

(** One entry of [self.properties]: the keys ['attrs'], ['default'] and
    ['docstring'] of the inner dictionary. A key that was never set is
    [None]; a key bound to Python's [None] is [Some None]. *)
Record PropEntry : Type := mkPropEntry {
  pe_attrs : gmap string AttrVal;
  pe_default : option (option string);
  pe_docstring : option (option string)
}.

Record MatClass : Type := mkMatClass {
  cls_name : string;
  cls_module : string;
  cls_tokens : list token;
  cls_attrs : gmap string AttrVal;
  cls_bases : list string;
  cls_docstring : string;
  cls_properties : gmap string PropEntry;
  cls_methods : gmap string MatMethod;
  cls_rem_tks : option nat
}.

(** The state of the block loops: the index and the two dictionaries. *)
Record BodyState : Type := mkBodyState {
  bs_idx : nat;
  bs_properties : gmap string PropEntry;
  bs_methods : gmap string MatMethod
}.

Section ClassParser.
Variable fuel : nat.
Variable tokens : list token.

(** Lines 521-523: [while not self._whitespace(idx)]. *)
Definition base_name_loop (base_name : string) (idx : nat) : result (string * nat) :=
  while fuel
    (fun '(_, idx) => do w <- _whitespace tokens idx; OK (Nat.eqb w 0))
    (fun '(base_name, idx) =>
       do t <- tk_at tokens idx; OK (base_name +:+ t.2, idx + 1))
    (base_name, idx).

(** Lines 517-532: the loop over the superclasses. *)
Definition bases_loop (bases : list string) (idx : nat) : result (list string * nat) :=
  while fuel
    (fun '(_, idx) => _tk_ne tokens idx (Text, nl))
    (fun '(bases, idx) =>
       do idx <- skip_blanks tokens idx;
       do (base_name, idx) <- base_name_loop EmptyString idx;
       do c <- _tk_ne tokens idx (Text, nl);
       let idx := if c then idx + 1 else idx in
       let bases := if negb (str_eqb base_name EmptyString)
                    then (bases ++ [base_name])%list else bases in
       do idx <- skip_blanks tokens idx;
       do c <- _tk_eq tokens idx (Operator, "&");
       OK (bases, if c then idx + 1 else idx))
    (bases, idx).

(** Lines 490-536: [classdef], attributes, class name, superclasses. *)
Definition class_signature (name : string)
    : result (gmap string AttrVal * list string * nat) :=
  let idx := 0 in
  do c <- _tk_ne tokens idx (Keyword, "classdef");
  if c then Raise (TypeError "Object is not a class. Expected a class.") else
  let idx := idx + 1 in
  do (attrs, idx) <- attributes fuel tokens idx cls_attr_types;
  do idx <- skip_blanks tokens idx;
  do c <- _tk_ne tokens idx (Name, name);
  if c then
    do t <- tk_at tokens idx;
    Raise (Exception ("Unexpected class name: " +:+ dquote +:+ t.2
                      +:+ dquote +:+ "."))
  else
  let idx := idx + 1 in
  do idx <- skip_blanks tokens idx;
  do c <- _tk_eq tokens idx (Operator, "<");
  if c then
    do (bases, idx) <- bases_loop [] (idx + 1);
    OK (attrs, bases, idx + 1)
  else
    do c <- _tk_eq tokens idx (Text, nl);
    OK (attrs, [], if c then idx + 1 else idx).

(** Lines 544-554: the loop over the comment lines of the docstring. *)
Definition class_docstring_loop (docstring : string) (idx : nat) : result (string * nat) :=
  while fuel
    (fun '(_, idx) => do t <- tk_at tokens idx; OK (ttype_is t.1 Comment))
    (fun '(docstring, idx) =>
       do t <- tk_at tokens idx;
       let docstring := docstring +:+ PyStr.lstrip "%" t.2 in
       let idx := idx + 1 in
       do c <- _tk_eq tokens idx (Text, nl);
       do (docstring, idx) <-
         (if c then (do t <- tk_at tokens idx; OK (docstring +:+ t.2, idx + 1))
          else OK (docstring, idx));
       do indent <- _indent tokens idx;
       OK (docstring, if negb (Nat.eqb indent 0) then idx + indent else idx))
    (docstring, idx).

(** Lines 540-556: the class docstring. *)
Definition class_docstring (idx : nat) : result (string * nat) :=
  do indent <- _indent tokens idx;
  if negb (Nat.eqb indent 0) then
    class_docstring_loop EmptyString (idx + indent)
  else
    do t <- tk_at tokens idx;
    if ttype_is t.1 Comment then Raise (Exception "Comments must be indented.")
    else OK (EmptyString, idx).

(** Lines 563-569: skip comments and whitespace. *)
Definition skip_comments_whitespace (idx : nat) : result nat :=
  while fuel
    (fun idx =>
       do w <- _whitespace tokens idx;
       if negb (Nat.eqb w 0) then OK true
       else (do t <- tk_at tokens idx; OK (ttype_is t.1 Comment)))
    (fun idx =>
       do whitespace <- _whitespace tokens idx;
       OK (if negb (Nat.eqb whitespace 0) then idx + whitespace else idx + 1))
    idx.

(** Lines 602-605: the text of a default value. *)
Definition default_loop (default : string) (idx : nat) : result (string * nat) :=
  while fuel
    (fun '(_, idx) =>
       and_then (_tk_ne tokens idx (Text, nl))
                (do t <- tk_at tokens idx; OK (negb (ttype_is t.1 Comment))))
    (fun '(default, idx) =>
       do t <- tk_at tokens idx; OK (default +:+ t.2, idx + 1))
    (default, idx).

(** Lines 578-616: one property of a [properties] block. *)
Definition property_step (attr_dict : gmap string AttrVal) (st : BodyState)
    : result BodyState :=
  do idx <- skip_comments_whitespace (bs_idx st);
  do t <- tk_at tokens idx;
  if negb (ttype_is t.1 Name) then Raise (TypeError "Expected property.") else
  let prop_name := t.2 in
  let entry := {| pe_attrs := attr_dict; pe_default := None;
                  pe_docstring := None |} in
  let idx := idx + 1 in
  do idx <- skip_blanks tokens idx;
  do c <- _tk_eq tokens idx (Punctuation, "=");
  do (entry, idx) <-
    (if c then
       do idx <- skip_blanks tokens (idx + 1);
       do (default, idx) <- default_loop EmptyString idx;
       do t <- tk_at tokens idx;
       let idx := if negb (ttype_is t.1 Comment) then idx + 1 else idx in
       (* [update('')] leaves the entry as it is *)
       OK (if negb (str_eqb default EmptyString)
           then {| pe_attrs := pe_attrs entry;
                   pe_default := Some (Some (PyStr.rstrip default));
                   pe_docstring := pe_docstring entry |}
           else entry, idx)
     else OK ({| pe_attrs := pe_attrs entry; pe_default := Some None;
                 pe_docstring := pe_docstring entry |}, idx));
  do t <- tk_at tokens idx;
  let '(docstring, idx) :=
    if ttype_is t.1 Comment then (Some (PyStr.lstrip "%" t.2), idx + 1)
    else (None, idx) in
  let entry := {| pe_attrs := pe_attrs entry; pe_default := pe_default entry;
                  pe_docstring := Some docstring |} in
  do w <- _whitespace tokens idx;
  OK {| bs_idx := idx + w;
        bs_properties := <[prop_name := entry]> (bs_properties st);
        bs_methods := bs_methods st |}.

(** Lines 626-639: one method of a [methods] block. *)
Definition method_step (modname : string) (attr_dict : gmap string AttrVal)
    (st : BodyState) : result BodyState :=
  do idx <- skip_comments_whitespace (bs_idx st);
  do meth <- MatMethod_init modname (drop idx tokens) CMatClass attr_dict;
  do (len_meth, meth) <- reset_tokens meth;
  let idx := idx + len_meth in
  let methods := <[fn_name (meth_fn meth) := meth]> (bs_methods st) in
  do w <- _whitespace tokens idx;
  OK {| bs_idx := idx + w;
        bs_properties := bs_properties st;
        bs_methods := methods |}.

Definition with_idx (st : BodyState) (idx : nat) : BodyState :=
  {| bs_idx := idx; bs_properties := bs_properties st;
     bs_methods := bs_methods st |}.

(** Lines 562-640: one pass of the loop over the class body. *)
Definition class_body_step (modname : string) (st : BodyState) : result BodyState :=
  do idx <- skip_comments_whitespace (bs_idx st);
  let st := with_idx st idx in
  do c <- _tk_eq tokens (bs_idx st) (Keyword, "properties");
  do st <-
    (if c then
       do (attr_dict, idx) <- attributes fuel tokens (bs_idx st + 1) prop_attr_types;
       do st <- while fuel
                  (fun st => _tk_ne tokens (bs_idx st) (Keyword, "end"))
                  (property_step attr_dict) (with_idx st idx);
       OK (with_idx st (bs_idx st + 1))
     else OK st);
  do c <- _tk_eq tokens (bs_idx st) (Keyword, "methods");
  if c then
    do (attr_dict, idx) <- attributes fuel tokens (bs_idx st + 1) meth_attr_types;
    do st <- while fuel
               (fun st => _tk_ne tokens (bs_idx st) (Keyword, "end"))
               (method_step modname attr_dict) (with_idx st idx);
    OK (with_idx st (bs_idx st + 1))
  else OK st.

(** Lines 561-641: the loop over the class body. *)
Definition class_body (modname : string) (idx : nat) : result BodyState :=
  while fuel
    (fun st => _tk_ne tokens (bs_idx st) (Keyword, "end"))
    (class_body_step modname)
    {| bs_idx := idx; bs_properties := ∅; bs_methods := ∅ |}.

(** [MatClass.__init__] *)
Definition MatClass_init (name modname : string) : result MatClass :=
  do _ <- py_super CMatClass CMatClass;
  do (attrs, bases, idx) <- class_signature name;
  do (docstring, idx) <- class_docstring idx;
  do st <- class_body modname idx;
  OK {| cls_name := name;
        cls_module := modname;
        cls_tokens := tokens;
        cls_attrs := attrs;
        cls_bases := bases;
        cls_docstring := docstring;
        cls_properties := bs_properties st;
        cls_methods := bs_methods st;
        cls_rem_tks := Some (bs_idx st) |}.

End ClassParser.

(** ** MatScript and MatException *)

Record MatScript : Type := mkMatScript {
  scr_name : string;
  scr_path : string;
  scr_tks : list token;
  scr_docstring : string
}.

(** [MatScript.__init__] *)
Definition MatScript_init (name path : string) (tks : list token) : result MatScript :=
  do _ <- py_super CMatScript CMatScript;
  OK {| scr_name := name; scr_path := path; scr_tks := tks;
        scr_docstring := EmptyString |}.

(** [MatException.__init__]: the same body, run on a [MatException]
    instance, with [super(MatScript, self)] as the source has it. *)
Definition MatException_init (name path : string) (tks : list token) : result MatScript :=
  do _ <- py_super CMatScript CMatException;
  OK {| scr_name := name; scr_path := path; scr_tks := tks;
        scr_docstring := EmptyString |}.

(** ** The filesystem and [os.path]

    A directory tree stands for the filesystem. A file holds the token
    stream the lexer yields for its text (after the ellipsis removal of
    [parse_mfile]). Paths are POSIX strings, relative to the root of the
    tree; [os.sep] is the slash. *)

#[local] Unset Elimination Schemes.
Inductive FsNode : Type :=
  | FsFile (tks : list token)
  | FsDir (entries : list (string * FsNode)).
#[local] Set Elimination Schemes.

Module OsPath.

Definition is_slash (c : ascii) : bool := Ascii.eqb c "/".

Fixpoint all_slashes (s : string) : bool :=
  match s with
  | EmptyString => true
  | String c rest => is_slash c && all_slashes rest
  end.

(** [posixpath.split] *)
Definition split (p : string) : string * string :=
  let parts := PyStr.split "/" p in
  let tail := List.last parts EmptyString in
  let head := String.substring 0 (String.length p - String.length tail) p in
  (if negb (str_eqb head EmptyString) && negb (all_slashes head)
   then PyStr.rstrip_by is_slash head else head, tail).

(** [posixpath.join] of two components *)
Definition join (a b : string) : string :=
  if String.prefix "/" b then b
  else if str_eqb a EmptyString || PyStr.endswith a "/" then a +:+ b
  else a +:+ "/" +:+ b.

Definition find_entry (name : string) (entries : list (string * FsNode)) : option FsNode :=
  snd <$> List.find (fun e => str_eqb e.1 name) entries.

(** The node the components lead to from [node]; [up] holds the
    directories above it, the nearest first. A component [..] leads to the
    parent, and from the root to the root. *)
Fixpoint lookup_parts (up : list FsNode) (node : FsNode) (parts : list string)
    : option FsNode :=
  match parts with
  | [] => Some node
  | part :: parts =>
      match node with
      | FsFile _ => None
      | FsDir entries =>
          if str_eqb part ".." then
            match up with
            | [] => lookup_parts [] node parts
            | parent :: up => lookup_parts up parent parts
            end
          else
            match find_entry part entries with
            | Some child => lookup_parts (node :: up) child parts
            | None => None
            end
      end
  end.

(** The node a path names; the empty path names nothing. The tree is the
    whole file system and its root is the current directory, so a path
    with and without a leading slash name the same node. *)
Definition lookup (fs : FsNode) (p : string) : option FsNode :=
  if str_eqb p EmptyString then None
  else lookup_parts [] fs
         (List.filter (fun c => negb (str_eqb c EmptyString) && negb (str_eqb c "."))
                      (PyStr.split "/" p)).

Definition isdir (fs : FsNode) (p : string) : bool :=
  match lookup fs p with Some (FsDir _) => true | _ => false end.

Definition isfile (fs : FsNode) (p : string) : bool :=
  match lookup fs p with Some (FsFile _) => true | _ => false end.

Definition is_dir_node (n : FsNode) : bool :=
  match n with FsDir _ => true | FsFile _ => false end.

(** [os.walk(top)] top-down, as a list of [(root, dirs, files)]. The
    caller's in-place edit of [dirs] is the argument [prune]: the walk
    descends into the directories [prune dirs] keeps. *)
Fixpoint walk_node (prune : list string -> list string) (top : string)
    (node : FsNode) : list (string * list string * list string) :=
  match node with
  | FsFile _ => []
  | FsDir entries =>
      let dirs := map fst (List.filter (fun e => is_dir_node e.2) entries) in
      let files := map fst (List.filter (fun e => negb (is_dir_node e.2)) entries) in
      (top, dirs, files) ::
      (fix descend (es : list (string * FsNode)) :=
         match es with
         | [] => []
         | (name, child) :: es =>
             ((if is_dir_node child && str_in name (prune dirs)
               then walk_node prune (join top name) child else [])
              ++ descend es)%list
         end) entries
  end.

Definition walk (prune : list string -> list string) (fs : FsNode) (top : string)
    : list (string * list string * list string) :=
  match lookup fs top with
  | Some node => walk_node prune top node
  | None => []
  end.

End OsPath.

(** ** MatModule and the interpreter state

    [World] is the state the module reads and writes outside its own
    objects: the entries it adds to [sys.modules], the counter that gives
    each new [MatModule] its identity, and the files opened so far (the
    last one first). Of [sys.modules] only these entries are kept: the
    modules of Python itself are left out, so the properties below are
    about source trees in which no folder bears the name of a loaded
    Python module. *)

Record MatModule : Type := mkMatModule {
  mod_id : nat;
  mod_name : string;
  mod_path : string;
  mod_package : string
}.

#[global] Instance MatModule_eq_dec : EqDecision MatModule.
Proof. solve_decision. Defined.

Record World : Type := mkWorld {
  sys_modules : gmap string MatModule;
  next_id : nat;
  opened : list string
}.

Definition world0 : World :=
  {| sys_modules := ∅; next_id := 0; opened := [] |}.

(** A computation on the world: its outcome and the world it leaves. *)
Definition M (A : Type) : Type := World -> result A * World.

Definition mret {A : Type} (a : A) : M A := fun w => (OK a, w).

Definition mbind {A B : Type} (m : M A) (k : A -> M B) : M B :=
  fun w =>
    match m w with
    | (OK a, w) => k a w
    | (Raise e, w) => (Raise e, w)
    | (OutOfFuel, w) => (OutOfFuel, w)
    end.

Definition lift {A : Type} (r : result A) : M A := fun w => (r, w).

Notation "'run' p <- m ; k" := (mbind m (fun x => match x with p => k end))
  (at level 10, p pattern, m at level 100, k at level 200, only parsing).

(** [MatModule.__init__]: a new object, stored under its [name]. *)
Definition MatModule_init (name path package : string) : M MatModule :=
  run _ <- lift (py_super CMatModule CMatModule);
  fun w =>
    let self := {| mod_id := next_id w; mod_name := name; mod_path := path;
                   mod_package := package |} in
    (OK self,
     {| sys_modules := <[name := self]> (sys_modules w);
        next_id := S (next_id w);
        opened := opened w |}).

Inductive MatObj : Type :=
  | ObjModule (m : MatModule)
  | ObjFunction (f : MatFunction)
  | ObjClass (c : MatClass)
  | ObjScript (s : MatScript).

Section Resolver.
Variable fuel : nat.
Variable fs : FsNode.

(** [open(mfile).read()], the ellipsis removal and the lexer: the file's
    token stream; a path that is no file raises [IOError], which is an
    [Exception] here. *)
Definition read_tokens (mfile : string) : M (list token) :=
  fun w =>
    match OsPath.lookup fs mfile with
    | Some (FsFile tks) =>
        (OK tks, {| sys_modules := sys_modules w; next_id := next_id w;
                    opened := mfile :: opened w |})
    | _ => (Raise (Exception ("IOError: " +:+ mfile)), w)
    end.

(** [MatObject.parse_mfile] *)
Definition parse_mfile (mfile name path : string) : M MatObj :=
  run tks <- read_tokens mfile;
  let modname := PyStr.replace "/" "." path in
  run tk0 <- lift (tk_at tks 0);
  if tok_eqb tk0 (Keyword, "function") then
    run f <- lift (MatFunction_init false (Some name) modname tks);
    mret (ObjFunction f)
  else if tok_eqb tk0 (Keyword, "classdef") then
    run c <- lift (MatClass_init fuel tks name modname);
    mret (ObjClass c)
  else
    run s <- lift (MatScript_init name modname tks);
    mret (ObjScript s).

(** [MatObject.matlabify] *)
Definition matlabify (basedir objname : string) : M (option MatObj) :=
  if str_eqb objname EmptyString then mret None else
  let package := objname in
  let objname := PyStr.replace "." "/" objname in
  let '(path, name) := OsPath.split objname in
  let fullpath := OsPath.join basedir objname in
  if OsPath.isdir fs fullpath then
    run m <- MatModule_init name fullpath package;
    mret (Some (ObjModule m))
  else if OsPath.isfile fs (fullpath +:+ ".m") then
    let mfile := fullpath +:+ ".m" in
    run o <- parse_mfile mfile name path;
    mret (Some o)
  else mret None.

(** The values [getter] hands out. *)
Inductive PyVal : Type :=
  | VNone
  | VStr (s : string)
  | VList (l : list string)
  | VObj (o : MatObj).

(** [bool(v)]: the entity classes define neither [__len__] nor
    [__nonzero__]. *)
Definition truthy (v : PyVal) : bool :=
  match v with
  | VNone => false
  | VStr s => negb (str_eqb s EmptyString)
  | VList l => negb (Nat.eqb (List.length l) 0)
  | VObj _ => true
  end.

(** [s.rsplit(os.sep, n)[0]] *)
Definition rsplit_head (n : nat) (s : string) : string :=
  let parts := PyStr.split "/" s in
  PyStr.join "/" (take (Nat.max 1 (List.length parts - n)) parts).

(** [MatModule.getter(name)] without default arguments. [__all__]
    applies [zip] to the bound method [safe_getmembers]. *)
Definition MatModule_getter (self : MatModule) (name : string) : M PyVal :=
  if str_eqb name "__name__" then mret (VStr (mod_name self))
  else if str_eqb name "__doc__" then mret VNone
  else if str_eqb name "__all__" then
    lift (Raise (TypeError "zip argument after * must be a sequence, not instancemethod"))
  else if str_eqb name "__file__" then mret (VStr (mod_path self))
  else if str_eqb name "__path__" then mret (VList [mod_path self])
  else if str_eqb name "__package__" then mret (VStr (mod_package self))
  else
    let pkg := PyStr.split "." (mod_package self) in
    let basedir := rsplit_head (List.length pkg) (mod_path self) in
    run attr <- matlabify basedir (PyStr.join "." [mod_package self; name]);
    match attr with
    | Some o => mret (VObj o)
    | None => mret VNone
    end.

(** What [MatClass.__bases__] returns: the dictionary [bases_], or the
    object [parse_mfile] built at line 755. *)
Inductive BasesResult : Type :=
  | BasesDict (bases_ : gmap string PyVal)
  | BasesObject (o : MatObj).

Definition vcs_dirs : list string := [".git"; ".hg"; ".svn"; ".bzr"].

(** Lines 736-738 and 740-742: the edits of [dirs] and [files]. *)
Definition prune_dirs (dirs : list string) : list string :=
  List.filter (fun d => negb (str_in d vcs_dirs)) dirs.
Definition keep_mfiles (files : list string) : list string :=
  List.filter (fun f => PyStr.endswith f ".m") files.

(** Lines 745-751: the first registered folder that yields [b]. *)
Fixpoint search_folders (b : string) (dirs : list string) : M (option PyVal) :=
  match dirs with
  | [] => mret None
  | m :: dirs =>
      fun w =>
        match sys_modules w !! m with
        | None => search_folders b dirs w
        | Some module =>
            (run b_ <- MatModule_getter module b;
             if truthy b_ then mret (Some b_) else search_folders b dirs) w
        end
  end.

(** Lines 744-755 for one [(root, dirs, files)]: [inl] is the updated
    [bases_], [inr] the object returned from inside the loop. *)
Fixpoint search_bases (root : string) (dirs files bases : list string)
    (bases_ : gmap string PyVal) : M (gmap string PyVal + MatObj) :=
  match bases with
  | [] => mret (inl bases_)
  | b :: bases =>
      run found <- search_folders b dirs;
      let bases_ := match found with
                    | Some b_ => <[b := b_]> bases_
                    | None => bases_
                    end in
      run cur <- lift (dict_getitem bases_ b);
      if truthy cur then search_bases root dirs files bases bases_
      else if str_in (b +:+ ".m") files then
        let mfile := OsPath.join root b +:+ ".m" in
        run o <- parse_mfile mfile b root;
        mret (inr o)
      else search_bases root dirs files bases bases_
  end.

(** Lines 734-758: the loop over [os.walk(basedir)]. *)
Fixpoint walk_loop (triples : list (string * list string * list string))
    (bases : list string) (bases_ : gmap string PyVal) : M BasesResult :=
  match triples with
  | [] => mret (BasesDict bases_)
  | (root, dirs, files) :: triples =>
      run out <- search_bases root (prune_dirs dirs) (keep_mfiles files) bases bases_;
      match out with
      | inl bases_ => walk_loop triples bases bases_
      | inr o => mret (BasesObject o)
      end
  end.

(** [MatClass.__bases__] *)
Definition MatClass_bases (self : MatClass) : M BasesResult :=
  let bases_ : gmap string PyVal :=
    list_to_map (map (fun b => (b, VNone)) (cls_bases self)) in
  fun w =>
    match sys_modules w !! cls_module self with
    | None => (Raise (KeyError (cls_module self)), w)
    | Some module =>
        let pkg := PyStr.split "." (mod_package module) in
        let basedir := rsplit_head (List.length pkg) (mod_path module) in
        walk_loop (OsPath.walk prune_dirs fs basedir) (cls_bases self) bases_ w
    end.

End Resolver.

(** ** Token streams used below

    Each stream is what the Pygments MATLAB lexer yields for the source
    text in its comment: the signature of a [function] line as lines
    332-344 of the module describe it, one [Token.Text] per blank, tab or
    newline elsewhere. *)

Definition blanks (n : nat) : list token := replicate n (Text, " ").

(** [function y = square(x)\n% squares x\ny = x^2;\nend\n] *)
Definition square_tokens : list token :=
  [ (Keyword, "function"); (Whitespace, " "); (Text, "y "); (Punctuation, "=");
    (Whitespace, " "); (NameFunction, "square"); (Punctuation, "(");
    (Text, "x"); (Punctuation, ")"); (Whitespace, nl);
    (Comment, "% squares x"); (Text, nl);
    (Name, "y"); (Text, " "); (Punctuation, "="); (Text, " "); (Name, "x");
    (Text, "^"); (OtherType "Literal.Number.Integer", "2"); (Punctuation, ";");
    (Text, nl);
    (Keyword, "end"); (Text, nl) ].

(** [classdef (InferiorClasses = {?A, ?B}) Foo\nend\n] *)
Definition inferior_tokens : list token :=
  [ (Keyword, "classdef"); (Text, " "); (Punctuation, "(");
    (Name, "InferiorClasses"); (Text, " "); (Punctuation, "="); (Text, " ");
    (Punctuation, "{"); (Text, "?"); (Name, "A"); (Punctuation, ",");
    (Text, " "); (Text, "?"); (Name, "B"); (Punctuation, "}");
    (Punctuation, ")"); (Text, " "); (Name, "Foo"); (Text, nl);
    (Keyword, "end"); (Text, nl) ].

(** [classdef Foo\n  events\n    Changed\n  end\nend\n] *)
Definition events_tokens : list token :=
  ([ (Keyword, "classdef"); (Text, " "); (Name, "Foo"); (Text, nl) ]
   ++ blanks 2 ++ [ (Keyword, "events"); (Text, nl) ]
   ++ blanks 4 ++ [ (Name, "Changed"); (Text, nl) ]
   ++ blanks 2 ++ [ (Keyword, "end"); (Text, nl) ]
   ++ [ (Keyword, "end"); (Text, nl) ])%list.


(** The signature [function outs = name(ins)\n] as the lexer yields it. *)
Definition signature_tokens (outs name ins : string) : list token :=
  [ (Keyword, "function"); (Whitespace, " "); (Text, outs); (Punctuation, "=");
    (Whitespace, " "); (NameFunction, name); (Punctuation, "(");
    (Text, ins); (Punctuation, ")"); (Whitespace, nl) ].

(** The signature [function y = f(a)\n] followed by a body. *)
Definition with_signature (body : list token) : list token :=
  ([ (Keyword, "function"); (Whitespace, " "); (Text, "y "); (Punctuation, "=");
     (Whitespace, " "); (NameFunction, "f"); (Punctuation, "(");
     (Text, "a"); (Punctuation, ")"); (Whitespace, nl) ] ++ body)%list.

Definition int_tok (digits : string) : token :=
  (OtherType "Literal.Number.Integer", digits).

(** [y = a(1: end);\ny = 2;\nend\n]: a blank between [:] and [end]. *)
Definition index_blank_end_body : list token :=
  [ (Name, "y"); (Text, " "); (Punctuation, "="); (Text, " "); (Name, "a");
    (Punctuation, "("); int_tok "1"; (Punctuation, ":"); (Text, " ");
    (Keyword, "end"); (Punctuation, ")"); (Punctuation, ";"); (Text, nl);
    (Name, "y"); (Text, " "); (Punctuation, "="); (Text, " "); int_tok "2";
    (Punctuation, ";"); (Text, nl);
    (Keyword, "end"); (Text, nl) ].

(** [y = a(end) + a(1:end);\nend\n] *)
Definition index_end_body : list token :=
  [ (Name, "y"); (Text, " "); (Punctuation, "="); (Text, " "); (Name, "a");
    (Punctuation, "("); (Keyword, "end"); (Punctuation, ")"); (Text, " ");
    (Operator, "+"); (Text, " "); (Name, "a"); (Punctuation, "("); int_tok "1";
    (Punctuation, ":"); (Keyword, "end"); (Punctuation, ")");
    (Punctuation, ";"); (Text, nl);
    (Keyword, "end"); (Text, nl) ].

(** [if a\n  y = 1;\nend\ny = 2;\nend\n] *)
Definition nested_if_body : list token :=
  [ (Keyword, "if"); (Text, " "); (Name, "a"); (Text, nl);
    (Text, " "); (Text, " "); (Name, "y"); (Text, " "); (Punctuation, "=");
    (Text, " "); int_tok "1"; (Punctuation, ";"); (Text, nl);
    (Keyword, "end"); (Text, nl);
    (Name, "y"); (Text, " "); (Punctuation, "="); (Text, " "); int_tok "2";
    (Punctuation, ";"); (Text, nl);
    (Keyword, "end"); (Text, nl) ].

(** [classdef Foo < Bar & Baz\nend\n] and [classdef Bar\nend\n] *)
Definition foo_tokens : list token :=
  [ (Keyword, "classdef"); (Text, " "); (Name, "Foo"); (Text, " ");
    (Operator, "<"); (Text, " "); (Name, "Bar"); (Text, " "); (Operator, "&");
    (Text, " "); (Name, "Baz"); (Text, nl); (Keyword, "end"); (Text, nl) ].

Definition bar_tokens : list token :=
  [ (Keyword, "classdef"); (Text, " "); (Name, "Bar"); (Text, nl);
    (Keyword, "end"); (Text, nl) ].

(** [classdef Qux < Baz\nend\n] *)
Definition qux_tokens : list token :=
  [ (Keyword, "classdef"); (Text, " "); (Name, "Qux"); (Text, " ");
    (Operator, "<"); (Text, " "); (Name, "Baz"); (Text, nl);
    (Keyword, "end"); (Text, nl) ].

(** [src/pkg/Foo.m], [src/pkg/Qux.m] and [src/Bar.m]: the base [Bar] of
    [Foo] is a file of the source root, outside every package; [Baz] is
    nowhere. *)
Definition bases_fs : FsNode :=
  FsDir [ ("src", FsDir [ ("pkg", FsDir [ ("Foo.m", FsFile foo_tokens);
                                          ("Qux.m", FsFile qux_tokens) ]);
                          ("Bar.m", FsFile bar_tokens) ]) ].

(** [src/pkg/], [src/pkg.m] and [src/pkg/square.m]: a folder and a file of
    the same name side by side, and packages [a/util], [b/util]. *)
Definition precedence_fs : FsNode :=
  FsDir [ ("src", FsDir [ ("pkg", FsDir [ ("square.m", FsFile square_tokens) ]);
                          ("pkg.m", FsFile square_tokens);
                          ("a", FsDir [ ("util", FsDir []) ]);
                          ("b", FsDir [ ("util", FsDir []) ]) ]) ].

(** ** Notions used to state the properties *)


(** The world after [open(mfile)]. *)
Definition after_open (mfile : string) (w : World) : World :=
  {| sys_modules := sys_modules w; next_id := next_id w;
     opened := mfile :: opened w |}.

(** The test of the loop in [_indent]: a blank or a tab. *)
Definition is_blank (t : token) : bool :=
  ttype_is t.1 Text && str_in t.2 [" "; tab].

(** A comment line of a class docstring: the comment, the newline, and the
    indentation of the line that follows. *)
Definition comment_line (line : string * list token) : list token :=
  (Comment, line.1) :: (Text, nl) :: line.2.

Definition comment_block (lines : list (string * list token)) : list token :=
  List.concat (map comment_line lines).

(** The comments without their markers, each followed by its newline. *)
Definition docstring_of (lines : list (string * list token)) : string :=
  fold_left (fun doc line => (doc +:+ PyStr.lstrip "%" line.1) +:+ nl)
            lines EmptyString.

(** [classdef Foo\n% about Foo\nend\n] and
    [classdef Foo\n  % about Foo\n  % more\nend\n] *)
Definition unindented_comment_tokens : list token :=
  [ (Keyword, "classdef"); (Text, " "); (Name, "Foo"); (Text, nl);
    (Comment, "% about Foo"); (Text, nl); (Keyword, "end"); (Text, nl) ].

Definition indented_comment_tokens : list token :=
  ([ (Keyword, "classdef"); (Text, " "); (Name, "Foo"); (Text, nl) ]
   ++ blanks 2 ++ [ (Comment, "% about Foo"); (Text, nl) ]
   ++ blanks 2 ++ [ (Comment, "% more"); (Text, nl) ]
   ++ [ (Keyword, "end"); (Text, nl) ])%list.

(** [classdef Foo\n\n% about Foo\nend\n] and
    [classdef Foo\n\n  % about Foo\nend\n]: an empty line between the
    signature and the comment. *)
Definition blank_line_comment_tokens : list token :=
  [ (Keyword, "classdef"); (Text, " "); (Name, "Foo"); (Text, nl);
    (Text, nl);
    (Comment, "% about Foo"); (Text, nl); (Keyword, "end"); (Text, nl) ].

Definition blank_line_indented_comment_tokens : list token :=
  ([ (Keyword, "classdef"); (Text, " "); (Name, "Foo"); (Text, nl);
     (Text, nl) ]
   ++ blanks 2 ++ [ (Comment, "% about Foo"); (Text, nl) ]
   ++ [ (Keyword, "end"); (Text, nl) ])%list.

(** No attribute is bound to a list. *)
Definition no_list (attr_dict : gmap string AttrVal) : Prop :=
  forall k l, attr_dict !! k <> Some (AVList l).

(** ** Proof tactics *)

(** Closes [l1 `suffix_of` x1 :: ... :: xn :: l1]. *)
Ltac suffix_tac :=
  first [ done | apply suffix_cons_r; suffix_tac ].

(** Splits a hypothesis [H : ... = OK _] about a parser along its binds,
    tests and pairs; [inv] is the inversion lemma of [rbind]. *)
Ltac invert_parse inv H :=
  repeat match type of H with
    | rbind ?m _ = OK _ =>
        let a := fresh "a" in let Ha := fresh "Ha" in
        apply inv in H as (a & Ha & H)
    | (if ?c then _ else _) = OK _ => destruct c eqn:?; try discriminate H
    | (let (_, _) := ?x in _) = OK _ => destruct x eqn:?
    | (match ?x with (_, _) => _ end) = OK _ => destruct x eqn:?
    | Raise _ = OK _ => discriminate H
    end.

(** Closes [exists r, (forall m, r <> OK (ObjModule m)) /\ forall w, _ = (r, _)]
    once the outcome is determined. *)
Ltac outcome_done :=
  eexists; (split; [|intros w; reflexivity]); intros m; discriminate.

(** Evaluates the tests on token types and tokens that have no variable. *)
Ltac eval_tests :=
  repeat match goal with
    | |- context [ttype_is ?a ?b] =>
        let v := eval vm_compute in (ttype_is a b) in
        lazymatch v with
        | true => change (ttype_is a b) with true
        | false => change (ttype_is a b) with false
        end
    | |- context [tok_eqb ?a ?b] =>
        let v := eval vm_compute in (tok_eqb a b) in
        lazymatch v with
        | true => change (tok_eqb a b) with true
        | false => change (tok_eqb a b) with false
        end
    end.

(** ** Further token streams *)

(** [(Sealed, Hidden = false, AllowedSubclasses = ?Foo) Foo\n], read
    from the opening parenthesis on. *)
Definition attr_list_tokens : list token :=
  [ (Punctuation, "("); (Name, "Sealed"); (Punctuation, ","); (Text, " ");
    (Name, "Hidden"); (Text, " "); (Punctuation, "="); (Text, " ");
    (Name, "false"); (Punctuation, ","); (Text, " ");
    (Name, "AllowedSubclasses"); (Text, " "); (Punctuation, "="); (Text, " ");
    (Text, "?"); (Name, "Foo"); (Punctuation, ")"); (Text, " ");
    (Name, "Foo"); (Text, nl) ].

(** ** Notions used to state the further properties *)

(** The test of the inner loop of the function docstring: a blank, a tab
    or a newline as [Token.Text]. *)
Definition is_ws3 (t : token) : bool :=
  tok_in t (zip (replicate 3 Text) [" "; tab; nl]).

(** A comment line of a function docstring: the comment and the blanks,
    tabs and newlines that follow it. *)
Definition doc_line (line : string * list token) : list token :=
  (Comment, line.1) :: line.2.

Definition doc_block (lines : list (string * list token)) : list token :=
  List.concat (map doc_line lines).

(** The comments without their markers, a newline appended to each. *)
Definition function_docstring_of (lines : list (string * list token)) : string :=
  fold_left (fun doc line => doc +:+ (PyStr.lstrip "%" line.1 +:+ nl))
            lines EmptyString.

(** The tokens before which [end] is an index: [:] and [(]. *)
Definition index_openers : list token :=
  zip (replicate 2 Punctuation) [":"; "("].

(** A token that is neither a block opener nor [end]. *)
Definition is_plain (t : token) : bool :=
  negb (tok_in t mat_kws) && negb (tok_eqb t (Keyword, "end")).

(** Token lists in which every block opener has its [end]: plain tokens,
    [end] used as an index right after [:] or [(], and blocks
    [opener ... end] whose [end] does not follow [:] or [(]. *)
Inductive balanced : list token -> Prop :=
  | balanced_nil : balanced []
  | balanced_plain t l :
      is_plain t = true -> balanced l -> balanced (t :: l)
  | balanced_index p l :
      p ∈ index_openers -> balanced l ->
      balanced (p :: (Keyword, "end") :: l)
  | balanced_block o body l :
      o ∈ mat_kws -> balanced body ->
      List.last (o :: body) o ∉ index_openers -> balanced l ->
      balanced (o :: body ++ (Keyword, "end") :: l).

(** The counter and the last token after the body loop has gone over a
    list of tokens without stopping. *)
Fixpoint run_counter (kw_end : Z) (lastkw : option token) (l : list token)
    : Z * option token :=
  match l with
  | [] => (kw_end, lastkw)
  | t :: l => run_counter (kw_end_update kw_end lastkw t) (Some t) l
  end.

(** The counter is positive before each token of the list is read. *)
Fixpoint stays_positive (kw_end : Z) (lastkw : option token) (l : list token) : Prop :=
  match l with
  | [] => True
  | t :: l => (0 < kw_end)%Z /\ stays_positive (kw_end_update kw_end lastkw t) (Some t) l
  end.

(** The source of a function with outputs and inputs: the signature, the
    comment lines, the body, its [end], and the tokens after it. *)
Definition function_source (outs name ins : string)
    (lines : list (string * list token)) (body after : list token) : list token :=
  (signature_tokens outs name ins
   ++ doc_block lines ++ body ++ (Keyword, "end") :: after)%list.

(** Every name a dictionary binds is in the table. *)
Definition names_in (attr_types : list (string * AttrType))
    (attr_dict : gmap string AttrVal) : Prop :=
  forall k, is_Some (attr_dict !! k) -> in_attr_types k attr_types = true.

(** The test of [_whitespace]: a blank, a newline or a tab as [Token.Text]. *)
Definition is_white (t : token) : bool :=
  ttype_is t.1 Text && str_in t.2 [" "; nl; tab].

(** What the class parser skips between the entries of a block:
    whitespace and comments. *)
Definition is_skipped (t : token) : bool :=
  is_white t || ttype_is t.1 Comment.

(** [classdef Foo\n  properties\n    % none yet\n  end\nend\n] *)
Definition empty_properties_tokens : list token :=
  [ (Keyword, "classdef"); (Text, " "); (Name, "Foo"); (Text, nl);
    (Text, " "); (Text, " "); (Keyword, "properties"); (Text, nl);
    (Text, " "); (Text, " "); (Text, " "); (Text, " ");
    (Comment, "% none yet"); (Text, nl);
    (Text, " "); (Text, " "); (Keyword, "end"); (Text, nl);
    (Keyword, "end"); (Text, nl) ].

(** [classdef Foo\n  methods\n  end\nend\n] *)
Definition empty_methods_tokens : list token :=
  [ (Keyword, "classdef"); (Text, " "); (Name, "Foo"); (Text, nl);
    (Text, " "); (Text, " "); (Keyword, "methods"); (Text, nl);
    (Text, " "); (Text, " "); (Keyword, "end"); (Text, nl);
    (Keyword, "end"); (Text, nl) ].

(** [classdef Foo\n  % about Foo\n\n  enumeration\n    Red\n  end\nend\n],
    with [enumeration] read as a name. *)
Definition enumeration_tokens : list token :=
  [ (Keyword, "classdef"); (Text, " "); (Name, "Foo"); (Text, nl);
    (Text, " "); (Text, " "); (Comment, "% about Foo"); (Text, nl);
    (Text, nl);
    (Text, " "); (Text, " "); (Name, "enumeration"); (Text, nl);
    (Text, " "); (Text, " "); (Text, " "); (Text, " "); (Name, "Red"); (Text, nl);
    (Text, " "); (Text, " "); (Keyword, "end"); (Text, nl);
    (Keyword, "end"); (Text, nl) ].

(** ** Notions about the interpreter state *)

(** Every module of the registry is stored under its own name and was
    created before now. *)
Definition registry_ok (w : World) : Prop :=
  forall k m, sys_modules w !! k = Some m -> mod_name m = k /\ mod_id m < next_id w.

(** [w'] comes after [w]: no identity is given twice, every file opened
    stays in the log, no name leaves the registry, and a module of the
    registry is the one that was there or one created since. *)
Definition extends (w w' : World) : Prop :=
  next_id w <= next_id w' /\
  opened w `suffix_of` opened w' /\
  (forall k, is_Some (sys_modules w !! k) -> is_Some (sys_modules w' !! k)) /\
  (forall k m', sys_modules w' !! k = Some m' ->
     sys_modules w !! k = Some m' \/ next_id w <= mod_id m').

(** A computation moves the world forward and keeps the registry in
    order. *)
Definition orderly {A : Type} (m : M A) : Prop :=
  forall w, extends w (m w).2 /\ (registry_ok w -> registry_ok (m w).2).

(** [v] is what the getter of a module of the registry returned for the
    name [b] at some point between the worlds [w] and [w']. *)
Definition given_by_getter (fuel : nat) (fs : FsNode) (w w' : World)
    (b : string) (v : PyVal) : Prop :=
  exists k module w1 w2,
    extends w w1 /\ extends w2 w' /\
    sys_modules w1 !! k = Some module /\
    MatModule_getter fuel fs module b w1 = (OK v, w2).

(** What the dictionary of [__bases__] holds for the bases [bases] after
    a run from [w] to [w']: a key for each of them and no other, bound to
    [None] or to a truthy object that the getter of a registered module
    returned for that base during the run. *)
Definition bases_dict_ok (fuel : nat) (fs : FsNode) (w w' : World)
    (bases : list string) (d : gmap string PyVal) : Prop :=
  (forall b, is_Some (d !! b) <-> b ∈ bases) /\
  (forall b v, d !! b = Some v ->
     v = VNone \/ (truthy v = true /\ given_by_getter fuel fs w w' b v)).

(** The package [pkg] of [bases_fs] once resolved, and the class of
    [src/pkg/Qux.m] as the class parser returns it. *)
Definition pkg_module : MatModule :=
  {| mod_id := 0; mod_name := "pkg"; mod_path := "src/pkg"; mod_package := "pkg" |}.

Definition pkg_world : World :=
  {| sys_modules := {["pkg" := pkg_module]}; next_id := 1; opened := [] |}.

Definition qux_class : MatClass :=
  {| cls_name := "Qux"; cls_module := "pkg"; cls_tokens := qux_tokens;
     cls_attrs := ∅; cls_bases := ["Baz"]; cls_docstring := EmptyString;
     cls_properties := ∅; cls_methods := ∅; cls_rem_tks := Some 8 |}.

(** [classdef Baz\nend\n], and [src/pkg/Qux.m] beside [src/pkg/Baz.m]: the
    base of [Qux] is a file of its own package. *)
Definition baz_tokens : list token :=
  [ (Keyword, "classdef"); (Text, " "); (Name, "Baz"); (Text, nl);
    (Keyword, "end"); (Text, nl) ].

Definition baz_class : MatClass :=
  {| cls_name := "Baz"; cls_module := "pkg"; cls_tokens := baz_tokens;
     cls_attrs := ∅; cls_bases := []; cls_docstring := EmptyString;
     cls_properties := ∅; cls_methods := ∅; cls_rem_tks := Some 4 |}.

Definition base_in_package_fs : FsNode :=
  FsDir [ ("src", FsDir [ ("pkg", FsDir [ ("Qux.m", FsFile qux_tokens);
                                          ("Baz.m", FsFile baz_tokens) ]) ]) ].

(** The value [MatModule.getter] makes of a resolution: the object, or
    [None] when there is none. *)
Definition as_value (r : result (option MatObj)) : result PyVal :=
  match r with
  | OK (Some o) => OK (VObj o)
  | OK None => OK VNone
  | Raise e => Raise e
  | OutOfFuel => OutOfFuel
  end.

(** The names [MatModule.getter] answers itself. *)
Definition module_special_names : list string :=
  ["__name__"; "__doc__"; "__all__"; "__file__"; "__path__"; "__package__"].

(** ** MatProperty and [MatClass.getter] *)

Record MatProperty : Type := mkMatProperty {
  prop_name : string;
  prop_cls : PyClass;
  prop_attrs : gmap string AttrVal;
  prop_default : option string;
  prop_docstring : option string
}.

(** [attrs[key]] for a key of an entry of [self.properties]. *)
Definition entry_getitem {A : Type} (v : option A) (key : string) : result A :=
  match v with
  | Some a => OK a
  | None => Raise (KeyError key)
  end.

(** [MatProperty.__init__]; the key ['attrs'] is set when the entry is
    made. *)
Definition MatProperty_init (name : string) (cls : PyClass) (attrs : PropEntry)
    : result MatProperty :=
  do _ <- py_super CMatProperty CMatProperty;
  let self_attrs := pe_attrs attrs in
  do default <- entry_getitem (pe_default attrs) "default";
  do docstring <- entry_getitem (pe_docstring attrs) "docstring";
  OK {| prop_name := name; prop_cls := cls; prop_attrs := self_attrs;
        prop_default := default; prop_docstring := docstring |}.

(** What [MatClass.getter] hands out for a name other than [__dict__], and
    what [__dict__] holds. *)
Inductive MemberVal : Type :=
  | MNone
  | MStr (s : string)
  | MBases (b : BasesResult)
  | MProperty (p : MatProperty)
  | MMethod (m : MatMethod).

Inductive ClassVal : Type :=
  | CVMember (v : MemberVal)
  | CVDict (objdict : gmap string MemberVal).

(** The names [MatClass.getter] answers before it looks at the
    properties. *)
Definition class_special_names : list string :=
  ["__name__"; "__doc__"; "__module__"; "__bases__"].

(** [dict(items)]: of two items with one key the later one stays. *)
Definition py_dict {V : Type} (items : list (string * V)) : gmap string V :=
  foldl (fun d kv => <[kv.1 := kv.2]> d) ∅ items.

Section ClassGetter.
Variable fuel : nat.
Variable fs : FsNode.

(** [self.properties.iterkeys()]: the keys in the order the dictionary
    gives them. *)
Variable iterkeys : gmap string PropEntry -> list string.

(** Lines 764-775: the branches before [__dict__]; [None] when none of
    them applies. *)
Definition getter_member (self : MatClass) (name : string) : M (option MemberVal) :=
  if str_eqb name "__name__" then mret (Some (MStr (cls_name self)))
  else if str_eqb name "__doc__" then mret (Some (MStr (cls_docstring self)))
  else if str_eqb name "__module__" then mret (Some (MStr (cls_module self)))
  else if str_eqb name "__bases__" then
    run b <- MatClass_bases fuel fs self;
    mret (Some (MBases b))
  else
    match cls_properties self !! name with
    | Some entry =>
        run p <- lift (MatProperty_init name CMatClass entry);
        mret (Some (MProperty p))
    | None =>
        match cls_methods self !! name with
        | Some m => mret (Some (MMethod m))
        | None => mret None
        end
    end.

(** [self.getter(pn)] as the comprehension of line 777 calls it: for
    [__dict__] out of the properties and the methods the call would come
    back to the comprehension without end. *)
Definition getter_nested (self : MatClass) (pn : string) : M MemberVal :=
  run v <- getter_member self pn;
  match v with
  | Some v => mret v
  | None => if str_eqb pn "__dict__" then lift OutOfFuel else mret MNone
  end.

(** Lines 777-778: [[(pn, self.getter(pn)) for pn in ...]]. *)
Fixpoint objdict_items (self : MatClass) (pns : list string)
    : M (list (string * MemberVal)) :=
  match pns with
  | [] => mret []
  | pn :: pns =>
      run v <- getter_nested self pn;
      run items <- objdict_items self pns;
      mret ((pn, v) :: items)
  end.

(** [MatClass.getter(name)] without default arguments. *)
Definition MatClass_getter (self : MatClass) (name : string) : M ClassVal :=
  run v <- getter_member self name;
  match v with
  | Some v => mret (CVMember v)
  | None =>
      if str_eqb name "__dict__" then
        run items <- objdict_items self (iterkeys (cls_properties self));
        let objdict := py_dict items in
        (* [objdict.update(self.methods)] *)
        mret (CVDict ((MMethod <$> cls_methods self) ∪ objdict))
      else mret (CVMember MNone)
  end.

End ClassGetter.

(** [iterkeys] gives the keys of a dictionary, in whatever order. *)
Definition lists_keys (iterkeys : gmap string PropEntry -> list string) : Prop :=
  forall d k, k ∈ iterkeys d <-> is_Some (d !! k).

(** The keys in the order of [map_to_list]. *)
Definition keys_in_order (d : gmap string PropEntry) : list string :=
  (map_to_list d).*1.

(** What the parser makes of the entries of [self.properties]: the keys
    ['attrs'] and ['docstring'] are set, and the attributes are those of a
    [properties] block. *)
Definition entries_ok (properties : gmap string PropEntry) : Prop :=
  forall k e, properties !! k = Some e ->
    is_Some (pe_docstring e) /\
    names_in prop_attr_types (pe_attrs e) /\ no_list (pe_attrs e).

(** The property [getter] makes of an entry whose keys are all set. *)
Definition property_of (name : string) (e : PropEntry) : option MatProperty :=
  match pe_default e, pe_docstring e with
  | Some default, Some docstring =>
      Some {| prop_name := name; prop_cls := CMatClass; prop_attrs := pe_attrs e;
              prop_default := default; prop_docstring := docstring |}
  | _, _ => None
  end.

(** [classdef Foo\n  properties (Constant)\n    x = 1 % the x\n    y\n  end\nend\n] *)
Definition two_properties_tokens : list token :=
  ([ (Keyword, "classdef"); (Text, " "); (Name, "Foo"); (Text, nl) ]
   ++ blanks 2
   ++ [ (Keyword, "properties"); (Text, " "); (Punctuation, "(");
        (Name, "Constant"); (Punctuation, ")"); (Text, nl) ]
   ++ blanks 4
   ++ [ (Name, "x"); (Text, " "); (Punctuation, "="); (Text, " ");
        (OtherType "Literal.Number.Integer", "1"); (Text, " ");
        (Comment, "% the x"); (Text, nl) ]
   ++ blanks 4 ++ [ (Name, "y"); (Text, nl) ]
   ++ blanks 2 ++ [ (Keyword, "end"); (Text, nl) ]
   ++ [ (Keyword, "end"); (Text, nl) ])%list.

(** What [__dict__] holds under the name of a property. *)
Definition item_of (properties : gmap string PropEntry) (pn : string) : MemberVal :=
  match properties !! pn ≫= property_of pn with
  | Some p => MProperty p
  | None => MNone
  end.

(** * Properties *)

(** ** Generic facts about results, loops and token lists *)

Lemma rbind_OK {A B : Type} (m : result A) (k : A -> result B) (b : B) :
  rbind m k = OK b -> exists a, m = OK a /\ k a = OK b.
Proof. destruct m; cbn; intros H; try discriminate. eauto. Qed.

Lemma pop_OK tks t rest : pop tks = OK (t, rest) -> tks = t :: rest.
Proof. destruct tks; cbn; congruence. Qed.

(** A loop whose body leaves the state as it is while the condition holds
    never ends: every bound on the iterations is exhausted. *)
Lemma while_stuck {S : Type} (cond : S -> result bool) (body : S -> result S) (s : S) :
  cond s = OK true -> body s = OK s ->
  forall fuel, while fuel cond body s = OutOfFuel.
Proof.
  intros Hc Hb fuel. induction fuel as [|fuel IH]; [reflexivity|].
  cbn [while]. rewrite Hc. cbn [rbind]. rewrite Hb. cbn [rbind]. exact IH.
Qed.

(** A property of the state that every pass of the body keeps holds when
    the loop ends. *)
Lemma while_invariant {S : Type} (P : S -> Prop) (cond : S -> result bool)
    (body : S -> result S) :
  (forall s s', P s -> body s = OK s' -> P s') ->
  forall fuel s s', P s -> while fuel cond body s = OK s' -> P s'.
Proof.
  intros Hbody fuel. induction fuel as [|fuel IH]; intros s s' Hs; cbn [while].
  - discriminate.
  - intros H. apply rbind_OK in H as (c & _ & H). destruct c.
    + apply rbind_OK in H as (s1 & Hb & H). eauto.
    + by injection H as <-.
Qed.

Lemma tk_at_drop tokens idx t rest :
  drop idx tokens = t :: rest -> tk_at tokens idx = OK t.
Proof.
  intros H. unfold tk_at.
  assert (Hl : drop idx tokens !! 0 = Some t) by (by rewrite H).
  rewrite lookup_drop, Nat.add_0_r in Hl. by rewrite Hl.
Qed.

Lemma drop_plus (tokens : list token) idx k :
  drop (idx + k) tokens = drop k (drop idx tokens).
Proof. by rewrite drop_drop. Qed.

(** The count of [_indent] and [_whitespace] over a run of matching
    tokens that a non-matching token ends. *)
Lemma count_while_run p (ws : list token) t rest :
  Forall (fun x => p x = true) ws -> p t = false ->
  count_while p (ws ++ t :: rest) = OK (List.length ws).
Proof.
  intros Hrun Ht. induction Hrun as [|x ws Hx _ IH]; cbn.
  - by rewrite Ht.
  - by rewrite Hx, IH.
Qed.

(** ** MatException *)

Lemma MatScript_constructible name path tks :
  MatScript_init name path tks
  = OK {| scr_name := name; scr_path := path; scr_tks := tks;
          scr_docstring := EmptyString |}.
Proof. reflexivity. Qed.

(** C10: for every argument triple the [MatException] constructor raises
    [TypeError] at [super(MatScript, self)], before any field is set,
    because [MatException] is not a subclass of [MatScript]; no
    [MatException] object is ever returned. *)
Theorem MatException_init_raises (name path : string) (tks : list token) :
  issubclass CMatException CMatScript = false /\
  MatException_init name path tks
  = Raise (TypeError "super(type, obj): obj must be an instance or subtype of type").
Proof. split; reflexivity. Qed.

(** ** The function parser on the [square] example *)

(** C5 (counterexample): on the token stream of the [square] source the
    parse succeeds and the docstring keeps the blank that follows the
    comment marker; it is not the string the claim gives. *)
Lemma square_docstring_keeps_blank :
  exists f,
    MatFunction_init false (Some "square") "pkg" square_tokens = OK f /\
    fn_docstring f = " squares x" +:+ nl /\
    fn_docstring f <> "squares x" +:+ nl.
Proof.
  eexists. split; [vm_compute; reflexivity|]. split; [reflexivity|].
  vm_compute. discriminate.
Qed.

(** C5 (amended): the token stream of the [square] source parses to a
    function named [square] with inputs [x], outputs [y] and the docstring
    [" squares x\n"]: the comment without its marker [%], the blank after
    the marker kept, and a newline appended. *)
Theorem square_parse (modname : string) :
  exists f,
    MatFunction_init false (Some "square") modname square_tokens = OK f /\
    fn_name f = "square" /\
    fn_args f = Some ["x"] /\
    fn_retv f = Some ["y"] /\
    fn_docstring f = " squares x" +:+ nl.
Proof. eexists. split; [vm_compute; reflexivity|]. repeat split. Qed.

Lemma name_matches_same name : name_matches (NameFunction, name) (Some name) = true.
Proof. unfold name_matches, tok_eqb. by rewrite bool_decide_eq_true_2. Qed.

(** For every signature [function outs = name(ins)] the outputs are the
    comma-separated parts of [outs] without brackets and blanks, the inputs
    the comma-separated parts of [ins], in the order of the source. *)
Lemma MatFunction_init_signature is_method modname outs name ins body f :
  MatFunction_init is_method (Some name) modname
    (signature_tokens outs name ins ++ body) = OK f ->
  fn_name f = name /\
  fn_retv f = Some (map PyStr.strip (PyStr.split "," (PyStr.strip_chars "[ ]" outs))) /\
  fn_args f = Some (map PyStr.strip (PyStr.split "," ins)).
Proof.
  unfold MatFunction_init, signature_tokens.
  replace (py_super CMatFunction (if is_method then CMatMethod else CMatFunction))
    with (OK tt) by (by destruct is_method).
  cbn [rbind pop app fst snd].
  change (negb (ttype_is Keyword Keyword)
          || negb (str_eqb (PyStr.strip "function") "function")) with false.
  cbn match. cbn [rbind pop app fst snd].
  eval_tests. cbn [negb rbind pop fst snd].
  rewrite name_matches_same. cbn [negb rbind pop fst snd].
  eval_tests. cbn [negb rbind pop fst snd].
  intros H. invert_parse @rbind_OK H. by injection H as <-.
Qed.

(** The parse returns when the body starts with a token that is no
    comment; the docstring is then empty. *)
Lemma MatFunction_init_returns is_method modname outs name ins d body :
  ttype_is d.1 Comment = false ->
  exists f,
    MatFunction_init is_method (Some name) modname
      (signature_tokens outs name ins ++ d :: body) = OK f /\
    fn_docstring f = EmptyString.
Proof.
  intros Hd. unfold MatFunction_init, signature_tokens.
  replace (py_super CMatFunction (if is_method then CMatMethod else CMatFunction))
    with (OK tt) by (by destruct is_method).
  cbn [rbind pop app fst snd].
  change (negb (ttype_is Keyword Keyword)
          || negb (str_eqb (PyStr.strip "function") "function")) with false.
  cbn match. cbn [rbind pop app fst snd].
  eval_tests. cbn [negb rbind pop fst snd].
  rewrite name_matches_same. cbn [negb rbind pop fst snd].
  eval_tests. cbn [negb rbind pop fst snd].
  destruct body as [|x body]; cbn [docstring_loop]; rewrite Hd; cbn [rbind];
    match goal with |- context [body_loop ?n ?l ?k ?t] =>
      destruct (body_loop n l k t) end; eexists; split; reflexivity.
Qed.

(** ** The nesting counter of the function body *)

Lemma kw_end_update_opener kw_end lastkw kw :
  kw ∈ mat_kws -> kw_end_update kw_end lastkw kw = (kw_end + 1)%Z.
Proof.
  intros H. unfold kw_end_update, tok_in. by rewrite bool_decide_eq_true_2.
Qed.

Lemma kw_end_update_index_end kw_end last :
  last = (Punctuation, ":") \/ last = (Punctuation, "(") ->
  kw_end_update kw_end (Some last) (Keyword, "end") = kw_end.
Proof. intros [-> | ->]; reflexivity. Qed.

Lemma kw_end_update_block_end kw_end lastkw :
  lastkw <> Some (Punctuation, ":") -> lastkw <> Some (Punctuation, "(") ->
  kw_end_update kw_end lastkw (Keyword, "end") = (kw_end - 1)%Z.
Proof.
  intros H1 H2. unfold kw_end_update.
  change (tok_in (Keyword, "end") mat_kws) with false.
  change (tok_eqb (Keyword, "end") (Keyword, "end")) with true. cbn match.
  destruct lastkw as [l|]; [|reflexivity].
  unfold tok_in. rewrite bool_decide_eq_false_2; [reflexivity|].
  intros Hin. cbn in Hin.
  apply elem_of_cons in Hin as [-> | Hin]; [congruence|].
  apply elem_of_cons in Hin as [-> | Hin]; [congruence|].
  by apply elem_of_nil in Hin.
Qed.

Lemma kw_end_update_other kw_end lastkw kw :
  kw ∉ mat_kws -> kw <> (Keyword, "end") ->
  kw_end_update kw_end lastkw kw = kw_end.
Proof.
  intros H1 H2. unfold kw_end_update, tok_in, tok_eqb.
  by rewrite !bool_decide_eq_false_2.
Qed.

(** A body with one nested [if ... end] is consumed to its own [end]. *)
Lemma nested_if_consumed :
  exists f,
    MatFunction_init false (Some "f") "pkg" (with_signature nested_if_body) = OK f /\
    fn_rem_tks f = Some [(Text, nl)].
Proof. eexists. split; [vm_compute; reflexivity|]. reflexivity. Qed.

(** [a(end)] and [a(1:end)] do not close the function. *)
Lemma index_end_consumed :
  exists f,
    MatFunction_init false (Some "f") "pkg" (with_signature index_end_body) = OK f /\
    fn_rem_tks f = Some [(Text, nl)].
Proof. eexists. split; [vm_compute; reflexivity|]. reflexivity. Qed.

(** C2 (the code's behaviour at [a(1: end)]): the token before [end] is
    the blank, not the colon, so the counter drops to zero at the index
    and everything from the closing parenthesis on is left over: the
    function is closed inside its first statement. *)
Theorem end_after_blank_closes_function :
  kw_end_update 1 (Some (Text, " ")) (Keyword, "end") = 0%Z /\
  exists f,
    MatFunction_init false (Some "f") "pkg" (with_signature index_blank_end_body) = OK f /\
    fn_rem_tks f = Some (rev (drop 10 index_blank_end_body)) /\
    index_blank_end_body !! 9 = Some (Keyword, "end") /\
    List.length (drop 10 index_blank_end_body) = 12.
Proof.
  split; [reflexivity|]. eexists. split; [vm_compute; reflexivity|].
  repeat split.
Qed.

(** ** The tokens a function leaves over *)

(** The docstring loop stops on a suffix of the stream it was given. *)
Lemma docstring_loop_suffix n :
  forall tks doc d doc' kw tks',
    List.length tks <= n ->
    docstring_loop doc d tks = OK (doc', kw, tks') ->
    (kw :: tks') `suffix_of` (d :: tks).
Proof.
  induction n as [|n IH]; intros tks doc d doc' kw tks' Hlen.
  - destruct tks; [|cbn in Hlen; lia]. cbn.
    destruct (ttype_is d.1 Comment); [discriminate|]. by intros [= -> -> ->].
  - destruct tks as [|wht tks]; cbn.
    { destruct (ttype_is d.1 Comment); [discriminate|]. by intros [= -> -> ->]. }
    destruct (ttype_is d.1 Comment); [|by intros [= -> -> ->]].
    cbn in Hlen. assert (Hl : List.length tks <= n) by lia. clear Hlen.
    intros H. apply suffix_cons_r. revert wht Hl H.
    induction tks as [|w tks IHt]; intros wht Hl.
    + destruct (tok_in wht _); [discriminate|]. intros H.
      by apply IH in H.
    + destruct (tok_in wht _).
      * intros H. apply suffix_cons_r. apply IHt in H; [done|cbn in Hl; lia].
      * intros H. by apply IH in H.
Qed.

(** So does the body loop. *)
Lemma body_loop_suffix tks :
  forall kw_end lastkw kw,
    ((body_loop kw_end lastkw kw tks).1 :: (body_loop kw_end lastkw kw tks).2)
    `suffix_of` (kw :: tks).
Proof.
  induction tks as [|next tks IH]; intros kw_end lastkw kw; cbn.
  - by destruct (0 <? kw_end)%Z.
  - destruct (0 <? kw_end)%Z; [|done].
    apply suffix_cons_r, IH.
Qed.

(** Whenever [MatFunction.__init__] returns, [rem_tks] is set and holds at
    least one token: the stream ends with the tokens left over. *)
Lemma MatFunction_init_rem_tks is_method name modname tokens f :
  MatFunction_init is_method name modname tokens = OK f ->
  fn_tokens f = tokens /\
  exists kw rest,
    fn_rem_tks f = Some (rev (kw :: rest)) /\ (kw :: rest) `suffix_of` tokens.
Proof.
  intros H. unfold MatFunction_init in H.
  invert_parse @rbind_OK H.
  injection H as <-. cbn [fn_tokens fn_rem_tks].
  split; [reflexivity|].
  repeat match goal with H : pop _ = OK _ |- _ => apply pop_OK in H end.
  repeat match goal with H : OK _ = OK _ |- _ => injection H as ?; subst end.
  match goal with Hb : body_loop ?n ?l ?k ?t = (?kw, ?rest) |- _ =>
    pose proof (body_loop_suffix t n l k) as Hbody; rewrite Hb in Hbody;
    cbn [fst snd] in Hbody; exists kw, rest end.
  split; [reflexivity|].
  match goal with Hd : docstring_loop _ _ _ = OK _ |- _ =>
    apply (docstring_loop_suffix _ _ _ _ _ _ _ (Nat.le_refl _)) in Hd;
    rename Hd into Hdoc end.
  (* the two optional parts of the signature keep a suffix *)
  match goal with
    Hr : (if ttype_is _ Text then _ else OK (None, ?l1)) = OK (_, ?l2) |- _ =>
      assert (Hretv : l2 `suffix_of` l1)
  end.
  { match goal with
      Hr : (if ttype_is _ Text then _ else _) = OK _ |- _ => invert_parse @rbind_OK Hr end;
    repeat match goal with H : pop _ = OK _ |- _ => apply pop_OK in H end;
    repeat match goal with H : OK _ = OK _ |- _ => injection H as ?; subst end;
    try done;
    match goal with |- context [if ?c then _ else _] => destruct c end;
    suffix_tac. }
  match goal with
    Ha : (if tok_eqb _ (Punctuation, "(") then _ else OK (None, ?l4)) = OK (_, ?l5) |- _ =>
      assert (Hargs : l5 `suffix_of` l4)
  end.
  { match goal with
      Ha : (if tok_eqb _ (Punctuation, "(") then _ else _) = OK _ |- _ =>
        invert_parse @rbind_OK Ha end;
    repeat match goal with H : pop _ = OK _ |- _ => apply pop_OK in H end;
    repeat match goal with H : OK _ = OK _ |- _ => injection H as ?; subst end;
    try done; suffix_tac. }
  repeat match goal with H : pop _ = OK _ |- _ => apply pop_OK in H end.
  subst.
  etrans; [exact Hbody|]. etrans; [exact Hdoc|].
  match type of Hargs with ?x `suffix_of` ?y =>
    trans x; [suffix_tac|]; trans y; [exact Hargs|] end.
  match type of Hretv with ?x `suffix_of` ?y =>
    trans x; [suffix_tac|]; trans y; [exact Hretv|] end.
  suffix_tac.
Qed.

(** The trim protocol: a method parsed from a slice splits the slice into
    the tokens it keeps and the tokens left over, and [reset_tokens]
    returns the number of tokens kept. At least one token is left over. *)
Lemma reset_tokens_trim modname slice cls attrs m :
  MatMethod_init modname slice cls attrs = OK m ->
  exists pre kw rest m',
    slice = (pre ++ kw :: rest)%list /\
    fn_rem_tks (meth_fn m) = Some (rev (kw :: rest)) /\
    reset_tokens m = OK (List.length pre, m') /\
    fn_tokens (meth_fn m') = pre /\
    fn_rem_tks (meth_fn m') = None.
Proof.
  unfold MatMethod_init. change (py_super CMatMethod CMatMethod) with (OK tt).
  cbn [rbind]. intros H. apply rbind_OK in H as (fn & Hfn & [= <-]).
  apply MatFunction_init_rem_tks in Hfn as (Htk & kw & rest & Hrem & [pre ->]).
  exists pre, kw, rest. eexists. split; [reflexivity|]. split; [exact Hrem|].
  unfold reset_tokens. cbn [meth_fn]. rewrite Hrem, Htk.
  rewrite length_rev, length_app.
  replace (List.length pre + List.length (kw :: rest) - List.length (kw :: rest))
    with (List.length pre) by lia.
  split; [reflexivity|]. cbn [meth_fn fn_tokens fn_rem_tks]. split; [|reflexivity].
  unfold slice_to_neg. cbn [List.length Nat.eqb]. rewrite length_app.
  replace (List.length pre + List.length (kw :: rest) - S (List.length rest))
    with (List.length pre) by (cbn; lia).
  by rewrite take_app_length.
Qed.



(** ** The attribute parser and cell arrays *)

Lemma no_list_insert attr_dict k v :
  no_list attr_dict -> (forall l, v <> AVList l) -> no_list (<[k := v]> attr_dict).
Proof.
  intros Hd Hv k' l. destruct (decide (k = k')) as [<- | Hne].
  - rewrite lookup_insert_eq. intros [= ->]. by eapply Hv.
  - rewrite lookup_insert_ne by done. apply Hd.
Qed.

(** [append] on a value that is no list raises. *)
Lemma py_append_no_list attr_dict k v x v' :
  no_list attr_dict -> dict_getitem attr_dict k = OK v -> py_append v x <> OK v'.
Proof.
  unfold dict_getitem. intros Hd Hv.
  destruct (attr_dict !! k) as [u|] eqn:Hk; [|discriminate].
  injection Hv as ->. destruct v as [b|s|l]; cbn; try discriminate.
  by destruct (Hd k l).
Qed.

(** The loop over a cell array returns the dictionary it was given: a pass
    that reads a value raises at [append]. *)
Lemma cell_array_loop_keeps fuel tokens attr_name attr_dict idx attr_dict' idx' :
  no_list attr_dict ->
  cell_array_loop fuel tokens attr_name attr_dict idx = OK (attr_dict', idx') ->
  attr_dict' = attr_dict.
Proof.
  intros Hd H. unfold cell_array_loop in H.
  apply (while_invariant (fun st => st.1 = attr_dict)) in H; [exact H| |reflexivity].
  intros [d i] [d' i']. cbn [fst]. intros -> Hb.
  apply rbind_OK in Hb as (i1 & _ & Hb).
  apply rbind_OK in Hb as ([attr_val i2] & _ & Hb).
  destruct (negb (str_eqb attr_val EmptyString)).
  - apply rbind_OK in Hb as (v & Hv & Hb).
    apply rbind_OK in Hb as (v' & Hv' & _).
    by destruct (py_append_no_list _ _ _ _ _ Hd Hv Hv').
  - by injection Hb as <- _.
Qed.

(** One attribute entry keeps the dictionary free of lists. *)
Lemma attr_entry_no_list fuel tokens attr_types st st' :
  no_list st.1 -> attr_entry fuel tokens attr_types st = OK st' -> no_list st'.1.
Proof.
  destruct st as [d i], st' as [d' i']. cbn [fst]. intros Hd H.
  unfold attr_entry in H.
  apply rbind_OK in H as (i1 & _ & H).
  apply rbind_OK in H as ([k attr_name] & _ & H).
  apply rbind_OK in H as ([d1 i2] & H1 & H).
  assert (Hd1 : no_list d1).
  { destruct (ttype_is k Name && in_attr_types attr_name attr_types);
      [|discriminate]. injection H1 as <- _. by apply no_list_insert. }
  clear H1 Hd.
  apply rbind_OK in H as (i3 & _ & H).
  apply rbind_OK in H as (c & _ & H).
  destruct c; [by injection H as <- _|].
  apply rbind_OK in H as (c & _ & H).
  destruct c; [|by injection H as <- _].
  apply rbind_OK in H as (i4 & _ & H).
  apply rbind_OK in H as ([k' attr_val] & _ & H).
  apply rbind_OK in H as ([d2 i5] & H2 & H).
  apply rbind_OK in H as (i6 & _ & H).
  apply rbind_OK in H as (c & _ & H). injection H as <- _.
  destruct (ttype_is k' Name && str_in attr_val ["true"; "false"]).
  { injection H2 as <- _. destruct (str_eqb attr_val "false"); [|done].
    by apply no_list_insert. }
  apply rbind_OK in H2 as (c' & _ & H2). destruct c'.
  { apply rbind_OK in H2 as (t & _ & H2).
    apply rbind_OK in H2 as ([e i7] & _ & H2).
    apply rbind_OK in H2 as (c2 & _ & H2). injection H2 as <- _.
    by apply no_list_insert. }
  apply rbind_OK in H2 as (c2 & _ & H2). destruct c2.
  - apply rbind_OK in H2 as ([d3 i7] & Hc & H2). injection H2 as <- _.
    by rewrite (cell_array_loop_keeps _ _ _ _ _ _ _ Hd1 Hc).
  - by injection H2 as <- _.
Qed.

(** Whatever the token stream and the table, the map [attributes] returns
    binds no name to a list of values. *)
Lemma attributes_no_list fuel tokens idx attr_types attr_dict idx' :
  attributes fuel tokens idx attr_types = OK (attr_dict, idx') ->
  no_list attr_dict.
Proof.
  unfold attributes. intros H.
  apply rbind_OK in H as (i1 & _ & H).
  apply rbind_OK in H as (c & _ & H).
  destruct c.
  - apply rbind_OK in H as ([d i2] & Hw & H). injection H as <- _.
    apply (while_invariant (fun st => no_list st.1)) in Hw; [exact Hw| |].
    + intros s s'. apply attr_entry_no_list.
    + cbn [fst]. intros k l. by rewrite lookup_empty.
  - injection H as <- _. intros k l. by rewrite lookup_empty.
Qed.

(** C6 (the code's behaviour at a cell array with a value): the entry
    [InferiorClasses = {?A, ?B}] is recognized, bound to [True], and the
    first value is then appended to that [True]: [attributes] raises
    [AttributeError] for every iteration bound that lets it get there, and
    so does the whole class parser. *)
Theorem attributes_cell_array_raises (fuel : nat) :
  attributes (3 + fuel) inferior_tokens 1 cls_attr_types
  = Raise (AttributeError "'bool' object has no attribute 'append'") /\
  MatClass_init (3 + fuel) inferior_tokens "Foo" "pkg"
  = Raise (AttributeError "'bool' object has no attribute 'append'").
Proof. split; vm_compute; reflexivity. Qed.

(** An empty cell array leaves the attribute bound to [True]. *)
Lemma attributes_empty_cell_array (fuel : nat) :
  attributes (2 + fuel)
    [ (Keyword, "classdef"); (Punctuation, "("); (Name, "InferiorClasses");
      (Punctuation, "="); (Punctuation, "{"); (Punctuation, "}");
      (Punctuation, ")"); (Text, " "); (Name, "Foo"); (Text, nl) ]
    1 cls_attr_types
  = OK ({["InferiorClasses" := AVBool true]}, 7).
Proof. vm_compute. reflexivity. Qed.

(** ** The class docstring *)

Lemma _indent_run tokens idx ws t rest :
  Forall (fun x => is_blank x = true) ws -> is_blank t = false ->
  drop idx tokens = (ws ++ t :: rest)%list ->
  _indent tokens idx = OK (List.length ws).
Proof.
  intros Hrun Ht Hd. unfold _indent. rewrite Hd.
  by apply (count_while_run _ ws t rest).
Qed.

(** What follows the indentation of a comment line is no blank. *)
Lemma comment_block_head lines t rest :
  is_blank t = false ->
  exists x more, (comment_block lines ++ t :: rest)%list = x :: more /\ is_blank x = false.
Proof.
  intros Ht. destruct lines as [|[c ind] lines].
  - by exists t, rest.
  - eexists _, _. split; [reflexivity|]. reflexivity.
Qed.

(** The loop over the comment lines: every comment gives its text without
    the marker, then its newline, and the index moves past the lines. *)
Lemma class_docstring_loop_lines tokens t rest :
  is_blank t = false -> ttype_is t.1 Comment = false ->
  forall lines fuel doc idx,
    Forall (fun line => Forall (fun x => is_blank x = true) line.2) lines ->
    drop idx tokens = (comment_block lines ++ t :: rest)%list ->
    List.length lines < fuel ->
    class_docstring_loop fuel tokens doc idx
    = OK (fold_left (fun doc line => (doc +:+ PyStr.lstrip "%" line.1) +:+ nl) lines doc,
          idx + List.length (comment_block lines)).
Proof.
  intros Ht Htc lines.
  induction lines as [|[c ind] lines IH]; intros fuel doc idx Hlines Hd Hfuel;
    (destruct fuel as [|fuel]; [cbn in Hfuel; lia|]).
  - cbn in Hd. unfold class_docstring_loop. cbn [while].
    rewrite (tk_at_drop _ _ _ _ Hd). cbn [rbind]. rewrite Htc.
    cbn. by rewrite Nat.add_0_r.
  - apply Forall_cons in Hlines as [Hind Hlines]. cbn [snd] in Hind.
    change (comment_block ((c, ind) :: lines))
      with ((Comment, c) :: (Text, nl) :: (ind ++ comment_block lines))%list in *.
    cbn [app] in Hd. rewrite <- app_assoc in Hd.
    assert (H0 : tk_at tokens idx = OK (Comment, c)) by (by eapply tk_at_drop).
    assert (Hd1 : drop (idx + 1) tokens
                  = (Text, nl) :: (ind ++ comment_block lines ++ t :: rest)%list)
      by (by rewrite drop_plus, Hd).
    assert (H1 : tk_at tokens (idx + 1) = OK (Text, nl)) by (by eapply tk_at_drop).
    assert (Hd2 : drop (idx + 1 + 1) tokens
                  = (ind ++ comment_block lines ++ t :: rest)%list)
      by (by rewrite drop_plus, Hd1).
    destruct (comment_block_head lines t rest Ht) as (x & more & Hx & Hxb).
    assert (H2 : _indent tokens (idx + 1 + 1) = OK (List.length ind)).
    { rewrite Hx in Hd2. by eapply _indent_run. }
    assert (Hd3 : drop (idx + 1 + 1 + List.length ind) tokens
                  = (comment_block lines ++ t :: rest)%list).
    { by rewrite drop_plus, Hd2, drop_app_length. }
    unfold class_docstring_loop. cbn [while].
    rewrite H0. cbn [rbind fst snd]. change (ttype_is Comment Comment) with true.
    cbn match.
    assert (H1e : _tk_eq tokens (idx + 1) (Text, nl) = OK true)
      by (unfold _tk_eq; rewrite H1; reflexivity).
    rewrite H1e. cbn [rbind fst snd]. rewrite H1. cbn [rbind fst snd].
    rewrite H2. cbn [rbind].
    replace (if negb (Nat.eqb (List.length ind) 0) then idx + 1 + 1 + List.length ind
             else idx + 1 + 1) with (idx + 1 + 1 + List.length ind)
      by (destruct (List.length ind); cbn; lia).
    assert (Hf : List.length lines < fuel) by (cbn in Hfuel; lia).
    pose proof (IH fuel ((doc +:+ PyStr.lstrip "%" c) +:+ nl) _ Hlines Hd3 Hf) as IH'.
    unfold class_docstring_loop in IH'. rewrite IH'.
    cbn [fold_left fst]. f_equal. f_equal.
    cbn [List.length]. rewrite length_app. lia.
Qed.

(** C7 (counterexample): a comment line with no indentation that comes
    after an empty line is the first comment line after the signature,
    and yet the parser returns a class, with an empty docstring; an
    indented comment line after an empty line is not made the docstring
    either. *)
Lemma comment_after_blank_line_is_skipped :
  (class_signature 50 blank_line_comment_tokens "Foo" = OK (∅, [], 4) /\
   blank_line_comment_tokens !! 4 = Some (Text, nl) /\
   blank_line_comment_tokens !! 5 = Some (Comment, "% about Foo") /\
   exists cls,
     MatClass_init 50 blank_line_comment_tokens "Foo" "pkg" = OK cls /\
     cls_docstring cls = EmptyString) /\
  (class_signature 50 blank_line_indented_comment_tokens "Foo" = OK (∅, [], 4) /\
   drop 4 blank_line_indented_comment_tokens
   = (Text, nl) :: (blanks 2 ++ (Comment, "% about Foo") :: (Text, nl)
                    :: [(Keyword, "end"); (Text, nl)])%list /\
   exists cls,
     MatClass_init 50 blank_line_indented_comment_tokens "Foo" "pkg" = OK cls /\
     cls_docstring cls = EmptyString).
Proof.
  split.
  - split; [vm_compute; reflexivity|]. split; [reflexivity|]. split; [reflexivity|].
    eexists. split; [vm_compute; reflexivity|]. reflexivity.
  - split; [vm_compute; reflexivity|]. split; [reflexivity|].
    eexists. split; [vm_compute; reflexivity|]. reflexivity.
Qed.

(** C7 (amended): what stands right after the classdef signature decides.
    A comment token there (a comment line with no indentation) makes the
    class parser raise [Exception('Comments must be indented.')], so no
    class is returned; indentation followed by comment lines gives the
    class docstring: the comments without their markers, each followed by
    its newline; any other token there, an empty line among them, leaves
    the docstring empty, whatever comment lines come later. *)
Theorem unindented_class_comment (fuel : nat) (tokens : list token)
    (name modname : string) (attrs : gmap string AttrVal) (bases : list string)
    (idx : nat) :
  class_signature fuel tokens name = OK (attrs, bases, idx) ->
  (forall c, tokens !! idx = Some (Comment, c) ->
     MatClass_init fuel tokens name modname
     = Raise (Exception "Comments must be indented.")) /\
  (forall ind lines t rest,
     ind <> [] ->
     Forall (fun x => is_blank x = true) ind ->
     Forall (fun line => Forall (fun x => is_blank x = true) line.2) lines ->
     is_blank t = false -> ttype_is t.1 Comment = false ->
     drop idx tokens = (ind ++ comment_block lines ++ t :: rest)%list ->
     List.length lines < fuel ->
     class_docstring fuel tokens idx
     = OK (docstring_of lines,
           idx + List.length ind + List.length (comment_block lines)) /\
     forall cls, MatClass_init fuel tokens name modname = OK cls ->
                 cls_docstring cls = docstring_of lines) /\
  (forall t,
     tokens !! idx = Some t ->
     is_blank t = false -> ttype_is t.1 Comment = false ->
     class_docstring fuel tokens idx = OK (EmptyString, idx) /\
     forall cls, MatClass_init fuel tokens name modname = OK cls ->
                 cls_docstring cls = EmptyString).
Proof.
  intros Hsig. split; [|split].
  - intros c Hc. unfold MatClass_init.
    change (py_super CMatClass CMatClass) with (OK tt). cbn [rbind].
    rewrite Hsig. cbn [rbind].
    assert (Hd : drop idx tokens = ((Comment, c) : token) :: drop (S idx) tokens)
      by (by apply drop_S).
    unfold class_docstring, _indent. rewrite Hd. cbn [count_while fst].
    change (ttype_is Comment Text) with false. cbn [andb rbind Nat.eqb negb].
    by rewrite (tk_at_drop _ _ _ _ Hd).
  - intros ind lines t rest Hne Hind Hlines Ht Htc Hd Hfuel.
    assert (Hdoc : class_docstring fuel tokens idx
                   = OK (docstring_of lines,
                         idx + List.length ind + List.length (comment_block lines))).
    { destruct (comment_block_head lines t rest Ht) as (x & more & Hx & Hxb).
      unfold class_docstring.
      rewrite (_indent_run tokens idx ind x more Hind Hxb) by (by rewrite <- Hx).
      cbn [rbind].
      assert (Hnz : negb (Nat.eqb (List.length ind) 0) = true) by (by destruct ind).
      rewrite Hnz.
      apply (class_docstring_loop_lines tokens t rest Ht Htc); [done| |done].
      by rewrite drop_plus, Hd, drop_app_length. }
    split; [exact Hdoc|].
    intros cls. unfold MatClass_init.
    change (py_super CMatClass CMatClass) with (OK tt). cbn [rbind].
    rewrite Hsig. cbn [rbind]. rewrite Hdoc. cbn [rbind].
    intros H. apply rbind_OK in H as (st & _ & [= <-]). reflexivity.
  - intros t Ht Hb Htc.
    assert (Hd : drop idx tokens = t :: drop (S idx) tokens) by (by apply drop_S).
    assert (Hdoc : class_docstring fuel tokens idx = OK (EmptyString, idx)).
    { unfold class_docstring.
      rewrite (_indent_run tokens idx [] t (drop (S idx) tokens)); [|done|done|done].
      cbn [rbind List.length Nat.eqb negb].
      rewrite (tk_at_drop _ _ _ _ Hd). cbn [rbind]. by rewrite Htc. }
    split; [exact Hdoc|].
    intros cls. unfold MatClass_init.
    change (py_super CMatClass CMatClass) with (OK tt). cbn [rbind].
    rewrite Hsig. cbn [rbind]. rewrite Hdoc. cbn [rbind].
    intros H. apply rbind_OK in H as (st & _ & [= <-]). reflexivity.
Qed.

Lemma unindented_class_comment_witness :
  MatClass_init 50 unindented_comment_tokens "Foo" "pkg"
  = Raise (Exception "Comments must be indented.") /\
  (exists cls,
    MatClass_init 50 indented_comment_tokens "Foo" "pkg" = OK cls /\
    cls_docstring cls = (" about Foo" +:+ nl) +:+ (" more" +:+ nl)) /\
  class_docstring 50 blank_line_comment_tokens 4 = OK (EmptyString, 4).
Proof.
  split; [|split].
  - refine (proj1 (unindented_class_comment 50 unindented_comment_tokens
                     "Foo" "pkg" ∅ [] 4 _) "% about Foo" _);
      vm_compute; reflexivity.
  - eexists. split; [vm_compute; reflexivity|].
    refine (proj2 (proj1 (proj2 (unindented_class_comment 50 indented_comment_tokens
                            "Foo" "pkg" ∅ [] 4 _))
                     (blanks 2) [("% about Foo", blanks 2); ("% more", [])]
                     (Keyword, "end") [(Text, nl)] _ _ _ _ _ _ _) _ _).
    + vm_compute; reflexivity.
    + discriminate.
    + repeat constructor.
    + repeat constructor.
    + reflexivity.
    + reflexivity.
    + reflexivity.
    + cbn. lia.
    + vm_compute; reflexivity.
  - refine (proj1 (proj2 (proj2 (unindented_class_comment 50 blank_line_comment_tokens
                            "Foo" "pkg" ∅ [] 4 _)) (Text, nl) _ _ _)).
    + vm_compute; reflexivity.
    + reflexivity.
    + reflexivity.
    + reflexivity.
Defined.

(** ** The class body loop on any keyword it does not know *)

Lemma skip_at_keyword fuel (tokens : list token) idx kw :
  tokens !! idx = Some (Keyword, kw) ->
  skip_comments_whitespace (S fuel) tokens idx = OK idx.
Proof.
  intros Hk.
  assert (Hd : drop idx tokens = ((Keyword, kw) : token) :: drop (S idx) tokens)
    by (by apply drop_S).
  unfold skip_comments_whitespace. cbn [while].
  unfold _whitespace. rewrite Hd. cbn [count_while fst].
  change (ttype_is Keyword Text) with false. cbn [andb rbind Nat.eqb negb].
  by rewrite (tk_at_drop _ _ _ _ Hd).
Qed.

Lemma _tk_eq_other_keyword (tokens : list token) idx kw kw' :
  tokens !! idx = Some (Keyword, kw) -> kw <> kw' ->
  _tk_eq tokens idx (Keyword, kw') = OK false /\
  _tk_ne tokens idx (Keyword, kw') = OK true.
Proof.
  intros Hk Hne.
  assert (Ht : tk_at tokens idx = OK (Keyword, kw)).
  { apply drop_S in Hk. by eapply tk_at_drop. }
  unfold _tk_eq, _tk_ne, str_eqb. rewrite Ht. cbn [rbind fst snd].
  by rewrite bool_decide_eq_false_2.
Qed.

(** With the cursor on a keyword other than [properties] and [methods],
    one pass of the body loop changes nothing. *)
Lemma class_body_step_unknown_keyword fuel (tokens : list token) modname st kw :
  tokens !! bs_idx st = Some (Keyword, kw) ->
  kw <> "properties" -> kw <> "methods" ->
  class_body_step (S fuel) tokens modname st = OK st.
Proof.
  destruct st as [idx props meths]. cbn [bs_idx]. intros Hk Hp Hm.
  unfold class_body_step, with_idx. cbn [bs_idx bs_properties bs_methods].
  rewrite (skip_at_keyword _ _ _ _ Hk). cbn [rbind bs_idx].
  rewrite (proj1 (_tk_eq_other_keyword _ _ _ _ Hk Hp)). cbn [rbind bs_idx].
  by rewrite (proj1 (_tk_eq_other_keyword _ _ _ _ Hk Hm)).
Qed.

(** When the signature and the docstring are read and the cursor stands
    on a keyword other than [properties], [methods] and [end], the class
    parser never returns: every iteration bound is exhausted. *)
Lemma class_body_unknown_keyword_diverges fuel (tokens : list token) name modname
    attrs bases idx0 doc idx kw :
  class_signature fuel tokens name = OK (attrs, bases, idx0) ->
  class_docstring fuel tokens idx0 = OK (doc, idx) ->
  tokens !! idx = Some (Keyword, kw) ->
  kw <> "properties" -> kw <> "methods" -> kw <> "end" ->
  MatClass_init fuel tokens name modname = OutOfFuel.
Proof.
  intros Hsig Hdoc Hk Hp Hm He. unfold MatClass_init.
  change (py_super CMatClass CMatClass) with (OK tt). cbn [rbind].
  rewrite Hsig. cbn [rbind]. rewrite Hdoc. cbn [rbind].
  unfold class_body. destruct fuel as [|fuel]; [reflexivity|].
  rewrite while_stuck; [reflexivity| |].
  - exact (proj2 (_tk_eq_other_keyword _ _ _ _ Hk He)).
  - by apply class_body_step_unknown_keyword with (kw := kw).
Qed.

(** C9 (the code's behaviour at an [events] block): the body loop neither
    raises nor returns; whatever the bound on its iterations, the parser is
    still at the keyword [events] when the bound is reached. *)
Theorem class_body_events_diverges (fuel : nat) :
  MatClass_init fuel events_tokens "Foo" "pkg" = OutOfFuel.
Proof.
  destruct fuel as [|fuel]; [reflexivity|].
  apply (class_body_unknown_keyword_diverges (S fuel) events_tokens "Foo" "pkg"
           ∅ [] 4 EmptyString 6 "events");
    first [ vm_compute; reflexivity | discriminate ].
Qed.

(** ** The namespace resolver *)

Lemma matlabify_empty fuel fs basedir w :
  matlabify fuel fs basedir EmptyString w = (OK None, w).
Proof. reflexivity. Qed.

(** A name whose path is a directory resolves to a new module. *)
Lemma matlabify_module fuel fs basedir objname w :
  objname <> EmptyString ->
  OsPath.isdir fs (OsPath.join basedir (PyStr.replace "." "/" objname)) = true ->
  let m := {| mod_id := next_id w;
              mod_name := (OsPath.split (PyStr.replace "." "/" objname)).2;
              mod_path := OsPath.join basedir (PyStr.replace "." "/" objname);
              mod_package := objname |} in
  matlabify fuel fs basedir objname w
  = (OK (Some (ObjModule m)),
     {| sys_modules := <[mod_name m := m]> (sys_modules w);
        next_id := S (next_id w);
        opened := opened w |}).
Proof.
  intros Hne Hdir.
  unfold matlabify, str_eqb. rewrite bool_decide_eq_false_2 by exact Hne.
  destruct (OsPath.split (PyStr.replace "." "/" objname)) as [path name] eqn:Hsplit.
  rewrite Hdir. reflexivity.
Qed.

(** C3: when the path of a non-empty dotted name is a directory,
    resolution returns a new module built from the directory (its name the
    leaf, its path the directory, its package the dotted name) and
    registers it, also when a source file of the same name stands beside
    the directory; the empty name resolves to [None]. *)
Theorem matlabify_directory_precedence (fuel : nat) (fs : FsNode)
    (basedir objname : string) (w : World) :
  objname <> EmptyString ->
  OsPath.isdir fs (OsPath.join basedir (PyStr.replace "." "/" objname)) = true ->
  OsPath.isfile fs (OsPath.join basedir (PyStr.replace "." "/" objname) +:+ ".m") = true ->
  matlabify fuel fs basedir EmptyString w = (OK None, w) /\
  let m := {| mod_id := next_id w;
              mod_name := (OsPath.split (PyStr.replace "." "/" objname)).2;
              mod_path := OsPath.join basedir (PyStr.replace "." "/" objname);
              mod_package := objname |} in
  matlabify fuel fs basedir objname w
  = (OK (Some (ObjModule m)),
     {| sys_modules := <[mod_name m := m]> (sys_modules w);
        next_id := S (next_id w);
        opened := opened w |}).
Proof.
  intros Hne Hdir _. split; [reflexivity|].
  by apply matlabify_module.
Qed.

Lemma matlabify_directory_precedence_witness :
  OsPath.isfile precedence_fs "src/pkg.m" = true /\
  matlabify 50 precedence_fs "src" "pkg" world0
  = (OK (Some (ObjModule {| mod_id := 0; mod_name := "pkg";
                            mod_path := "src/pkg"; mod_package := "pkg" |})),
     {| sys_modules := {["pkg" := {| mod_id := 0; mod_name := "pkg";
                                     mod_path := "src/pkg";
                                     mod_package := "pkg" |}]};
        next_id := 1; opened := [] |}).
Proof.
  split; [reflexivity|].
  apply (matlabify_directory_precedence 50 precedence_fs "src" "pkg" world0);
    [discriminate | reflexivity | reflexivity].
Defined.

(** [parse_mfile] on an existing file: its outcome depends on the file
    alone, and the world records one more [open]. *)
Lemma parse_mfile_outcome fuel fs mfile name path :
  OsPath.isfile fs mfile = true ->
  exists r,
    (forall m, r <> OK (ObjModule m)) /\
    forall w, parse_mfile fuel fs mfile name path w = (r, after_open mfile w).
Proof.
  unfold OsPath.isfile. intros Hfile.
  destruct (OsPath.lookup fs mfile) as [[tks|entries]|] eqn:Hl; try discriminate.
  unfold parse_mfile, read_tokens, mbind, lift, mret. rewrite Hl.
  destruct (tk_at tks 0) as [tk0| |]; [|outcome_done|outcome_done].
  destruct (tok_eqb tk0 (Keyword, "function")).
  { destruct (MatFunction_init false (Some name) (PyStr.replace "/" "." path) tks);
      outcome_done. }
  destruct (tok_eqb tk0 (Keyword, "classdef")).
  { destruct (MatClass_init fuel tks name (PyStr.replace "/" "." path));
      outcome_done. }
  destruct (MatScript_init name (PyStr.replace "/" "." path) tks); outcome_done.
Qed.



(** ** The base-class resolver on a base found as a file *)

(** A base that nothing resolves stays in the dictionary, bound to [None]. *)
Lemma bases_unresolved_kept :
  exists pkg qux w1 w2 w3,
    matlabify 50 bases_fs "src" "pkg" world0 = (OK (Some (ObjModule pkg)), w1) /\
    matlabify 50 bases_fs "src" "pkg.Qux" w1 = (OK (Some (ObjClass qux)), w2) /\
    cls_bases qux = ["Baz"] /\
    MatClass_bases 50 bases_fs qux w2 = (OK (BasesDict {["Baz" := VNone]}), w3).
Proof.
  do 5 eexists. split; [vm_compute; reflexivity|].
  split; [vm_compute; reflexivity|]. split; [reflexivity|].
  vm_compute. reflexivity.
Qed.

(** C8 (the code's behaviour when a base is found as a file of the source
    tree): with the package [pkg] registered and [pkg.Foo] resolved to the
    class [Foo] with bases [Bar] and [Baz], [__bases__] returns the class
    parsed from [src/Bar.m] itself, not a dictionary: no entry for [Bar],
    none for the unresolved [Baz]. *)
Theorem bases_returns_the_parsed_file :
  exists pkg foo bar w1 w2 w3,
    matlabify 50 bases_fs "src" "pkg" world0 = (OK (Some (ObjModule pkg)), w1) /\
    matlabify 50 bases_fs "src" "pkg.Foo" w1 = (OK (Some (ObjClass foo)), w2) /\
    cls_bases foo = ["Bar"; "Baz"] /\
    MatClass_bases 50 bases_fs foo w2 = (OK (BasesObject (ObjClass bar)), w3) /\
    cls_name bar = "Bar".
Proof.
  do 6 eexists. split; [vm_compute; reflexivity|].
  split; [vm_compute; reflexivity|]. split; [reflexivity|].
  split; [vm_compute; reflexivity|]. reflexivity.
Qed.

(** * Further properties *)

(** ** The function parser *)

(** X1: whenever [MatFunction.__init__] returns, the token stream splits
    into the tokens the function took and the tokens left over; the
    leftover is never empty, [rem_tks] holds it in reverse (it is never
    [None]) and [tokens] is the stream as it was given. *)
Theorem function_leftover_never_empty (is_method : bool) (name : option string)
    (modname : string) (tokens : list token) (f : MatFunction) :
  MatFunction_init is_method name modname tokens = OK f ->
  exists taken left,
    tokens = (taken ++ left)%list /\ left <> [] /\
    fn_rem_tks f = Some (rev left) /\ fn_tokens f = tokens.
Proof.
  intros H. apply MatFunction_init_rem_tks in H as (Htk & kw & rest & Hrem & [pre ->]).
  exists pre, (kw :: rest). by repeat split.
Qed.

Lemma function_leftover_never_empty_witness :
  exists f taken left,
    MatFunction_init false (Some "square") "pkg" square_tokens = OK f /\
    square_tokens = (taken ++ left)%list /\ left <> [] /\
    fn_rem_tks f = Some (rev left) /\ fn_tokens f = square_tokens.
Proof.
  eexists.
  assert (H : MatFunction_init false (Some "square") "pkg" square_tokens = OK _)
    by (vm_compute; reflexivity).
  destruct (function_leftover_never_empty _ _ _ _ _ H) as (taken & left & Hx).
  exists taken, left. split; [exact H|exact Hx].
Defined.

(** X2: for every method built from a slice, [reset_tokens] does not
    raise. With [left] the leftover the function parser handed back in
    [rem_tks], the slice is the tokens the method took followed by [left],
    which is not empty; [reset_tokens] returns the length of the slice
    less the length of [left], which is the number of tokens the method
    took, and leaves the method with exactly those tokens, with [rem_tks]
    reset to [None] and with its name, docstring and attributes. *)
Theorem reset_tokens_splits_slice (modname : string) (slice : list token)
    (cls : PyClass) (attrs : gmap string AttrVal) (m : MatMethod) :
  MatMethod_init modname slice cls attrs = OK m ->
  exists taken left m',
    fn_rem_tks (meth_fn m) = Some (rev left) /\
    slice = (taken ++ left)%list /\ left <> [] /\
    reset_tokens m = OK (List.length slice - List.length left, m') /\
    List.length slice - List.length left = List.length taken /\
    fn_tokens (meth_fn m') = taken /\
    fn_rem_tks (meth_fn m') = None /\
    fn_name (meth_fn m') = fn_name (meth_fn m) /\
    fn_docstring (meth_fn m') = fn_docstring (meth_fn m) /\
    meth_attrs m' = attrs.
Proof.
  intros H.
  destruct (reset_tokens_trim _ _ _ _ _ H) as (pre & kw & rest & m' & Hs & Hrem & Hr & Ht & Hn).
  assert (Hlen : List.length slice - List.length (kw :: rest) = List.length pre).
  { rewrite Hs, length_app. lia. }
  exists pre, (kw :: rest), m'. split; [exact Hrem|]. split; [exact Hs|].
  split; [done|]. split; [by rewrite Hlen|]. split; [exact Hlen|].
  split; [exact Ht|]. split; [exact Hn|].
  unfold reset_tokens in Hr. rewrite Hrem in Hr. injection Hr as _ <-.
  cbn. split; [reflexivity|]. split; [reflexivity|].
  unfold MatMethod_init in H. apply rbind_OK in H as (u & _ & H).
  apply rbind_OK in H as (fn & _ & [= <-]). reflexivity.
Qed.

Lemma reset_tokens_splits_slice_witness :
  exists m taken left m',
    MatMethod_init "pkg" (with_signature nested_if_body) CMatClass ∅ = OK m /\
    fn_rem_tks (meth_fn m) = Some (rev left) /\
    with_signature nested_if_body = (taken ++ left)%list /\ left <> [] /\
    reset_tokens m
    = OK (List.length (with_signature nested_if_body) - List.length left, m') /\
    List.length (with_signature nested_if_body) - List.length left
    = List.length taken /\
    fn_tokens (meth_fn m') = taken /\
    fn_rem_tks (meth_fn m') = None /\
    fn_name (meth_fn m') = fn_name (meth_fn m) /\
    fn_docstring (meth_fn m') = fn_docstring (meth_fn m) /\
    meth_attrs m' = ∅.
Proof.
  eexists.
  assert (H : MatMethod_init "pkg" (with_signature nested_if_body) CMatClass ∅ = OK _)
    by (vm_compute; reflexivity).
  destruct (reset_tokens_splits_slice _ _ _ _ _ H) as (taken & left & m' & Hx).
  exists taken, left, m'. split; [exact H|exact Hx].
Defined.

(** A comment of a function docstring followed by blanks, tabs and
    newlines: the loop adds the comment and goes on at the next token. *)
Lemma docstring_loop_comment c doc ws x more :
  Forall (fun t => is_ws3 t = true) ws -> is_ws3 x = false ->
  docstring_loop doc (Comment, c) (ws ++ x :: more)
  = docstring_loop (doc +:+ (PyStr.lstrip "%" c +:+ nl)) x more.
Proof.
  intros Hws Hx. unfold is_ws3 in Hx.
  destruct ws as [|w ws].
  - destruct more; cbn [app docstring_loop fst snd ttype_is]; rewrite Hx; reflexivity.
  - cbn [app docstring_loop fst snd ttype_is].
    revert w Hws. induction ws as [|w' ws IH]; intros w Hws.
    + apply Forall_cons in Hws as [Hw _]. unfold is_ws3 in Hw.
      cbn [app]. rewrite Hw. destruct more; rewrite Hx; reflexivity.
    + apply Forall_cons in Hws as [Hw Hws]. unfold is_ws3 in Hw.
      cbn [app]. rewrite Hw. apply IH, Hws.
Qed.

(** The docstring loop over comment lines, each followed by blanks, tabs
    and newlines, up to a token that is no comment. *)
Lemma docstring_loop_lines d rest :
  ttype_is d.1 Comment = false ->
  forall lines doc first tl,
    lines = [] \/ is_ws3 d = false ->
    Forall (fun line => Forall (fun x => is_ws3 x = true) line.2) lines ->
    (doc_block lines ++ d :: rest)%list = first :: tl ->
    docstring_loop doc first tl
    = OK (fold_left (fun doc line => doc +:+ (PyStr.lstrip "%" line.1 +:+ nl)) lines doc,
          d, rest).
Proof.
  intros Hdc lines.
  induction lines as [|[c ws] lines IH]; intros doc first tl Hd Hws Heq.
  - cbn in Heq. injection Heq as <- <-.
    destruct rest; cbn; by rewrite Hdc.
  - destruct Hd as [|Hd]; [done|].
    apply Forall_cons in Hws as [Hw Hws]. cbn [snd] in Hw.
    change (doc_block ((c, ws) :: lines))
      with ((Comment, c) :: (ws ++ doc_block lines))%list in Heq.
    cbn [app] in Heq. injection Heq as <- <-. rewrite <- app_assoc.
    cbn [fold_left fst].
    destruct (doc_block lines ++ d :: rest)%list as [|x more] eqn:Hx.
    { by destruct (doc_block lines). }
    assert (Hxw : is_ws3 x = false).
    { destruct lines as [|[c' ws'] lines']; cbn in Hx; by injection Hx as <- _. }
    rewrite docstring_loop_comment by done.
    apply IH; auto.
Qed.

(** After a signature [function outs = name(ins)] the constructor is left
    with the docstring loop and the body loop. A method takes the name it
    finds; a function must be asked for by that name. *)
Lemma MatFunction_init_after_signature is_method oname modname outs name ins first tl :
  is_method = true \/ oname = Some name ->
  MatFunction_init is_method oname modname
    (signature_tokens outs name ins ++ first :: tl)
  = do (doc, kw, tks) <- docstring_loop EmptyString first tl;
    OK {| fn_name := name;
          fn_module := modname;
          fn_tokens := (signature_tokens outs name ins ++ first :: tl)%list;
          fn_docstring := doc;
          fn_retv := Some (map PyStr.strip
                             (PyStr.split "," (PyStr.strip_chars "[ ]" outs)));
          fn_args := Some (map PyStr.strip (PyStr.split "," ins));
          fn_rem_tks := Some (rev ((body_loop 1 None kw tks).1
                                   :: (body_loop 1 None kw tks).2)) |}.
Proof.
  intros Hname. unfold MatFunction_init, signature_tokens.
  replace (py_super CMatFunction (if is_method then CMatMethod else CMatFunction))
    with (OK tt) by (by destruct is_method).
  cbn [rbind pop app fst snd].
  change (negb (ttype_is Keyword Keyword)
          || negb (str_eqb (PyStr.strip "function") "function")) with false.
  cbn match. cbn [rbind pop app fst snd].
  eval_tests. cbn [negb rbind pop fst snd].
  assert (Hn : (if negb (name_matches (NameFunction, name) oname)
                then if is_method then OK name
                     else Raise (Exception ("Unexpected function name: " +:+ dquote
                                            +:+ name +:+ dquote +:+ "."))
                else OK name) = OK name).
  { destruct Hname as [->| ->]; [by destruct (negb _)|].
    by rewrite name_matches_same. }
  rewrite Hn. cbn [negb rbind pop fst snd].
  eval_tests. cbn [negb rbind pop fst snd].
  destruct (docstring_loop EmptyString first tl) as [[[doc kw] tks]| |]; [|done..].
  cbn [rbind]. destruct (body_loop 1 None kw tks) as [kw' tks'].
  reflexivity.
Qed.

(** ** Balanced bodies *)

Lemma run_counter_app l1 l2 n last :
  run_counter n last (l1 ++ l2)
  = run_counter (run_counter n last l1).1 (run_counter n last l1).2 l2.
Proof. revert n last. induction l1 as [|t l1 IH]; intros; [done|apply IH]. Qed.

Lemma stays_positive_app l1 l2 n last :
  stays_positive n last l1 ->
  stays_positive (run_counter n last l1).1 (run_counter n last l1).2 l2 ->
  stays_positive n last (l1 ++ l2).
Proof.
  revert n last. induction l1 as [|t l1 IH]; intros n last; [done|].
  cbn. intros [? ?] ?. split; [done|]. by apply IH.
Qed.

(** The body loop goes over tokens before which the counter is positive
    as [run_counter] does. *)
Lemma body_loop_run l : forall kw n last next tks,
  stays_positive n last (kw :: l) ->
  body_loop n last kw (l ++ next :: tks)
  = body_loop (run_counter n last (kw :: l)).1 (run_counter n last (kw :: l)).2
              next tks.
Proof.
  induction l as [|t l IH]; intros kw n last next tks [Hn Hpos].
  - cbn [app body_loop]. apply Z.ltb_lt in Hn as ->. reflexivity.
  - cbn [app body_loop]. apply Z.ltb_lt in Hn as ->. by rewrite IH.
Qed.

Lemma kw_end_update_plain n last t :
  is_plain t = true -> kw_end_update n last t = n.
Proof.
  unfold is_plain, kw_end_update. intros [H1 H2]%andb_true_iff.
  apply negb_true_iff in H1 as ->. by apply negb_true_iff in H2 as ->.
Qed.

Lemma index_opener_plain p : p ∈ index_openers -> is_plain p = true.
Proof.
  unfold index_openers. cbn. rewrite !elem_of_cons, elem_of_nil.
  by intros [->|[->|[]]].
Qed.

Lemma last_cons_default (l : list token) : forall x d d',
  List.last (x :: l) d = List.last (x :: l) d'.
Proof. induction l as [|y l IH]; intros x d d'; [done|]. apply (IH y). Qed.

(** The token the body loop remembers after a list of tokens. *)
Lemma run_counter_last l : forall n last t,
  (run_counter n last (t :: l)).2 = Some (List.last (t :: l) t).
Proof.
  induction l as [|x l IH]; intros n last t; [done|].
  change (run_counter n last (t :: x :: l))
    with (run_counter (kw_end_update n last t) (Some t) (x :: l)).
  rewrite IH. f_equal.
  change (List.last (t :: x :: l) t) with (List.last (x :: l) t).
  apply last_cons_default.
Qed.

(** A balanced list leaves the counter as it found it and never lets it
    fall below its value at the start. *)
Lemma balanced_run_counter l :
  balanced l -> forall n last, (0 < n)%Z ->
  (run_counter n last l).1 = n /\ stays_positive n last l.
Proof.
  induction 1 as [|t l Ht _ IH|p l Hp _ IH|o body l Ho _ IHb Hlast _ IH];
    intros n last Hn.
  - done.
  - cbn [run_counter stays_positive]. rewrite kw_end_update_plain by done.
    destruct (IH n (Some t) Hn). done.
  - cbn [run_counter stays_positive].
    rewrite (kw_end_update_plain n last p) by (by apply index_opener_plain).
    rewrite kw_end_update_index_end.
    2:{ revert Hp. unfold index_openers. cbn. rewrite !elem_of_cons, elem_of_nil. tauto. }
    destruct (IH n (Some (Keyword, "end")) Hn). done.
  - change (o :: body ++ (Keyword, "end") :: l)%list
      with ((o :: body) ++ (Keyword, "end") :: l)%list.
    assert (Hob : (run_counter n last (o :: body)).1 = (n + 1)%Z
                  /\ stays_positive n last (o :: body)).
    { cbn [run_counter stays_positive]. rewrite kw_end_update_opener by done.
      destruct (IHb (n + 1)%Z (Some o)); [lia|done]. }
    destruct Hob as [Hc Hp].
    assert (Hend : kw_end_update (n + 1) (run_counter n last (o :: body)).2
                     (Keyword, "end") = n).
    { rewrite run_counter_last.
      rewrite kw_end_update_block_end; [lia|..]; intros Heq%(inj Some); apply Hlast;
        rewrite Heq; unfold index_openers; cbn; rewrite !elem_of_cons; tauto. }
    split.
    + rewrite run_counter_app.
      change (run_counter ?a ?b ((Keyword, "end") :: l))
        with (run_counter (kw_end_update a b (Keyword, "end")) (Some (Keyword, "end")) l).
      rewrite Hc, Hend. by apply IH.
    + apply stays_positive_app; [done|].
      change (stays_positive ?a ?b ((Keyword, "end") :: l))
        with ((0 < a)%Z /\ stays_positive (kw_end_update a b (Keyword, "end"))
                                          (Some (Keyword, "end")) l).
      rewrite Hc, Hend. split; [lia|]. by apply IH.
Qed.

(** The body loop, started at the first token after the docstring, stops
    right after the [end] that follows a balanced body; when nothing
    follows that [end], it stops on it. *)
Lemma body_loop_balanced body after :
  balanced body ->
  List.last body (Keyword, "end") ∉ index_openers ->
  forall kw tks,
    (body ++ (Keyword, "end") :: after)%list = kw :: tks ->
    body_loop 1 None kw tks
    = match after with
      | [] => ((Keyword, "end"), [])
      | t :: rest => (t, rest)
      end.
Proof.
  intros Hbal Hlast kw tks Heq.
  destruct body as [|d body].
  - cbn in Heq. injection Heq as <- <-. by destruct after as [|t [|t' rest]].
  - cbn [app] in Heq. injection Heq as <- <-.
    destruct (balanced_run_counter _ Hbal 1 None) as [Hc Hpos]; [lia|].
    rewrite body_loop_run by done. rewrite Hc, run_counter_last.
    assert (Hend : kw_end_update 1 (Some (List.last (d :: body) d)) (Keyword, "end") = 0%Z).
    { rewrite kw_end_update_block_end; [lia|..]; intros Heq%(inj Some); apply Hlast;
        rewrite (last_cons_default body d _ d), Heq;
        unfold index_openers; cbn; rewrite !elem_of_cons; tauto. }
    destruct after as [|t rest]; cbn [body_loop]; change (0 <? 1)%Z with true;
      cbn match; [reflexivity|]. rewrite Hend. by destruct rest.
Qed.

(** The source of a function: signature, comment lines, body, [end], and
    what follows. *)
Lemma MatFunction_init_balanced is_method oname modname outs name ins lines body after :
  is_method = true \/ oname = Some name ->
  Forall (fun line => Forall (fun x => is_ws3 x = true) line.2) lines ->
  balanced body ->
  (forall d, head body = Some d ->
     ttype_is d.1 Comment = false /\ (lines = [] \/ is_ws3 d = false)) ->
  List.last body (Keyword, "end") ∉ index_openers ->
  MatFunction_init is_method oname modname (function_source outs name ins lines body after)
  = OK {| fn_name := name;
          fn_module := modname;
          fn_tokens := function_source outs name ins lines body after;
          fn_docstring := function_docstring_of lines;
          fn_retv := Some (map PyStr.strip
                             (PyStr.split "," (PyStr.strip_chars "[ ]" outs)));
          fn_args := Some (map PyStr.strip (PyStr.split "," ins));
          fn_rem_tks := Some (rev (match after with
                                   | [] => [(Keyword, "end")]
                                   | _ => after
                                   end)) |}.
Proof.
  intros Hname Hws Hbal Hhead Hlast. unfold function_source.
  destruct (doc_block lines ++ body ++ (Keyword, "end") :: after)%list
    as [|first tl] eqn:Hs.
  { destruct (doc_block lines); [by destruct body|done]. }
  rewrite MatFunction_init_after_signature by done.
  destruct (body ++ (Keyword, "end") :: after)%list as [|d rest] eqn:Hb.
  { by destruct body. }
  assert (Hd : ttype_is d.1 Comment = false /\ (lines = [] \/ is_ws3 d = false)).
  { destruct body as [|d' body']; cbn in Hb; injection Hb as <- _.
    - split; [done|by right].
    - by apply Hhead. }
  destruct Hd as [Hdc Hdw].
  rewrite (docstring_loop_lines d rest Hdc lines _ first tl Hdw Hws Hs).
  cbn [rbind]. rewrite (body_loop_balanced body after Hbal Hlast d rest Hb).
  by destruct after.
Qed.

Lemma function_source_app outs name ins lines body after :
  function_source outs name ins lines body after
  = (function_source outs name ins lines body [] ++ after)%list.
Proof.
  unfold function_source. by rewrite <- !app_assoc.
Qed.

(** X3: a function [function outs = name(ins)] whose comment lines are
    each followed by blanks, tabs and newlines only, whose body is
    balanced, starts with no comment and does not end in [:] or [(], is
    parsed to the end: the constructor returns, the names are those of the
    signature, the docstring is the comments without their markers, one per
    line, and the leftover is what follows the function's own [end] (that
    [end] itself when nothing follows it). *)
Theorem function_parsed_to_its_end (is_method : bool) (oname : option string)
    (modname outs name ins : string) (lines : list (string * list token))
    (body after : list token) :
  is_method = true \/ oname = Some name ->
  Forall (fun line => Forall (fun x => is_ws3 x = true) line.2) lines ->
  balanced body ->
  (forall d, head body = Some d ->
     ttype_is d.1 Comment = false /\ (lines = [] \/ is_ws3 d = false)) ->
  List.last body (Keyword, "end") ∉ index_openers ->
  exists f,
    MatFunction_init is_method oname modname
      (function_source outs name ins lines body after) = OK f /\
    fn_name f = name /\
    fn_retv f = Some (map PyStr.strip
                        (PyStr.split "," (PyStr.strip_chars "[ ]" outs))) /\
    fn_args f = Some (map PyStr.strip (PyStr.split "," ins)) /\
    fn_docstring f = function_docstring_of lines /\
    fn_rem_tks f = Some (rev (match after with
                              | [] => [(Keyword, "end")]
                              | _ => after
                              end)).
Proof.
  intros Hname Hws Hbal Hhead Hlast. eexists. split.
  - by apply MatFunction_init_balanced.
  - by repeat split.
Qed.

Lemma function_parsed_to_its_end_witness :
  exists f,
    MatFunction_init false (Some "f") "pkg"
      (function_source "[y, z] " "f" "a, b"
         [("% first", [(Text, nl)]); ("%% second", [(Text, nl); (Text, " ")])]
         [(Keyword, "if"); (Text, " "); (Name, "a"); (Text, nl);
          (Keyword, "end"); (Text, nl);
          (Name, "y"); (Punctuation, "("); (Keyword, "end"); (Punctuation, ")");
          (Text, nl)]
         [(Text, nl); (Keyword, "function")]) = OK f /\
    fn_name f = "f" /\
    fn_retv f = Some ["y"; "z"] /\
    fn_args f = Some ["a"; "b"] /\
    fn_docstring f = " first" +:+ nl +:+ " second" +:+ nl /\
    fn_rem_tks f = Some [(Keyword, "function"); (Text, nl)].
Proof.
  apply (function_parsed_to_its_end false (Some "f") "pkg" "[y, z] " "f" "a, b"
           [("% first", [(Text, nl)]); ("%% second", [(Text, nl); (Text, " ")])]
           [(Keyword, "if"); (Text, " "); (Name, "a"); (Text, nl);
            (Keyword, "end"); (Text, nl);
            (Name, "y"); (Punctuation, "("); (Keyword, "end"); (Punctuation, ")");
            (Text, nl)]
           [(Text, nl); (Keyword, "function")]).
  - by right.
  - repeat constructor.
  - apply (balanced_block (Keyword, "if") [(Text, " "); (Name, "a"); (Text, nl)]).
    + vm_compute. repeat constructor.
    + repeat (apply balanced_plain; [reflexivity|]). apply balanced_nil.
    + cbn. unfold index_openers. cbn. rewrite !elem_of_cons, elem_of_nil.
      intros [H|[H|[]]]; discriminate H.
    + apply balanced_plain; [reflexivity|]. apply balanced_plain; [reflexivity|].
      apply balanced_index; [unfold index_openers; cbn; rewrite !elem_of_cons; tauto|].
      repeat (apply balanced_plain; [reflexivity|]). apply balanced_nil.
  - intros d [= <-]. split; [reflexivity|by right].
  - cbn. unfold index_openers. cbn. rewrite !elem_of_cons, elem_of_nil.
    intros [H|[H|[]]]; discriminate H.
Defined.

(** X4: for a method of that form followed by at least one token, the
    trimming of [reset_tokens] is exact: the number it returns is the
    length of the method's source up to and including its own [end], and
    the method is left with exactly those tokens. *)
Theorem method_trimmed_to_its_end (modname outs name ins : string)
    (lines : list (string * list token)) (body : list token)
    (t : token) (rest : list token) (cls : PyClass) (attrs : gmap string AttrVal) :
  Forall (fun line => Forall (fun x => is_ws3 x = true) line.2) lines ->
  balanced body ->
  (forall d, head body = Some d ->
     ttype_is d.1 Comment = false /\ (lines = [] \/ is_ws3 d = false)) ->
  List.last body (Keyword, "end") ∉ index_openers ->
  exists m m',
    MatMethod_init modname
      (function_source outs name ins lines body (t :: rest)) cls attrs = OK m /\
    reset_tokens m
    = OK (List.length (function_source outs name ins lines body []), m') /\
    fn_tokens (meth_fn m') = function_source outs name ins lines body [] /\
    fn_name (meth_fn m') = name /\
    fn_docstring (meth_fn m') = function_docstring_of lines /\
    fn_rem_tks (meth_fn m') = None.
Proof.
  intros Hws Hbal Hhead Hlast. unfold MatMethod_init.
  change (py_super CMatMethod CMatMethod) with (OK tt : result unit).
  cbn [rbind].
  rewrite (MatFunction_init_balanced true None modname outs name ins lines body
             (t :: rest)) by auto.
  cbn [rbind]. eexists. eexists. split; [reflexivity|].
  unfold reset_tokens. cbn [meth_fn fn_rem_tks fn_tokens fn_name fn_docstring
                            fn_module fn_retv fn_args meth_cls meth_attrs].
  rewrite (function_source_app _ _ _ _ _ (t :: rest)).
  rewrite length_rev, length_app, Nat.add_sub.
  split; [reflexivity|]. cbn [meth_fn fn_tokens fn_name fn_docstring fn_rem_tks].
  split; [|done]. unfold slice_to_neg.
  change (Nat.eqb (List.length (t :: rest)) 0) with false. cbn match.
  by rewrite length_app, Nat.add_sub, take_app_length.
Qed.

Lemma method_trimmed_to_its_end_witness :
  exists m m',
    MatMethod_init "pkg"
      (function_source "y " "get" "obj" [("% doc", [(Text, nl)])]
         [(Name, "y"); (Punctuation, "="); int_tok "1"; (Text, nl)]
         [(Text, nl); (Keyword, "end")]) CMatClass ∅ = OK m /\
    reset_tokens m = OK (17, m') /\
    fn_tokens (meth_fn m')
    = function_source "y " "get" "obj" [("% doc", [(Text, nl)])]
        [(Name, "y"); (Punctuation, "="); int_tok "1"; (Text, nl)] [] /\
    fn_name (meth_fn m') = "get" /\
    fn_docstring (meth_fn m') = " doc" +:+ nl /\
    fn_rem_tks (meth_fn m') = None.
Proof.
  apply (method_trimmed_to_its_end "pkg" "y " "get" "obj" [("% doc", [(Text, nl)])]
           [(Name, "y"); (Punctuation, "="); int_tok "1"; (Text, nl)]
           (Text, nl) [(Keyword, "end")] CMatClass ∅).
  - repeat constructor.
  - repeat (apply balanced_plain; [reflexivity|]). apply balanced_nil.
  - intros d [= <-]. split; [reflexivity|by right].
  - cbn. unfold index_openers. cbn. rewrite !elem_of_cons, elem_of_nil.
    intros [H|[H|[]]]; discriminate H.
Defined.

(** ** The attribute parser *)

Lemma names_in_insert attr_types attr_dict k v :
  names_in attr_types attr_dict -> in_attr_types k attr_types = true ->
  names_in attr_types (<[k := v]> attr_dict).
Proof.
  intros Hd Hk k'. destruct (decide (k = k')) as [<- | Hne]; [done|].
  rewrite lookup_insert_ne by done. apply Hd.
Qed.

(** One attribute entry binds recognized names only. *)
Lemma attr_entry_names_in fuel tokens attr_types st st' :
  no_list st.1 -> names_in attr_types st.1 ->
  attr_entry fuel tokens attr_types st = OK st' -> names_in attr_types st'.1.
Proof.
  destruct st as [d i], st' as [d' i']. cbn [fst]. intros Hl Hd H.
  unfold attr_entry in H.
  apply rbind_OK in H as (i1 & _ & H).
  apply rbind_OK in H as ([k attr_name] & _ & H).
  apply rbind_OK in H as ([d1 i2] & H1 & H).
  destruct (ttype_is k Name && in_attr_types attr_name attr_types) eqn:Hin;
    [|discriminate].
  apply andb_true_iff in Hin as [_ Hin]. injection H1 as <- _.
  assert (Hd1 : names_in attr_types (<[attr_name := AVBool true]> d))
    by (by apply names_in_insert).
  assert (Hl1 : no_list (<[attr_name := AVBool true]> d))
    by (by apply no_list_insert).
  apply rbind_OK in H as (i3 & _ & H).
  apply rbind_OK in H as (c & _ & H).
  destruct c; [by injection H as <- _|].
  apply rbind_OK in H as (c & _ & H).
  destruct c; [|by injection H as <- _].
  apply rbind_OK in H as (i4 & _ & H).
  apply rbind_OK in H as ([k' attr_val] & _ & H).
  apply rbind_OK in H as ([d2 i5] & H2 & H).
  apply rbind_OK in H as (i6 & _ & H).
  apply rbind_OK in H as (c & _ & H). injection H as <- _.
  destruct (ttype_is k' Name && str_in attr_val ["true"; "false"]).
  { injection H2 as <- _. destruct (str_eqb attr_val "false"); [|done].
    by apply names_in_insert. }
  apply rbind_OK in H2 as (c' & _ & H2). destruct c'.
  { apply rbind_OK in H2 as (t & _ & H2).
    apply rbind_OK in H2 as ([e i7] & _ & H2).
    apply rbind_OK in H2 as (c2 & _ & H2). injection H2 as <- _.
    by apply names_in_insert. }
  apply rbind_OK in H2 as (c2 & _ & H2). destruct c2.
  - apply rbind_OK in H2 as ([d3 i7] & Hc & H2). injection H2 as <- _.
    by rewrite (cell_array_loop_keeps _ _ _ _ _ _ _ Hl1 Hc).
  - by injection H2 as <- _.
Qed.

(** A dictionary that [attributes] returns binds names of the table, and
    none of them to a list. *)
Lemma attributes_inv fuel tokens idx attr_types attr_dict idx' :
  attributes fuel tokens idx attr_types = OK (attr_dict, idx') ->
  no_list attr_dict /\ names_in attr_types attr_dict.
Proof.
  intros H. unfold attributes in H.
  apply rbind_OK in H as (i1 & _ & H).
  apply rbind_OK in H as (c & _ & H).
  assert (H0 : no_list (∅ : gmap string AttrVal) /\ names_in attr_types ∅).
  { split; [intros k l|intros k]; rewrite lookup_empty; [done|].
    by intros [? ?]. }
  destruct c; [|by injection H as <- _].
  apply rbind_OK in H as ([d i2] & Hw & H). injection H as <- _.
  apply (while_invariant (fun st => no_list st.1 /\ names_in attr_types st.1))
    in Hw; [exact Hw| |exact H0].
  intros s s' [Hl Hn] Hb. split.
  - by eapply attr_entry_no_list.
  - by eapply attr_entry_names_in.
Qed.

(** X5: whatever the token stream, the index and the table, a dictionary
    that [attributes] returns binds only names of the table, each to
    [True], [False] or a string: never to a list of values. *)
Theorem attributes_recognized_names (fuel : nat) (tokens : list token) (idx : nat)
    (attr_types : list (string * AttrType)) (attr_dict : gmap string AttrVal)
    (idx' : nat) :
  attributes fuel tokens idx attr_types = OK (attr_dict, idx') ->
  forall k v, attr_dict !! k = Some v ->
    in_attr_types k attr_types = true /\
    ((exists b, v = AVBool b) \/ (exists s, v = AVStr s)).
Proof.
  intros H. destruct (attributes_inv _ _ _ _ _ _ H) as [Hl Hn].
  intros k v Hk. split.
  - apply Hn. by rewrite Hk.
  - destruct v as [b|s|l]; [eauto..|]. by destruct (Hl k l).
Qed.

Lemma attributes_recognized_names_witness :
  attributes 50 attr_list_tokens 0 cls_attr_types
  = OK ({[ "Sealed" := AVBool true; "Hidden" := AVBool false;
           "AllowedSubclasses" := AVStr "?Foo" ]}, 18) /\
  forall k v,
    ({[ "Sealed" := AVBool true; "Hidden" := AVBool false;
        "AllowedSubclasses" := AVStr "?Foo" ]} : gmap string AttrVal) !! k = Some v ->
    in_attr_types k cls_attr_types = true /\
    ((exists b, v = AVBool b) \/ (exists s, v = AVStr s)).
Proof.
  assert (H : attributes 50 attr_list_tokens 0 cls_attr_types
              = OK ({[ "Sealed" := AVBool true; "Hidden" := AVBool false;
                       "AllowedSubclasses" := AVStr "?Foo" ]}, 18))
    by (vm_compute; reflexivity).
  split; [exact H|].
  exact (attributes_recognized_names 50 attr_list_tokens 0 cls_attr_types _ 18 H).
Defined.

Lemma _tk_eq_at (tokens : list token) idx t rest :
  drop idx tokens = t :: rest -> _tk_eq tokens idx t = OK true.
Proof.
  intros Hd. unfold _tk_eq. rewrite (tk_at_drop _ _ _ _ Hd). cbn [rbind].
  unfold ttype_is, str_eqb. by rewrite !bool_decide_eq_true_2.
Qed.

Lemma _tk_ne_at (tokens : list token) idx t rest tok :
  drop idx tokens = t :: rest -> t <> tok -> _tk_ne tokens idx tok = OK true.
Proof.
  intros Hd Hne. unfold _tk_ne. rewrite (tk_at_drop _ _ _ _ Hd). cbn [rbind].
  f_equal. destruct t as [k s], tok as [k' s']. unfold ttype_is, str_eqb. cbn [fst snd].
  destruct (decide (k = k')) as [->|Hk].
  - rewrite (bool_decide_eq_false_2 (s = s')); [by rewrite orb_true_r|congruence].
  - by rewrite (bool_decide_eq_false_2 (k = k')).
Qed.

Lemma skip_blanks_run (tokens : list token) idx ws t rest :
  Forall (fun x => is_blank x = true) ws -> is_blank t = false ->
  drop idx tokens = (ws ++ t :: rest)%list ->
  skip_blanks tokens idx = OK (idx + List.length ws) /\
  drop (idx + List.length ws) tokens = t :: rest.
Proof.
  intros Hws Ht Hd. split.
  - unfold skip_blanks, _blanks. by rewrite (_indent_run _ _ _ _ _ Hws Ht Hd).
  - by rewrite drop_plus, Hd, drop_app_length.
Qed.

(** X6: an attribute list whose next entry, after any blanks, is not a
    name of the table makes [attributes] raise
    [Exception('Unexpected attribute: ...')] with the text of that token,
    whatever follows; a closing parenthesis counts as such an entry when
    blanks come before it. *)
Theorem attributes_unexpected_name (fuel : nat) (pre bl1 bl2 rest : list token)
    (k : TokenType) (name : string) (attr_types : list (string * AttrType)) :
  Forall (fun x => is_blank x = true) bl1 ->
  Forall (fun x => is_blank x = true) bl2 ->
  is_blank (k, name) = false ->
  ttype_is k Name && in_attr_types name attr_types = false ->
  bl2 <> [] \/ (k, name) <> (Punctuation, ")") ->
  attributes (S fuel)
    (pre ++ bl1 ++ (Punctuation, "(") :: bl2 ++ (k, name) :: rest)
    (List.length pre) attr_types
  = Raise (Exception ("Unexpected attribute: " +:+ dquote +:+ name +:+ dquote +:+ ".")).
Proof.
  intros Hb1 Hb2 Hnb Hname Hclose.
  set (tokens := (pre ++ bl1 ++ (Punctuation, "(") :: bl2 ++ (k, name) :: rest)%list).
  assert (Hd0 : drop (List.length pre) tokens
                = (bl1 ++ (Punctuation, "(") :: bl2 ++ (k, name) :: rest)%list)
    by apply drop_app_length.
  destruct (skip_blanks_run tokens _ bl1 (Punctuation, "(") _ Hb1 eq_refl Hd0)
    as [Hs1 Hd1].
  set (i1 := List.length pre + List.length bl1) in *.
  assert (Hd2 : drop (i1 + 1) tokens = (bl2 ++ (k, name) :: rest)%list)
    by (by rewrite drop_plus, Hd1).
  destruct (skip_blanks_run tokens _ bl2 _ _ Hb2 Hnb Hd2) as [Hs2 Hd3].
  unfold attributes. rewrite Hs1. cbn [rbind].
  rewrite (_tk_eq_at _ _ _ _ Hd1). cbn [rbind while].
  assert (Hc : _tk_ne tokens (i1 + 1) (Punctuation, ")") = OK true).
  { destruct bl2 as [|b bl2].
    - destruct Hclose as [|Hclose]; [done|]. by eapply _tk_ne_at.
    - eapply _tk_ne_at; [exact Hd2|]. apply Forall_cons in Hb2 as [Hb _].
      intros ->. discriminate Hb. }
  rewrite Hc. cbn [rbind]. unfold attr_entry.
  rewrite Hs2. cbn [rbind]. rewrite (tk_at_drop _ _ _ _ Hd3). cbn [rbind].
  by rewrite Hname.
Qed.

Lemma attributes_unexpected_name_witness :
  attributes 1
    [ (Keyword, "classdef"); (Text, " "); (Punctuation, "("); (Text, " ");
      (Punctuation, ")"); (Text, " "); (Name, "Foo"); (Text, nl) ]
    1 cls_attr_types
  = Raise (Exception ("Unexpected attribute: " +:+ dquote +:+ ")" +:+ dquote +:+ ".")).
Proof.
  apply (attributes_unexpected_name 0 [(Keyword, "classdef")] [(Text, " ")]
           [(Text, " ")] [(Text, " "); (Name, "Foo"); (Text, nl)]
           Punctuation ")" cls_attr_types).
  - repeat constructor.
  - repeat constructor.
  - reflexivity.
  - reflexivity.
  - by left.
Defined.

(** ** The class body *)

(** [_whitespace] and [_indent] before a token that ends the run: the
    count is at most the length of what precedes it, and zero only when
    the first token is not of the run. *)
Lemma count_while_bound p (ws : list token) t rest :
  p t = false ->
  exists n, count_while p (ws ++ t :: rest) = OK n /\ n <= List.length ws /\
            (n = 0 -> match ws with [] => True | x :: _ => p x = false end).
Proof.
  intros Ht. induction ws as [|x ws (n & Hn & Hle & _)]; cbn.
  - rewrite Ht. exists 0. auto.
  - destruct (p x) eqn:Hx.
    + rewrite Hn. cbn. exists (S n). split; [done|]. split; [lia|discriminate].
    + exists 0. split; [done|]. split; [lia|done].
Qed.

(** One pass of the skipping loop over whitespace and comments moves the
    index forward within them. *)
Lemma skip_comments_whitespace_pass (tokens : list token) t rest x ws fuel idx :
  is_white t = false ->
  Forall (fun x => is_skipped x = true) (x :: ws) ->
  drop idx tokens = (x :: ws ++ t :: rest)%list ->
  exists k, 0 < k <= List.length (x :: ws) /\
    skip_comments_whitespace (S fuel) tokens idx
    = skip_comments_whitespace fuel tokens (idx + k).
Proof.
  intros Htw Hws Hd.
  destruct (count_while_bound is_white (x :: ws) t rest Htw) as (n & Hn & Hle & H0).
  assert (Hw : _whitespace tokens idx = OK n) by (unfold _whitespace; by rewrite Hd).
  unfold skip_comments_whitespace. cbn [while]. rewrite Hw. cbn [rbind].
  destruct n as [|n]; cbn [Nat.eqb negb].
  - specialize (H0 eq_refl). apply Forall_cons in Hws as [Hx Hws].
    unfold is_skipped in Hx. rewrite H0 in Hx. cbn [orb] in Hx.
    rewrite (tk_at_drop _ _ _ _ Hd). cbn [rbind]. rewrite Hx.
    exists 1. split; [cbn; lia|reflexivity].
  - exists (S n). split; [lia|reflexivity].
Qed.

(** The skipping loop goes over whitespace and comments and stops at the
    first token that is neither, when the bound on its passes allows. *)
Lemma skip_comments_whitespace_run (tokens : list token) t rest :
  is_skipped t = false ->
  forall ws fuel idx,
    Forall (fun x => is_skipped x = true) ws ->
    drop idx tokens = (ws ++ t :: rest)%list ->
    (skip_comments_whitespace fuel tokens idx = OK (idx + List.length ws) \/
     skip_comments_whitespace fuel tokens idx = OutOfFuel) /\
    (List.length ws < fuel ->
     skip_comments_whitespace fuel tokens idx = OK (idx + List.length ws)).
Proof.
  intros Ht ws.
  assert (Htw : is_white t = false /\ ttype_is t.1 Comment = false)
    by (by apply orb_false_iff).
  destruct Htw as [Htw Htc].
  remember (List.length ws) as len eqn:Hlen.
  revert ws Hlen. induction len as [len IH] using lt_wf_ind.
  intros ws -> fuel idx Hws Hd.
  destruct fuel as [|fuel]; [split; [by right|lia]|].
  destruct ws as [|x ws].
  - assert (H : skip_comments_whitespace (S fuel) tokens idx = OK (idx + 0)).
    { unfold skip_comments_whitespace, _whitespace. cbn [while]. rewrite Hd.
      cbn [count_while app]. fold (is_white t). rewrite Htw. cbn [rbind Nat.eqb negb].
      cbn in Hd. rewrite (tk_at_drop _ _ _ _ Hd). cbn [rbind]. rewrite Htc.
      by rewrite Nat.add_0_r. }
    split; [by left|done].
  - destruct (skip_comments_whitespace_pass tokens t rest x ws fuel idx Htw Hws Hd)
      as (k & Hk & ->).
    assert (Hlen : List.length (drop k (x :: ws)) = List.length (x :: ws) - k)
      by apply length_drop.
    assert (Hd' : drop (idx + k) tokens = (drop k (x :: ws) ++ t :: rest)%list).
    { rewrite drop_plus, Hd. change (x :: ws ++ t :: rest)%list
        with ((x :: ws) ++ t :: rest)%list. by rewrite drop_app_le by lia. }
    destruct (IH (List.length (drop k (x :: ws))) ltac:(lia) (drop k (x :: ws))
                eq_refl fuel (idx + k) ltac:(by apply Forall_drop) Hd') as [Hor Hok].
    replace (idx + k + List.length (drop k (x :: ws)))
      with (idx + List.length (x :: ws)) in * by lia.
    split; [exact Hor|]. intros Hf. apply Hok. lia.
Qed.

Lemma _tk_eq_other_at (tokens : list token) idx t rest tok :
  drop idx tokens = t :: rest -> t <> tok -> _tk_eq tokens idx tok = OK false.
Proof.
  intros Hd Hne. unfold _tk_eq. rewrite (tk_at_drop _ _ _ _ Hd). cbn [rbind].
  f_equal. destruct t as [k s], tok as [k' s']. unfold ttype_is, str_eqb. cbn [fst snd].
  destruct (decide (k = k')) as [->|Hk].
  - rewrite (bool_decide_eq_false_2 (s = s')); [by rewrite andb_false_r|congruence].
  - by rewrite (bool_decide_eq_false_2 (k = k')).
Qed.

(** A token the class parser skips is no keyword and no punctuation. *)
Lemma is_skipped_type t :
  is_skipped t = true -> t.1 = Text \/ t.1 = Comment.
Proof.
  unfold is_skipped, is_white, ttype_is.
  intros [[H _]%andb_true_iff|H]%orb_true_iff.
  - left. by apply bool_decide_eq_true in H.
  - right. by apply bool_decide_eq_true in H.
Qed.

Lemma is_skipped_ne t k s :
  is_skipped t = true -> k <> Text -> k <> Comment -> t <> (k, s).
Proof. intros Ht H1 H2 ->. by destruct (is_skipped_type _ Ht). Qed.

(** The first token of skipped tokens followed by [t] differs from a
    token [tok] that is not skipped, when [t] does. *)
Lemma head_ne (ws : list token) t rest x more k s :
  Forall (fun x => is_skipped x = true) ws ->
  (ws ++ t :: rest)%list = x :: more ->
  k <> Text -> k <> Comment -> t <> (k, s) -> x <> (k, s).
Proof.
  intros Hws Heq H1 H2 Ht. destruct ws as [|y ws]; cbn in Heq; injection Heq as <- _.
  - done.
  - apply Forall_cons in Hws as [Hy _]. by apply is_skipped_ne.
Qed.

(** With the cursor on a token that is neither skipped nor the opener of
    a block, one pass of the body loop changes nothing. *)
Lemma class_body_step_other_token fuel (tokens : list token) modname st t rest :
  drop (bs_idx st) tokens = t :: rest ->
  is_skipped t = false ->
  t <> (Keyword, "properties") -> t <> (Keyword, "methods") ->
  class_body_step (S fuel) tokens modname st = OK st.
Proof.
  destruct st as [idx props meths]. cbn [bs_idx]. intros Hd Ht Hp Hm.
  unfold class_body_step, with_idx. cbn [bs_idx bs_properties bs_methods].
  destruct (skip_comments_whitespace_run tokens t rest Ht [] (S fuel) idx
              ltac:(constructor) Hd) as [_ Hs].
  rewrite Hs by (cbn; lia). cbn [List.length rbind bs_idx]. rewrite Nat.add_0_r.
  rewrite (_tk_eq_other_at _ _ _ _ _ Hd Hp). cbn [rbind bs_idx].
  by rewrite (_tk_eq_other_at _ _ _ _ _ Hd Hm).
Qed.

(** X7: once the signature and the docstring of a class are read, a body
    in which whitespace and comments are followed by a token that is
    neither [properties], [methods] nor [end] (an [events] or
    [enumeration] block, a stray statement) is never got through: the
    body loop stays on that token and the constructor exhausts every bound
    on its iterations. *)
Theorem class_body_stuck_on_other_token (fuel : nat) (tokens : list token)
    (name modname : string) (attrs : gmap string AttrVal) (bases : list string)
    (idx0 : nat) (doc : string) (idx : nat) (ws : list token) (t : token)
    (rest : list token) :
  class_signature fuel tokens name = OK (attrs, bases, idx0) ->
  class_docstring fuel tokens idx0 = OK (doc, idx) ->
  drop idx tokens = (ws ++ t :: rest)%list ->
  Forall (fun x => is_skipped x = true) ws ->
  is_skipped t = false ->
  t <> (Keyword, "properties") -> t <> (Keyword, "methods") ->
  t <> (Keyword, "end") ->
  MatClass_init fuel tokens name modname = OutOfFuel.
Proof.
  intros Hsig Hdoc Hd Hws Ht Hp Hm He. unfold MatClass_init.
  change (py_super CMatClass CMatClass) with (OK tt). cbn [rbind].
  rewrite Hsig. cbn [rbind]. rewrite Hdoc. cbn [rbind].
  unfold class_body. destruct fuel as [|fuel]; [reflexivity|].
  cbn [while bs_idx].
  destruct (ws ++ t :: rest)%list as [|x more] eqn:Hx; [by destruct ws|].
  rewrite (_tk_ne_at _ _ _ _ _ Hd) by (by eapply head_ne). cbn [rbind].
  rewrite <- Hx in Hd.
  destruct (skip_comments_whitespace_run tokens t rest Ht ws (S fuel) idx Hws Hd)
    as [[Hs|Hs] _].
  - assert (Hd' : drop (idx + List.length ws) tokens = t :: rest)
      by (by rewrite drop_plus, Hd, drop_app_length).
    unfold class_body_step at 1. cbn [bs_idx]. rewrite Hs. cbn [rbind].
    unfold with_idx. cbn [bs_idx bs_properties bs_methods].
    rewrite (_tk_eq_other_at _ _ _ _ _ Hd' Hp). cbn [rbind bs_idx].
    rewrite (_tk_eq_other_at _ _ _ _ _ Hd' Hm). cbn [rbind].
    rewrite while_stuck; [reflexivity| |].
    + cbn [bs_idx]. by eapply _tk_ne_at.
    + by eapply class_body_step_other_token.
  - unfold class_body_step. cbn [bs_idx]. rewrite Hs. reflexivity.
Qed.

Lemma class_body_stuck_on_other_token_witness :
  MatClass_init 50 enumeration_tokens "Foo" "pkg" = OutOfFuel.
Proof.
  apply (class_body_stuck_on_other_token 50 enumeration_tokens "Foo" "pkg" ∅ [] 4
           (" about Foo" +:+ nl) 8
           [(Text, nl); (Text, " "); (Text, " ")] (Name, "enumeration")
           (drop 12 enumeration_tokens)).
  - vm_compute. reflexivity.
  - vm_compute. reflexivity.
  - reflexivity.
  - repeat constructor.
  - reflexivity.
  - discriminate.
  - discriminate.
  - discriminate.
Defined.

(** Without an opening parenthesis after the blanks there are no
    attributes, and the index stands after the blanks. *)
Lemma attributes_none fuel (tokens : list token) idx bl s rest attr_types :
  Forall (fun x => is_blank x = true) bl -> is_blank s = false ->
  s <> (Punctuation, "(") ->
  drop idx tokens = (bl ++ s :: rest)%list ->
  attributes fuel tokens idx attr_types = OK (∅, idx + List.length bl).
Proof.
  intros Hbl Hs Hne Hd.
  destruct (skip_blanks_run tokens idx bl s rest Hbl Hs Hd) as [Hsk Hd'].
  unfold attributes. rewrite Hsk. cbn [rbind].
  by rewrite (_tk_eq_other_at _ _ _ _ _ Hd' Hne).
Qed.

(** A stream that does not start with the keyword [function] is no
    function. *)
Lemma MatFunction_init_not_function is_method name modname t rest :
  negb (ttype_is t.1 Keyword) || negb (str_eqb (PyStr.strip t.2) "function") = true ->
  MatFunction_init is_method name modname (t :: rest)
  = Raise (TypeError "Object is not a function. Expected a function.").
Proof.
  intros Ht. unfold MatFunction_init.
  replace (py_super CMatFunction (if is_method then CMatMethod else CMatFunction))
    with (OK tt) by (by destruct is_method).
  cbn [rbind pop]. by rewrite Ht.
Qed.

(** The lengths behind the bound on the iterations. *)
Lemma drop_length_bound (tokens : list token) idx l :
  drop idx tokens = l -> List.length l <= List.length tokens.
Proof. intros <-. rewrite length_drop. lia. Qed.

(** X8: in a [properties] block whose header line ends (in a newline or a
    comment), an entry that does not start with a name makes the class
    parser raise [TypeError('Expected property.')]: this is what an empty
    block, or a comment line before the closing [end], runs into. *)
Theorem properties_entry_not_a_name (fuel : nat) (tokens : list token)
    (name modname : string) (attrs : gmap string AttrVal) (bases : list string)
    (idx0 : nat) (doc : string) (idx : nat) (ws0 bl : list token) (s : token)
    (ws : list token) (t : token) (rest : list token) :
  class_signature fuel tokens name = OK (attrs, bases, idx0) ->
  class_docstring fuel tokens idx0 = OK (doc, idx) ->
  drop idx tokens
  = (ws0 ++ (Keyword, "properties") :: bl ++ s :: ws ++ t :: rest)%list ->
  Forall (fun x => is_skipped x = true) ws0 ->
  Forall (fun x => is_blank x = true) bl ->
  is_skipped s = true -> is_blank s = false ->
  Forall (fun x => is_skipped x = true) ws ->
  is_skipped t = false -> ttype_is t.1 Name = false ->
  List.length tokens < fuel ->
  MatClass_init fuel tokens name modname = Raise (TypeError "Expected property.").
Proof.
  intros Hsig Hdoc Hd Hws0 Hbl Hs Hsb Hws Ht Htn Hfuel.
  pose proof (drop_length_bound _ _ _ Hd) as Hlen.
  rewrite !length_app in Hlen. cbn [List.length] in Hlen.
  rewrite !length_app in Hlen. cbn [List.length] in Hlen.
  rewrite !length_app in Hlen. cbn [List.length] in Hlen.
  unfold MatClass_init.
  change (py_super CMatClass CMatClass) with (OK tt). cbn [rbind].
  rewrite Hsig. cbn [rbind]. rewrite Hdoc. cbn [rbind].
  unfold class_body. destruct fuel as [|fuel]; [lia|].
  cbn [while bs_idx].
  destruct (ws0 ++ (Keyword, "properties") :: bl ++ s :: ws ++ t :: rest)%list
    as [|x more] eqn:Hx; [by destruct ws0|].
  rewrite (_tk_ne_at _ _ _ _ _ Hd)
    by (eapply head_ne; [exact Hws0|exact Hx|discriminate..]).
  cbn [rbind].
  rewrite <- Hx in Hd. clear Hx x more.
  destruct (skip_comments_whitespace_run tokens (Keyword, "properties")
              (bl ++ s :: ws ++ t :: rest)%list eq_refl ws0 (S fuel) idx Hws0 Hd)
    as [_ Hsk].
  specialize (Hsk ltac:(lia)).
  assert (Hd1 : drop (idx + List.length ws0) tokens
                = (Keyword, "properties") :: (bl ++ s :: ws ++ t :: rest)%list)
    by (by rewrite drop_plus, Hd, drop_app_length).
  set (j := idx + List.length ws0) in *.
  assert (Hd2 : drop (j + 1) tokens = (bl ++ s :: ws ++ t :: rest)%list)
    by (by rewrite drop_plus, Hd1).
  assert (Hd3 : drop (j + 1 + List.length bl) tokens = (s :: ws ++ t :: rest)%list)
    by (by rewrite drop_plus, Hd2, drop_app_length).
  unfold class_body_step. cbn [bs_idx]. rewrite Hsk. cbn [rbind].
  unfold with_idx. cbn [bs_idx bs_properties bs_methods].
  rewrite (_tk_eq_at _ _ _ _ Hd1). cbn [rbind].
  rewrite (attributes_none _ _ _ bl s (ws ++ t :: rest)%list _ Hbl Hsb) by
    (done || by apply is_skipped_ne).
  cbn [rbind while bs_idx].
  rewrite (_tk_ne_at _ _ _ _ _ Hd3) by (by apply is_skipped_ne). cbn [rbind].
  unfold property_step. cbn [bs_idx].
  destruct (skip_comments_whitespace_run tokens t rest Ht (s :: ws) (S fuel)
              (j + 1 + List.length bl) ltac:(by constructor) Hd3) as [_ Hsk2].
  rewrite Hsk2 by (cbn [List.length]; lia). cbn [rbind].
  assert (Hd4 : drop (j + 1 + List.length bl + List.length (s :: ws)) tokens = t :: rest).
  { rewrite drop_plus, Hd3. change (s :: ws ++ t :: rest)%list
      with ((s :: ws) ++ t :: rest)%list. by rewrite drop_app_length. }
  rewrite (tk_at_drop _ _ _ _ Hd4). cbn [rbind]. by rewrite Htn.
Qed.

Lemma properties_entry_not_a_name_witness :
  MatClass_init 50 empty_properties_tokens "Foo" "pkg"
  = Raise (TypeError "Expected property.").
Proof.
  apply (properties_entry_not_a_name 50 empty_properties_tokens "Foo" "pkg" ∅ [] 4
           EmptyString 6 [] [] (Text, nl)
           [(Text, " "); (Text, " "); (Text, " "); (Text, " ");
            (Comment, "% none yet"); (Text, nl); (Text, " "); (Text, " ")]
           (Keyword, "end") [(Text, nl); (Keyword, "end"); (Text, nl)]).
  - vm_compute. reflexivity.
  - vm_compute. reflexivity.
  - reflexivity.
  - constructor.
  - constructor.
  - reflexivity.
  - reflexivity.
  - repeat constructor.
  - reflexivity.
  - reflexivity.
  - cbn. lia.
Defined.

(** X9: in a [methods] block whose header line ends (in a newline or a
    comment), an entry that does not start with the keyword [function]
    makes the class parser raise [TypeError('Object is not a function.
    Expected a function.')]: this is what an empty block, or the
    signature of an abstract method, runs into. *)
Theorem methods_entry_not_a_function (fuel : nat) (tokens : list token)
    (name modname : string) (attrs : gmap string AttrVal) (bases : list string)
    (idx0 : nat) (doc : string) (idx : nat) (ws0 bl : list token) (s : token)
    (ws : list token) (t : token) (rest : list token) :
  class_signature fuel tokens name = OK (attrs, bases, idx0) ->
  class_docstring fuel tokens idx0 = OK (doc, idx) ->
  drop idx tokens
  = (ws0 ++ (Keyword, "methods") :: bl ++ s :: ws ++ t :: rest)%list ->
  Forall (fun x => is_skipped x = true) ws0 ->
  Forall (fun x => is_blank x = true) bl ->
  is_skipped s = true -> is_blank s = false ->
  Forall (fun x => is_skipped x = true) ws ->
  is_skipped t = false ->
  negb (ttype_is t.1 Keyword) || negb (str_eqb (PyStr.strip t.2) "function") = true ->
  List.length tokens < fuel ->
  MatClass_init fuel tokens name modname
  = Raise (TypeError "Object is not a function. Expected a function.").
Proof.
  intros Hsig Hdoc Hd Hws0 Hbl Hs Hsb Hws Ht Htn Hfuel.
  pose proof (drop_length_bound _ _ _ Hd) as Hlen.
  rewrite !length_app in Hlen. cbn [List.length] in Hlen.
  rewrite !length_app in Hlen. cbn [List.length] in Hlen.
  rewrite !length_app in Hlen. cbn [List.length] in Hlen.
  unfold MatClass_init.
  change (py_super CMatClass CMatClass) with (OK tt). cbn [rbind].
  rewrite Hsig. cbn [rbind]. rewrite Hdoc. cbn [rbind].
  unfold class_body. destruct fuel as [|fuel]; [lia|].
  cbn [while bs_idx].
  destruct (ws0 ++ (Keyword, "methods") :: bl ++ s :: ws ++ t :: rest)%list
    as [|x more] eqn:Hx; [by destruct ws0|].
  rewrite (_tk_ne_at _ _ _ _ _ Hd)
    by (eapply head_ne; [exact Hws0|exact Hx|discriminate..]).
  cbn [rbind].
  rewrite <- Hx in Hd. clear Hx x more.
  destruct (skip_comments_whitespace_run tokens (Keyword, "methods")
              (bl ++ s :: ws ++ t :: rest)%list eq_refl ws0 (S fuel) idx Hws0 Hd)
    as [_ Hsk].
  specialize (Hsk ltac:(lia)).
  assert (Hd1 : drop (idx + List.length ws0) tokens
                = (Keyword, "methods") :: (bl ++ s :: ws ++ t :: rest)%list)
    by (by rewrite drop_plus, Hd, drop_app_length).
  set (j := idx + List.length ws0) in *.
  assert (Hd2 : drop (j + 1) tokens = (bl ++ s :: ws ++ t :: rest)%list)
    by (by rewrite drop_plus, Hd1).
  assert (Hd3 : drop (j + 1 + List.length bl) tokens = (s :: ws ++ t :: rest)%list)
    by (by rewrite drop_plus, Hd2, drop_app_length).
  unfold class_body_step. cbn [bs_idx]. rewrite Hsk. cbn [rbind].
  unfold with_idx. cbn [bs_idx bs_properties bs_methods].
  rewrite (_tk_eq_other_at _ _ _ _ _ Hd1) by discriminate. cbn [rbind bs_idx].
  rewrite (_tk_eq_at _ _ _ _ Hd1). cbn [rbind].
  rewrite (attributes_none _ _ _ bl s (ws ++ t :: rest)%list _ Hbl Hsb) by
    (done || by apply is_skipped_ne).
  cbn [rbind while bs_idx].
  rewrite (_tk_ne_at _ _ _ _ _ Hd3) by (by apply is_skipped_ne). cbn [rbind].
  unfold method_step. cbn [bs_idx].
  destruct (skip_comments_whitespace_run tokens t rest Ht (s :: ws) (S fuel)
              (j + 1 + List.length bl) ltac:(by constructor) Hd3) as [_ Hsk2].
  rewrite Hsk2 by (cbn [List.length]; lia). cbn [rbind].
  assert (Hd4 : drop (j + 1 + List.length bl + List.length (s :: ws)) tokens = t :: rest).
  { rewrite drop_plus, Hd3. change (s :: ws ++ t :: rest)%list
      with ((s :: ws) ++ t :: rest)%list. by rewrite drop_app_length. }
  rewrite Hd4. unfold MatMethod_init.
  change (py_super CMatMethod CMatMethod) with (OK tt). cbn [rbind].
  by rewrite MatFunction_init_not_function.
Qed.

Lemma methods_entry_not_a_function_witness :
  MatClass_init 50 empty_methods_tokens "Foo" "pkg"
  = Raise (TypeError "Object is not a function. Expected a function.").
Proof.
  apply (methods_entry_not_a_function 50 empty_methods_tokens "Foo" "pkg" ∅ [] 4
           EmptyString 6 [] [] (Text, nl) [(Text, " "); (Text, " ")]
           (Keyword, "end") [(Text, nl); (Keyword, "end"); (Text, nl)]).
  - vm_compute. reflexivity.
  - vm_compute. reflexivity.
  - reflexivity.
  - constructor.
  - constructor.
  - reflexivity.
  - reflexivity.
  - repeat constructor.
  - reflexivity.
  - reflexivity.
  - cbn. lia.
Defined.

(** ** The resolver and the registry *)

Lemma mbind_OK {A B : Type} (m : M A) (k : A -> M B) w b w' :
  mbind m k w = (OK b, w') ->
  exists a w1, m w = (OK a, w1) /\ k a w1 = (OK b, w').
Proof.
  unfold mbind. destruct (m w) as [[a| |] w1]; intros H; try discriminate.
  by exists a, w1.
Qed.

Lemma extends_refl w : extends w w.
Proof. repeat split; [done|done|auto|auto]. Qed.

Lemma extends_trans w1 w2 w3 : extends w1 w2 -> extends w2 w3 -> extends w1 w3.
Proof.
  intros (Hn1 & Ho1 & Hk1 & Hm1) (Hn2 & Ho2 & Hk2 & Hm2).
  split; [lia|]. split; [by etrans|]. split; [auto|].
  intros k m' Hk. destruct (Hm2 k m' Hk) as [H|H]; [|right; lia].
  destruct (Hm1 k m' H) as [H'|H']; [by left|by right].
Qed.

Lemma orderly_mret {A : Type} (a : A) : orderly (mret a).
Proof. intros w. split; [apply extends_refl|done]. Qed.

Lemma orderly_lift {A : Type} (r : result A) : orderly (lift r).
Proof. intros w. split; [apply extends_refl|done]. Qed.

Lemma orderly_mbind {A B : Type} (m : M A) (k : A -> M B) :
  orderly m -> (forall a, orderly (k a)) -> orderly (mbind m k).
Proof.
  intros Hm Hk w. destruct (Hm w) as [He Hr]. unfold mbind.
  destruct (m w) as [[a| |] w1]; cbn [snd] in *; [|done..].
  destruct (Hk a w1) as [He' Hr']. split; [by eapply extends_trans|auto].
Qed.

Lemma orderly_MatModule_init name path package :
  orderly (MatModule_init name path package).
Proof.
  intros w. unfold MatModule_init.
  change (py_super CMatModule CMatModule) with (OK tt : result unit).
  cbn. split.
  - split; [cbn; lia|]. split; [done|]. split.
    + intros k Hk. cbn. destruct (decide (name = k)) as [->|Hne].
      * rewrite lookup_insert_eq. eauto.
      * by rewrite lookup_insert_ne.
    + intros k m'. cbn. destruct (decide (name = k)) as [->|Hne].
      * rewrite lookup_insert_eq. intros [= <-]. right. cbn. lia.
      * rewrite lookup_insert_ne by done. by left.
  - intros Hok k m. cbn. destruct (decide (name = k)) as [->|Hne].
    + rewrite lookup_insert_eq. intros [= <-]. cbn. split; [done|lia].
    + rewrite lookup_insert_ne by done. intros Hk.
      destruct (Hok k m Hk). split; [done|lia].
Qed.

Lemma orderly_read_tokens fs mfile : orderly (read_tokens fs mfile).
Proof.
  intros w. unfold read_tokens.
  destruct (OsPath.lookup fs mfile) as [[tks|entries]|]; cbn;
    try (split; [apply extends_refl|done]).
  split; [|done]. split; [done|]. split; [by apply suffix_cons_r|]. cbn. auto.
Qed.

Lemma orderly_parse_mfile fuel fs mfile name path :
  orderly (parse_mfile fuel fs mfile name path).
Proof.
  unfold parse_mfile. apply orderly_mbind; [apply orderly_read_tokens|].
  intros tks. apply orderly_mbind; [apply orderly_lift|]. intros tk0.
  repeat case_match;
    (apply orderly_mbind; [apply orderly_lift|intros; apply orderly_mret]).
Qed.

Lemma orderly_matlabify fuel fs basedir objname :
  orderly (matlabify fuel fs basedir objname).
Proof.
  unfold matlabify. case_match; [apply orderly_mret|].
  destruct (OsPath.split _) as [path name].
  repeat case_match.
  - apply orderly_mbind; [apply orderly_MatModule_init|intros; apply orderly_mret].
  - apply orderly_mbind; [apply orderly_parse_mfile|intros; apply orderly_mret].
  - apply orderly_mret.
Qed.

Lemma orderly_MatModule_getter fuel fs self name :
  orderly (MatModule_getter fuel fs self name).
Proof.
  unfold MatModule_getter.
  repeat case_match; try apply orderly_mret; try apply orderly_lift.
  apply orderly_mbind; [apply orderly_matlabify|].
  intros [o|]; apply orderly_mret.
Qed.

Lemma orderly_search_folders fuel fs b dirs :
  orderly (search_folders fuel fs b dirs).
Proof.
  induction dirs as [|m dirs IH]; [apply orderly_mret|].
  intros w. cbn [search_folders].
  destruct (sys_modules w !! m) as [module|]; [|apply IH].
  apply orderly_mbind; [apply orderly_MatModule_getter|].
  intros b_. case_match; [apply orderly_mret|apply IH].
Qed.

Lemma orderly_search_bases fuel fs root dirs files bases :
  forall bases_, orderly (search_bases fuel fs root dirs files bases bases_).
Proof.
  induction bases as [|b bases IH]; intros bases_; [apply orderly_mret|].
  cbn [search_bases].
  apply orderly_mbind; [apply orderly_search_folders|]. intros found.
  apply orderly_mbind; [apply orderly_lift|]. intros cur.
  repeat case_match; try apply IH.
  apply orderly_mbind; [apply orderly_parse_mfile|intros; apply orderly_mret].
Qed.

Lemma orderly_walk_loop fuel fs triples bases :
  forall bases_, orderly (walk_loop fuel fs triples bases bases_).
Proof.
  induction triples as [|[[root dirs] files] triples IH]; intros bases_;
    [apply orderly_mret|].
  cbn [walk_loop].
  apply orderly_mbind; [apply orderly_search_bases|].
  intros [d|o]; [apply IH|apply orderly_mret].
Qed.

Lemma orderly_MatClass_bases fuel fs self : orderly (MatClass_bases fuel fs self).
Proof.
  intros w. unfold MatClass_bases.
  destruct (sys_modules w !! cls_module self) as [module|].
  - apply orderly_walk_loop.
  - split; [apply extends_refl|done].
Qed.

(** X10: resolution never takes a name out of the registry, never gives
    an identity twice and never forgets a file it opened; and when every
    module of the registry is stored under its own name, that is still so
    after [matlabify], after [MatModule.getter] and after
    [MatClass.__bases__], whatever they return. *)
Theorem resolution_keeps_registry (fuel : nat) (fs : FsNode) (w : World) :
  registry_ok w ->
  (forall basedir objname,
     let w' := (matlabify fuel fs basedir objname w).2 in
     registry_ok w' /\ extends w w') /\
  (forall self name,
     let w' := (MatModule_getter fuel fs self name w).2 in
     registry_ok w' /\ extends w w') /\
  (forall self,
     let w' := (MatClass_bases fuel fs self w).2 in
     registry_ok w' /\ extends w w').
Proof.
  intros Hok. split; [|split].
  - intros basedir objname.
    destruct (orderly_matlabify fuel fs basedir objname w). auto.
  - intros self name.
    destruct (orderly_MatModule_getter fuel fs self name w). auto.
  - intros self.
    destruct (orderly_MatClass_bases fuel fs self w). auto.
Qed.

Lemma resolution_keeps_registry_witness :
  registry_ok (matlabify 50 precedence_fs "src" "a.util" world0).2 /\
  extends world0 (matlabify 50 precedence_fs "src" "a.util" world0).2.
Proof.
  apply (resolution_keeps_registry 50 precedence_fs world0).
  intros k m. cbn. by rewrite lookup_empty.
Defined.

(** X11: [matlabify] returns [None] exactly when the name is empty or its
    path is neither a directory nor, with [.m] appended, a file; and then
    it leaves the registry, the identities and the log of opened files as
    they were. *)
Theorem matlabify_none_iff (fuel : nat) (fs : FsNode) (basedir objname : string)
    (w : World) :
  ((matlabify fuel fs basedir objname w).1 = OK None <->
   objname = EmptyString \/
   (OsPath.isdir fs (OsPath.join basedir (PyStr.replace "." "/" objname)) = false /\
    OsPath.isfile fs (OsPath.join basedir (PyStr.replace "." "/" objname) +:+ ".m")
    = false)) /\
  ((matlabify fuel fs basedir objname w).1 = OK None ->
   (matlabify fuel fs basedir objname w).2 = w).
Proof.
  destruct (decide (objname = EmptyString)) as [-> | Hne].
  { cbn. split; [split; auto|done]. }
  destruct (OsPath.isdir fs (OsPath.join basedir (PyStr.replace "." "/" objname)))
    eqn:Hdir.
  { rewrite matlabify_module by done. cbn. split; [|done].
    split; [done|]. by intros [?|[? _]]. }
  unfold matlabify, str_eqb. rewrite bool_decide_eq_false_2 by exact Hne.
  destruct (OsPath.split (PyStr.replace "." "/" objname)) as [path name].
  rewrite Hdir.
  destruct (OsPath.isfile fs (OsPath.join basedir (PyStr.replace "." "/" objname) +:+ ".m"))
    eqn:Hfile.
  2:{ cbn. split; [|done]. split; auto. }
  destruct (parse_mfile_outcome fuel fs _ name path Hfile) as (r & _ & Hr).
  unfold mbind, mret. rewrite Hr.
  destruct r as [o| |]; cbn; (split; [|done]); (split; [done|]);
    by intros [?|[_ ?]].
Qed.

(** ** The dictionary of [__bases__] *)

Lemma given_by_getter_mono fuel fs w0 w w' w1 b v :
  extends w0 w -> extends w' w1 ->
  given_by_getter fuel fs w w' b v -> given_by_getter fuel fs w0 w1 b v.
Proof.
  intros H0 H1 (k & module & wa & wb & Ha & Hb & Hk & Hg).
  exists k, module, wa, wb.
  split; [by eapply extends_trans|]. split; [by eapply extends_trans|]. done.
Qed.

Lemma bases_dict_ok_mono fuel fs w0 w w' bases d :
  extends w w' ->
  bases_dict_ok fuel fs w0 w bases d -> bases_dict_ok fuel fs w0 w' bases d.
Proof.
  intros He [Hk Hv]. split; [exact Hk|].
  intros b v Hb. destruct (Hv b v Hb) as [->|[Ht Hg]]; [by left|right].
  split; [exact Ht|].
  eapply given_by_getter_mono; [apply extends_refl|exact He|exact Hg].
Qed.

(** What [search_folders] finds is truthy and comes from the getter of a
    module of the registry. *)
Lemma search_folders_given fuel fs b dirs : forall w b_ w',
  search_folders fuel fs b dirs w = (OK (Some b_), w') ->
  truthy b_ = true /\ given_by_getter fuel fs w w' b b_.
Proof.
  induction dirs as [|m dirs IH]; intros w b_ w'; [discriminate|].
  cbn [search_folders].
  destruct (sys_modules w !! m) as [module|] eqn:Hm; [|apply IH].
  intros H. apply mbind_OK in H as (v & w1 & Hg & H).
  assert (He : extends w w1).
  { pose proof (proj1 (orderly_MatModule_getter fuel fs module b w)) as He.
    by rewrite Hg in He. }
  destruct (truthy v) eqn:Hv.
  - injection H as <- <-. split; [exact Hv|].
    exists m, module, w, w1.
    split; [apply extends_refl|]. split; [apply extends_refl|]. done.
  - destruct (IH _ _ _ H) as [Ht Hgiven]. split; [exact Ht|].
    eapply given_by_getter_mono; [exact He|apply extends_refl|exact Hgiven].
Qed.

Lemma bases_dict_ok_insert fuel fs w0 w bases d b v :
  bases_dict_ok fuel fs w0 w bases d -> is_Some (d !! b) ->
  truthy v = true -> given_by_getter fuel fs w0 w b v ->
  bases_dict_ok fuel fs w0 w bases (<[b := v]> d).
Proof.
  intros [Hk Hv] Hb Ht Hg. split.
  - intros b'. destruct (decide (b = b')) as [<-|Hne].
    + rewrite lookup_insert_eq. split; [intros _; by apply Hk|eauto].
    + by rewrite lookup_insert_ne.
  - intros b' v'. destruct (decide (b = b')) as [<-|Hne].
    + rewrite lookup_insert_eq. intros [= <-]. by right.
    + rewrite lookup_insert_ne by done. apply Hv.
Qed.

Lemma search_bases_dict fuel fs w0 root dirs files all bases :
  forall bases_ w d w',
    extends w0 w ->
    bases_dict_ok fuel fs w0 w all bases_ -> Forall (fun b => b ∈ all) bases ->
    search_bases fuel fs root dirs files bases bases_ w = (OK (inl d), w') ->
    extends w0 w' /\ bases_dict_ok fuel fs w0 w' all d.
Proof.
  induction bases as [|b bases IH]; intros bases_ w d w' He Hok Hin.
  - cbn. by intros [= <- <-].
  - apply Forall_cons in Hin as [Hb Hin]. cbn [search_bases]. intros H.
    apply mbind_OK in H as (found & w1 & Hf & H).
    assert (He1 : extends w w1).
    { pose proof (proj1 (orderly_search_folders fuel fs b dirs w)) as He1.
      by rewrite Hf in He1. }
    assert (He01 : extends w0 w1) by (by eapply extends_trans).
    assert (Hok' : bases_dict_ok fuel fs w0 w1 all
                     match found with Some b_ => <[b := b_]> bases_ | None => bases_ end).
    { pose proof (bases_dict_ok_mono _ _ _ _ _ _ _ He1 Hok) as Hok1.
      destruct found as [b_|]; [|done].
      destruct (search_folders_given _ _ _ _ _ _ _ Hf) as [Ht Hg].
      apply bases_dict_ok_insert; [done| |done|].
      - by apply Hok.
      - eapply given_by_getter_mono; [exact He|apply extends_refl|exact Hg]. }
    apply mbind_OK in H as (cur & w2 & Hc & H).
    assert (w2 = w1) as -> by (unfold lift in Hc; by injection Hc as _ <-).
    destruct (truthy cur); [by eapply IH|].
    destruct (str_in (b +:+ ".m") files); [|by eapply IH].
    apply mbind_OK in H as (o & w3 & _ & H). discriminate H.
Qed.

Lemma walk_loop_dict fuel fs w0 all triples :
  forall bases_ w d w',
    extends w0 w ->
    bases_dict_ok fuel fs w0 w all bases_ ->
    walk_loop fuel fs triples all bases_ w = (OK (BasesDict d), w') ->
    bases_dict_ok fuel fs w0 w' all d.
Proof.
  induction triples as [|[[root dirs] files] triples IH]; intros bases_ w d w' He Hok.
  - cbn. by intros [= <- <-].
  - cbn [walk_loop]. intros H.
    apply mbind_OK in H as ([d1|o] & w1 & Hs & H); [|discriminate H].
    assert (Hall : Forall (fun b => b ∈ all) all) by (by apply Forall_forall).
    destruct (search_bases_dict _ _ _ _ _ _ _ _ _ _ _ _ He Hok Hall Hs)
      as [He1 Hok1].
    by eapply IH.
Qed.

(** The dictionary [dict.fromkeys(self.bases)]. *)
Lemma bases_init_lookup (bases : list string) b :
  (list_to_map (map (fun b => (b, VNone)) bases) : gmap string PyVal) !! b
  = if decide (b ∈ bases) then Some VNone else None.
Proof.
  induction bases as [|x bases IH]; cbn [map list_to_map foldr fst snd].
  - rewrite lookup_empty. by rewrite decide_False by apply not_elem_of_nil.
  - destruct (decide (x = b)) as [->|Hne].
    + rewrite lookup_insert_eq. by rewrite decide_True by apply list_elem_of_here.
    + rewrite lookup_insert_ne by done. rewrite IH.
      destruct (decide (b ∈ bases)) as [Hb|Hb].
      * by rewrite decide_True by (by apply list_elem_of_further).
      * rewrite decide_False; [done|]. rewrite elem_of_cons. intros [->|?]; done.
Qed.

(** X12: whenever [__bases__] returns a dictionary, its keys are the
    names in [bases], no more and no fewer, and each is bound to [None]
    (nothing found) or to a truthy object that the getter of a module of
    [sys.modules] returned for that name in the course of the call. *)
Theorem bases_dictionary_keys (fuel : nat) (fs : FsNode) (self : MatClass)
    (w w' : World) (d : gmap string PyVal) :
  MatClass_bases fuel fs self w = (OK (BasesDict d), w') ->
  (forall b, is_Some (d !! b) <-> b ∈ cls_bases self) /\
  (forall b v, d !! b = Some v ->
     v = VNone \/
     (truthy v = true /\
      exists k module w1 w2,
        extends w w1 /\ extends w2 w' /\
        sys_modules w1 !! k = Some module /\
        MatModule_getter fuel fs module b w1 = (OK v, w2))).
Proof.
  unfold MatClass_bases.
  destruct (sys_modules w !! cls_module self) as [module|]; [|discriminate].
  intros H.
  apply (walk_loop_dict fuel fs w) in H; [exact H|apply extends_refl|].
  split.
  - intros b. rewrite bases_init_lookup. case_decide; [|split; [by intros [? ?]|done]].
    split; [done|eauto].
  - intros b v. rewrite bases_init_lookup. case_decide; [|done].
    intros [= <-]. by left.
Qed.

Lemma bases_dictionary_keys_witness :
  MatClass_bases 50 base_in_package_fs qux_class pkg_world
  = (OK (BasesDict {["Baz" := VObj (ObjClass baz_class)]}),
     after_open "src/pkg/Baz.m" pkg_world) /\
  (forall b,
     is_Some (({["Baz" := VObj (ObjClass baz_class)]} : gmap string PyVal) !! b)
     <-> b ∈ cls_bases qux_class) /\
  (forall b v,
     ({["Baz" := VObj (ObjClass baz_class)]} : gmap string PyVal) !! b = Some v ->
     v = VNone \/
     (truthy v = true /\
      exists k module w1 w2,
        extends pkg_world w1 /\ extends w2 (after_open "src/pkg/Baz.m" pkg_world) /\
        sys_modules w1 !! k = Some module /\
        MatModule_getter 50 base_in_package_fs module b w1 = (OK v, w2))).
Proof.
  assert (H : MatClass_bases 50 base_in_package_fs qux_class pkg_world
              = (OK (BasesDict {["Baz" := VObj (ObjClass baz_class)]}),
                 after_open "src/pkg/Baz.m" pkg_world))
    by (vm_compute; reflexivity).
  split; [exact H|].
  exact (bases_dictionary_keys 50 base_in_package_fs qux_class pkg_world
           (after_open "src/pkg/Baz.m" pkg_world)
           {["Baz" := VObj (ObjClass baz_class)]} H).
Defined.

(** ** Members of a package *)

Lemma split_nonempty sep s : PyStr.split sep s <> [].
Proof.
  destruct s as [|c s]; cbn [PyStr.split]; [done|].
  destruct (Ascii.eqb c sep); [done|]. by destruct (PyStr.split sep s).
Qed.

(** Splitting at a separator splits the list of parts. *)
Lemma split_app_sep sep a b :
  PyStr.split sep (a +:+ String sep b) = (PyStr.split sep a ++ PyStr.split sep b)%list.
Proof.
  induction a as [|c a IH].
  - change (PyStr.split sep (String sep b) = EmptyString :: PyStr.split sep b).
    cbn [PyStr.split]. by rewrite Ascii.eqb_refl.
  - change (PyStr.split sep (String c (a +:+ String sep b))
            = (PyStr.split sep (String c a) ++ PyStr.split sep b)%list).
    cbn [PyStr.split]. rewrite IH. destruct (Ascii.eqb c sep); [done|].
    pose proof (split_nonempty sep a).
    by destruct (PyStr.split sep a).
Qed.

Lemma join_cons_char sep c h t :
  PyStr.join sep (String c h :: t) = String c (PyStr.join sep (h :: t)).
Proof. by destruct t. Qed.

Lemma join_cons_cons sep p q rest :
  PyStr.join sep (p :: q :: rest) = p +:+ sep +:+ PyStr.join sep (q :: rest).
Proof. reflexivity. Qed.

(** Joining the parts of a split gives the string back. *)
Lemma join_split sep s :
  PyStr.join (String sep EmptyString) (PyStr.split sep s) = s.
Proof.
  induction s as [|c s IH]; cbn [PyStr.split]; [done|].
  destruct (Ascii.eqb c sep) eqn:Hc.
  - apply Ascii.eqb_eq in Hc as ->.
    pose proof (split_nonempty sep s).
    destruct (PyStr.split sep s) as [|h t] eqn:Hs; [done|].
    rewrite join_cons_cons, IH. reflexivity.
  - pose proof (split_nonempty sep s).
    destruct (PyStr.split sep s) as [|h t] eqn:Hs; [done|].
    rewrite join_cons_char. by rewrite IH.
Qed.

(** A dotted name without slashes has as many path components as it has
    parts. *)
Lemma split_replace_length p :
  PyStr.mem "/" p = false ->
  List.length (PyStr.split "/" (PyStr.replace "." "/" p))
  = List.length (PyStr.split "." p).
Proof.
  induction p as [|c p IH]; [done|]. cbn [PyStr.mem PyStr.replace PyStr.split].
  destruct (Ascii.eqb "/" c) eqn:Hs; [done|]. intros Hm.
  destruct (Ascii.eqb c ".") eqn:Hd.
  - cbn. by rewrite IH.
  - rewrite Ascii.eqb_sym, Hs. specialize (IH Hm).
    pose proof (split_nonempty "/" (PyStr.replace "." "/" p)).
    pose proof (split_nonempty "." p).
    destruct (PyStr.split "/" (PyStr.replace "." "/" p)),
      (PyStr.split "." p); done.
Qed.

Lemma replace_no_slash_prefix p :
  PyStr.mem "/" p = false -> String.prefix "." p = false ->
  String.prefix "/" (PyStr.replace "." "/" p) = false.
Proof.
  destruct p as [|c p]; [done|]. intros Hm Hp.
  cbn [PyStr.mem] in Hm. destruct (Ascii.eqb "/" c) eqn:Hs; [done|].
  apply Ascii.eqb_neq in Hs.
  cbn [String.prefix] in Hp.
  destruct (ascii_dec "." c) as [<-|Hd]; [destruct p; discriminate Hp|].
  assert (Hc : Ascii.eqb c "." = false) by (apply Ascii.eqb_neq; congruence).
  cbn [PyStr.replace]. rewrite Hc. cbn [String.prefix].
  by destruct (ascii_dec "/" c).
Qed.

(** The base directory that [getter] computes from the path and the
    package of a module is the one the module was resolved from. *)
Lemma rsplit_head_join basedir p :
  basedir <> EmptyString -> PyStr.endswith basedir "/" = false ->
  PyStr.mem "/" p = false -> String.prefix "." p = false ->
  rsplit_head (List.length (PyStr.split "." p))
              (OsPath.join basedir (PyStr.replace "." "/" p))
  = basedir.
Proof.
  intros Hne Hend Hslash Hdot. unfold OsPath.join.
  rewrite replace_no_slash_prefix by done.
  unfold str_eqb. rewrite bool_decide_eq_false_2 by done. rewrite Hend.
  cbn [orb].
  change (basedir +:+ "/" +:+ PyStr.replace "." "/" p)
    with (basedir +:+ String "/" (PyStr.replace "." "/" p)).
  unfold rsplit_head. rewrite split_app_sep, length_app, split_replace_length by done.
  rewrite Nat.add_sub.
  pose proof (split_nonempty "/" basedir) as Hs.
  replace (Nat.max 1 (List.length (PyStr.split "/" basedir)))
    with (List.length (PyStr.split "/" basedir))
    by (destruct (PyStr.split "/" basedir); [done|cbn; lia]).
  rewrite take_app_length. apply (join_split "/").
Qed.

(** What [matlabify] returns as a module is the directory of the name. *)
Lemma matlabify_module_inv fuel fs basedir objname w m w1 :
  matlabify fuel fs basedir objname w = (OK (Some (ObjModule m)), w1) ->
  mod_path m = OsPath.join basedir (PyStr.replace "." "/" objname) /\
  mod_package m = objname /\
  mod_name m = (OsPath.split (PyStr.replace "." "/" objname)).2 /\
  OsPath.isdir fs (OsPath.join basedir (PyStr.replace "." "/" objname)) = true.
Proof.
  destruct (decide (objname = EmptyString)) as [-> | Hne]; [discriminate|].
  destruct (OsPath.isdir fs (OsPath.join basedir (PyStr.replace "." "/" objname)))
    eqn:Hdir.
  { rewrite matlabify_module by done. by intros [= <- _]. }
  unfold matlabify, str_eqb. rewrite bool_decide_eq_false_2 by exact Hne.
  destruct (OsPath.split (PyStr.replace "." "/" objname)) as [path name].
  rewrite Hdir.
  destruct (OsPath.isfile fs (OsPath.join basedir (PyStr.replace "." "/" objname) +:+ ".m"))
    eqn:Hfile; [|discriminate].
  destruct (parse_mfile_outcome fuel fs _ name path Hfile) as (r & Hnm & Hr).
  unfold mbind, mret. rewrite Hr.
  destruct r as [o| |]; [|discriminate..].
  intros [= -> _]. by destruct (Hnm m).
Qed.

(** X13: a member of a package is resolved against the directory the
    package was resolved from: for a module that [matlabify] returned for
    the dotted name [p] under [basedir], [getter(name)] with a name that
    [getter] does not answer itself is [matlabify(basedir, p.name)], and
    [None] where that is [None], provided [basedir] is not empty and does
    not end in a slash, and [p] has no slash and no leading dot. *)
Theorem getter_resolves_in_package (fuel : nat) (fs : FsNode)
    (basedir p : string) (w w1 : World) (m : MatModule) (name : string) (w' : World) :
  matlabify fuel fs basedir p w = (OK (Some (ObjModule m)), w1) ->
  basedir <> EmptyString -> PyStr.endswith basedir "/" = false ->
  PyStr.mem "/" p = false -> String.prefix "." p = false ->
  name ∉ module_special_names ->
  MatModule_getter fuel fs m name w'
  = (as_value (matlabify fuel fs basedir (p +:+ "." +:+ name) w').1,
     (matlabify fuel fs basedir (p +:+ "." +:+ name) w').2).
Proof.
  intros Hm Hne Hend Hslash Hdot Hname.
  destruct (matlabify_module_inv _ _ _ _ _ _ _ Hm) as (Hpath & Hpkg & _ & _).
  unfold MatModule_getter, str_eqb.
  unfold module_special_names in Hname.
  rewrite !not_elem_of_cons in Hname.
  destruct Hname as (H1 & H2 & H3 & H4 & H5 & H6 & _).
  rewrite !bool_decide_eq_false_2 by done.
  rewrite Hpath, Hpkg, rsplit_head_join by done.
  change (PyStr.join "." [p; name]) with (p +:+ "." +:+ name).
  unfold mbind, mret.
  destruct (matlabify fuel fs basedir (p +:+ "." +:+ name) w') as [[[o|]| |] w2];
    reflexivity.
Qed.

Lemma getter_resolves_in_package_witness :
  MatModule_getter 50 precedence_fs pkg_module "square" pkg_world
  = (as_value (matlabify 50 precedence_fs "src" ("pkg" +:+ "." +:+ "square") pkg_world).1,
     (matlabify 50 precedence_fs "src" ("pkg" +:+ "." +:+ "square") pkg_world).2).
Proof.
  apply (getter_resolves_in_package 50 precedence_fs "src" "pkg" world0 pkg_world).
  - vm_compute. reflexivity.
  - discriminate.
  - reflexivity.
  - reflexivity.
  - reflexivity.
  - unfold module_special_names. rewrite !not_elem_of_cons.
    repeat split; try discriminate. apply not_elem_of_nil.
Defined.

(** ** The properties of a class and [MatClass.getter] *)

Lemma entries_ok_insert props k e :
  entries_ok props -> is_Some (pe_docstring e) ->
  names_in prop_attr_types (pe_attrs e) -> no_list (pe_attrs e) ->
  entries_ok (<[k := e]> props).
Proof.
  intros Hp Hd Hn Hl k' e'. destruct (decide (k = k')) as [<- | Hne].
  - rewrite lookup_insert_eq. by intros [= <-].
  - rewrite lookup_insert_ne by done. apply Hp.
Qed.

(** One property of a block keeps the entries in order. *)
Lemma property_step_entries fuel tokens attr_dict st st' :
  no_list attr_dict -> names_in prop_attr_types attr_dict ->
  entries_ok (bs_properties st) ->
  property_step fuel tokens attr_dict st = OK st' ->
  entries_ok (bs_properties st').
Proof.
  intros Hl Hn Hp H. unfold property_step in H.
  apply rbind_OK in H as (i1 & _ & H).
  apply rbind_OK in H as (t & _ & H).
  destruct (negb (ttype_is t.1 Name)); [discriminate|].
  apply rbind_OK in H as (i2 & _ & H).
  apply rbind_OK in H as (c & _ & H).
  apply rbind_OK in H as ([entry i3] & He & H).
  assert (Hattrs : pe_attrs entry = attr_dict).
  { destruct c.
    - apply rbind_OK in He as (i4 & _ & He).
      apply rbind_OK in He as ([default i5] & _ & He).
      apply rbind_OK in He as (t' & _ & He).
      injection He as <- _. by destruct (negb (str_eqb default EmptyString)).
    - by injection He as <- _. }
  apply rbind_OK in H as (t2 & _ & H).
  destruct (ttype_is t2.1 Comment);
    apply rbind_OK in H as (w & _ & H); injection H as <-;
    cbn [bs_properties]; apply entries_ok_insert; cbn [pe_docstring pe_attrs];
    rewrite ?Hattrs; done.
Qed.

Lemma method_step_properties fuel tokens modname attr_dict st st' :
  method_step fuel tokens modname attr_dict st = OK st' ->
  bs_properties st' = bs_properties st.
Proof.
  intros H. unfold method_step in H.
  apply rbind_OK in H as (i1 & _ & H).
  apply rbind_OK in H as (meth & _ & H).
  apply rbind_OK in H as ([len_meth meth'] & _ & H).
  apply rbind_OK in H as (w & _ & H). by injection H as <-.
Qed.

(** One pass over the class body keeps the entries in order. *)
Lemma class_body_step_entries fuel tokens modname st st' :
  entries_ok (bs_properties st) ->
  class_body_step fuel tokens modname st = OK st' ->
  entries_ok (bs_properties st').
Proof.
  intros Hp H. unfold class_body_step in H.
  apply rbind_OK in H as (i1 & _ & H).
  apply rbind_OK in H as (c & _ & H).
  apply rbind_OK in H as (st1 & H1 & H).
  assert (Hp1 : entries_ok (bs_properties st1)).
  { destruct c; [|by injection H1 as <-].
    apply rbind_OK in H1 as ([attr_dict i2] & Ha & H1).
    apply rbind_OK in H1 as (st2 & Hw & H1). injection H1 as <-.
    destruct (attributes_inv _ _ _ _ _ _ Ha) as [Hl Hn].
    cbn [with_idx bs_properties].
    apply (while_invariant (fun s => entries_ok (bs_properties s))) in Hw;
      [exact Hw| |exact Hp].
    intros s s' Hs Hb. by eapply property_step_entries. }
  apply rbind_OK in H as (c2 & _ & H).
  destruct c2; [|by injection H as <-].
  apply rbind_OK in H as ([attr_dict i2] & _ & H).
  apply rbind_OK in H as (st2 & Hw & H). injection H as <-.
  cbn [with_idx bs_properties].
  apply (while_invariant (fun s => entries_ok (bs_properties s))) in Hw;
    [exact Hw| |exact Hp1].
  intros s s' Hs Hb. by rewrite (method_step_properties _ _ _ _ _ _ Hb).
Qed.

(** The entries of a class that the parser returns are in order. *)
Lemma MatClass_init_entries fuel tokens name modname c :
  MatClass_init fuel tokens name modname = OK c -> entries_ok (cls_properties c).
Proof.
  intros H. unfold MatClass_init in H.
  apply rbind_OK in H as (u & _ & H).
  apply rbind_OK in H as ([[attrs bases] i1] & _ & H).
  apply rbind_OK in H as ([docstring i2] & _ & H).
  apply rbind_OK in H as (st & Hb & H). injection H as <-.
  cbn [cls_properties]. unfold class_body in Hb.
  apply (while_invariant (fun s => entries_ok (bs_properties s))) in Hb;
    [exact Hb| |].
  - intros s s' Hs Hstep. by eapply class_body_step_entries.
  - intros k e. cbn [bs_properties]. by rewrite lookup_empty.
Qed.

Lemma not_special_tests name :
  name ∉ class_special_names ->
  str_eqb name "__name__" = false /\ str_eqb name "__doc__" = false /\
  str_eqb name "__module__" = false /\ str_eqb name "__bases__" = false.
Proof.
  unfold class_special_names. rewrite !not_elem_of_cons.
  intros (H1 & H2 & H3 & H4 & _). unfold str_eqb.
  by rewrite !bool_decide_eq_false_2.
Qed.

(** [getter] on the name of a property whose key ['docstring'] is set. *)
Lemma getter_member_property fuel fs (c : MatClass) pn e w :
  cls_properties c !! pn = Some e -> pn ∉ class_special_names ->
  is_Some (pe_docstring e) ->
  getter_member fuel fs c pn w
  = (match property_of pn e with
     | Some p => OK (Some (MProperty p))
     | None => Raise (KeyError "default")
     end, w).
Proof.
  intros He Hpn [doc Hdoc].
  destruct (not_special_tests pn Hpn) as (H1 & H2 & H3 & H4).
  unfold getter_member. rewrite H1, H2, H3, H4, He.
  unfold property_of, MatProperty_init, mbind, lift, mret. rewrite Hdoc.
  by destruct (pe_default e).
Qed.

(** X14: for every class the parser returns, [getter] on the name of a
    property (other than [__name__], [__doc__], [__module__] and
    [__bases__]) leaves the interpreter state alone and either returns the
    [MatProperty] of that name, with the default, the docstring and the
    attributes of the entry, or raises [KeyError('default')], the latter
    exactly for an entry without the key ['default']; the key
    ['docstring'] is never missing, and the attributes are names of the
    table of property attributes, bound to [True], [False] or a string. *)
Theorem class_property_getter (fuel : nat) (fs : FsNode)
    (iterkeys : gmap string PropEntry -> list string)
    (tokens : list token) (name modname : string) (c : MatClass)
    (pn : string) (e : PropEntry) (w : World) :
  MatClass_init fuel tokens name modname = OK c ->
  cls_properties c !! pn = Some e ->
  pn ∉ class_special_names ->
  (forall k v, pe_attrs e !! k = Some v ->
     in_attr_types k prop_attr_types = true /\
     ((exists b, v = AVBool b) \/ (exists s, v = AVStr s))) /\
  exists docstring, pe_docstring e = Some docstring /\
    MatClass_getter fuel fs iterkeys c pn w
    = (match pe_default e with
       | Some default =>
           OK (CVMember (MProperty
                 {| prop_name := pn; prop_cls := CMatClass;
                    prop_attrs := pe_attrs e; prop_default := default;
                    prop_docstring := docstring |}))
       | None => Raise (KeyError "default")
       end, w).
Proof.
  intros Hc He Hpn.
  destruct (MatClass_init_entries _ _ _ _ _ Hc pn e He) as ([doc Hdoc] & Hn & Hl).
  split.
  - intros k v Hk. split; [apply Hn; by rewrite Hk|].
    destruct v as [b|s|l]; [eauto..|]. by destruct (Hl k l).
  - exists doc. split; [done|].
    unfold MatClass_getter, mbind.
    rewrite (getter_member_property fuel fs c pn e w He Hpn) by (by rewrite Hdoc).
    unfold property_of. rewrite Hdoc. by destruct (pe_default e).
Qed.

Lemma class_property_getter_witness :
  exists c e,
    MatClass_init 50 two_properties_tokens "Foo" "pkg" = OK c /\
    cls_properties c !! "x" = Some e /\
    pe_attrs e = {["Constant" := AVBool true]} /\
    pe_default e = Some (Some "1") /\
    pe_docstring e = Some (Some " the x") /\
    MatClass_getter 50 bases_fs keys_in_order c "x" world0
    = (OK (CVMember (MProperty
             {| prop_name := "x"; prop_cls := CMatClass;
                prop_attrs := pe_attrs e; prop_default := Some "1";
                prop_docstring := Some " the x" |})), world0).
Proof.
  assert (Hc : MatClass_init 50 two_properties_tokens "Foo" "pkg" = OK _)
    by (vm_compute; reflexivity).
  match type of Hc with _ = OK ?c =>
    exists c;
    assert (He : cls_properties c !! "x" = Some _) by (vm_compute; reflexivity)
  end.
  match type of He with _ = Some ?e => exists e end.
  assert (Hx : "x" ∉ class_special_names).
  { unfold class_special_names. rewrite !not_elem_of_cons.
    repeat split; try discriminate. apply not_elem_of_nil. }
  destruct (class_property_getter 50 bases_fs keys_in_order _ _ _ _ _ _ world0 Hc He Hx)
    as [_ (doc & Hdoc & Hg)].
  split; [exact Hc|]. split; [exact He|].
  split; [vm_compute; reflexivity|]. split; [reflexivity|]. split; [reflexivity|].
  cbn [pe_docstring] in Hdoc. injection Hdoc as <-. exact Hg.
Defined.

(** ** The dictionary [__dict__] of a class *)

Lemma keys_in_order_lists_keys : lists_keys keys_in_order.
Proof.
  intros d k. unfold keys_in_order. rewrite list_elem_of_fmap. split.
  - intros ([k' e] & -> & Hin). apply elem_of_map_to_list in Hin. by exists e.
  - intros [e He]. exists (k, e). split; [done|]. by apply elem_of_map_to_list.
Qed.

(** [dict] of a list that pairs each name with a value made from it. *)
Lemma py_dict_map_lookup {V : Type} (g : string -> V) (pns : list string) k :
  py_dict (map (fun pn => (pn, g pn)) pns) !! k
  = if decide (k ∈ pns) then Some (g k) else None.
Proof.
  unfold py_dict.
  assert (H : forall acc : gmap string V,
             foldl (fun d kv => <[kv.1 := kv.2]> d) acc
                   (map (fun pn => (pn, g pn)) pns) !! k
             = if decide (k ∈ pns) then Some (g k) else acc !! k).
  { induction pns as [|x pns IH]; intros acc; cbn [map foldl fst snd].
    - by rewrite decide_False by apply not_elem_of_nil.
    - rewrite IH. destruct (decide (k ∈ pns)) as [Hin|Hin].
      + by rewrite decide_True by (by apply list_elem_of_further).
      + destruct (decide (x = k)) as [->|Hne].
        * rewrite lookup_insert_eq.
          by rewrite decide_True by apply list_elem_of_here.
        * rewrite lookup_insert_ne by done.
          rewrite decide_False; [done|]. rewrite elem_of_cons.
          intros [->|?]; done. }
  rewrite H. by rewrite lookup_empty.
Qed.

Lemma getter_nested_property fuel fs (c : MatClass) pn e w :
  cls_properties c !! pn = Some e -> pn ∉ class_special_names ->
  is_Some (pe_docstring e) ->
  getter_nested fuel fs c pn w
  = (match property_of pn e with
     | Some p => OK (MProperty p)
     | None => Raise (KeyError "default")
     end, w).
Proof.
  intros He Hpn Hdoc. unfold getter_nested, mbind.
  rewrite (getter_member_property fuel fs c pn e w He Hpn Hdoc).
  by destruct (property_of pn e).
Qed.

(** The comprehension over names of properties: every call of [getter]
    gives a property, or one of them raises [KeyError('default')]; the
    interpreter state stays as it is. *)
Lemma objdict_items_properties fuel fs (c : MatClass) w :
  entries_ok (cls_properties c) ->
  forall pns,
    Forall (fun pn => is_Some (cls_properties c !! pn) /\ pn ∉ class_special_names) pns ->
    (Exists (fun pn => exists e, cls_properties c !! pn = Some e /\ pe_default e = None) pns /\
     objdict_items fuel fs c pns w = (Raise (KeyError "default"), w))
    \/
    (Forall (fun pn => exists e, cls_properties c !! pn = Some e /\ is_Some (pe_default e)) pns /\
     objdict_items fuel fs c pns w
     = (OK (map (fun pn => (pn, item_of (cls_properties c) pn)) pns), w)).
Proof.
  intros Hok. induction pns as [|pn pns IH]; intros Hpns.
  - right. split; [constructor|reflexivity].
  - apply Forall_cons in Hpns as [[[e He] Hpn] Hpns].
    destruct (Hok pn e He) as ([doc Hdoc] & _ & _).
    cbn [objdict_items]. unfold mbind.
    rewrite (getter_nested_property fuel fs c pn e w He Hpn) by (by rewrite Hdoc).
    assert (Hitem : item_of (cls_properties c) pn
                    = match property_of pn e with
                      | Some p => MProperty p
                      | None => MNone
                      end)
      by (unfold item_of; by rewrite He).
    unfold property_of in *. rewrite Hdoc in *.
    destruct (pe_default e) as [default|] eqn:Hdef.
    + destruct (IH Hpns) as [[Hex Hr]|[Hall Hr]]; rewrite Hr.
      * left. split; [by apply Exists_cons_tl|reflexivity].
      * right. split.
        { apply Forall_cons. split; [|exact Hall]. exists e. by rewrite Hdef. }
        cbn [map mret]. by rewrite Hitem.
    + left. split; [|reflexivity]. apply Exists_cons_hd. by exists e.
Qed.

(** X15: for every class the parser returns whose properties are not
    named [__name__], [__doc__], [__module__] or [__bases__] and which has
    no property or method named [__dict__], [getter('__dict__')] leaves
    the interpreter state alone, in whatever order the properties are
    gone through. If some property has no key ['default'] it raises
    [KeyError('default')]; otherwise every property has its
    [MatProperty] and the dictionary returned has as keys the names of
    the properties and of the methods, a name of both bound to the
    method, every other to its [MatProperty] or its method. *)
Theorem class_dict_contents (fuel : nat) (fs : FsNode)
    (iterkeys : gmap string PropEntry -> list string)
    (tokens : list token) (name modname : string) (c : MatClass) (w : World) :
  lists_keys iterkeys ->
  MatClass_init fuel tokens name modname = OK c ->
  Forall (fun pn => pn ∉ class_special_names) (iterkeys (cls_properties c)) ->
  cls_properties c !! "__dict__" = None ->
  cls_methods c !! "__dict__" = None ->
  ((exists pn e, cls_properties c !! pn = Some e /\ pe_default e = None) /\
   MatClass_getter fuel fs iterkeys c "__dict__" w = (Raise (KeyError "default"), w))
  \/
  ((forall pn e, cls_properties c !! pn = Some e -> is_Some (property_of pn e)) /\
   exists objdict,
     MatClass_getter fuel fs iterkeys c "__dict__" w = (OK (CVDict objdict), w) /\
     forall k,
       objdict !! k
       = match cls_methods c !! k with
         | Some m => Some (MMethod m)
         | None => MProperty <$> (cls_properties c !! k ≫= property_of k)
         end).
Proof.
  intros Hkeys Hc Hspecial Hp Hm.
  pose proof (MatClass_init_entries _ _ _ _ _ Hc) as Hok.
  assert (Hg : getter_member fuel fs c "__dict__" w = (OK None, w)).
  { unfold getter_member. rewrite Hp, Hm. reflexivity. }
  assert (Hpns : Forall (fun pn => is_Some (cls_properties c !! pn) /\
                                   pn ∉ class_special_names)
                        (iterkeys (cls_properties c))).
  { rewrite Forall_forall in Hspecial. apply Forall_forall. intros pn Hin.
    split; [by apply Hkeys|by apply Hspecial]. }
  assert (Hget : MatClass_getter fuel fs iterkeys c "__dict__" w
                 = match objdict_items fuel fs c (iterkeys (cls_properties c)) w with
                   | (OK items, w1) =>
                       (OK (CVDict ((MMethod <$> cls_methods c) ∪ py_dict items)), w1)
                   | (Raise e, w1) => (Raise e, w1)
                   | (OutOfFuel, w1) => (OutOfFuel, w1)
                   end).
  { unfold MatClass_getter, mbind. rewrite Hg.
    change (str_eqb "__dict__" "__dict__") with true. cbn match. cbn beta.
    by destruct (objdict_items fuel fs c (iterkeys (cls_properties c)) w)
      as [[items| |] w1]. }
  rewrite Hget.
  destruct (objdict_items_properties fuel fs c w Hok _ Hpns) as [[Hex Hr]|[Hall Hr]];
    rewrite Hr.
  - left. split; [|reflexivity].
    apply Exists_exists in Hex as (pn & _ & e & He & Hdef). by exists pn, e.
  - right. rewrite Forall_forall in Hall. split.
    + intros pn e He. destruct (Hall pn) as (e' & He' & [d Hd]); [apply Hkeys; eauto|].
      rewrite He in He'. injection He' as <-.
      destruct (Hok pn e He) as ([doc Hdoc] & _ & _).
      unfold property_of. rewrite Hd, Hdoc. eauto.
    + eexists. split; [reflexivity|]. intros k.
      rewrite lookup_union, lookup_fmap, py_dict_map_lookup.
      destruct (cls_methods c !! k) as [m|]; cbn.
      { by case_decide. }
      case_decide as Hin.
      * destruct (Hall k Hin) as (e & He & [d Hd]).
        destruct (Hok k e He) as ([doc Hdoc] & _ & _).
        unfold item_of, property_of. rewrite He. cbn. by rewrite Hd, Hdoc.
      * destruct (cls_properties c !! k) as [e|] eqn:He; [|done].
        exfalso. apply Hin, Hkeys. eauto.
Qed.

Lemma class_dict_contents_witness :
  exists c objdict,
    MatClass_init 50 two_properties_tokens "Foo" "pkg" = OK c /\
    MatClass_getter 50 bases_fs keys_in_order c "__dict__" world0
    = (OK (CVDict objdict), world0) /\
    forall k,
      objdict !! k
      = match cls_methods c !! k with
        | Some m => Some (MMethod m)
        | None => MProperty <$> (cls_properties c !! k ≫= property_of k)
        end.
Proof.
  assert (Hc : MatClass_init 50 two_properties_tokens "Foo" "pkg" = OK _)
    by (vm_compute; reflexivity).
  match type of Hc with _ = OK ?c => exists c; set (cls := c) in * end.
  assert (Hs : Forall (fun pn => pn ∉ class_special_names)
                      (keys_in_order (cls_properties cls))).
  { change (keys_in_order (cls_properties cls)) with ["y"; "x"].
    repeat constructor; unfold class_special_names; rewrite !not_elem_of_cons;
      (repeat split; try discriminate; apply not_elem_of_nil). }
  destruct (class_dict_contents 50 bases_fs keys_in_order two_properties_tokens
              "Foo" "pkg" cls world0 keys_in_order_lists_keys Hc Hs)
    as [[(pn & e & He & Hdef) _]|[_ (objdict & Hg & Hl)]].
  - reflexivity.
  - reflexivity.
  - exfalso. revert He Hdef.
    change (cls_properties cls)
      with (<["x" := {| pe_attrs := {["Constant" := AVBool true]};
                        pe_default := Some (Some "1");
                        pe_docstring := Some (Some " the x") |}]>
             (<["y" := {| pe_attrs := {["Constant" := AVBool true]};
                          pe_default := Some None;
                          pe_docstring := Some None |}]> ∅) : gmap string PropEntry).
    destruct (decide ("x" = pn)) as [<-|Hx].
    + rewrite lookup_insert_eq. by intros [= <-].
    + rewrite lookup_insert_ne by done. destruct (decide ("y" = pn)) as [<-|Hy].
      * rewrite lookup_insert_eq. by intros [= <-].
      * rewrite lookup_insert_ne by done. by rewrite lookup_empty.
  - exists objdict. split; [exact Hc|]. split; [exact Hg|exact Hl].
Defined.
